(** * LazyKitty: build lifecycle and manifest serving

    A shallow embedding of the API package of LazyKitty (upload route, webhook
    route, KV service, builder service, manifest generation, manifest route)
    and of the builder's manifest generation, with the properties of the
    design document checked against it.

    Conventions.
    - An optional TypeScript field [f?: T], and any value the code guards
      with [?.], [??] or a truthiness test, is an [option T]; [None] is
      JavaScript's [undefined].
    - [new Date().toISOString()] reads a clock: every handler takes the
      readings it makes as arguments, one per call site.
    - The local KV service re-reads its JSON file before every operation and
      writes it back after every update, so the store holds values, never
      references into a handler's objects. File I/O of the KV service is
      taken to succeed.
    - Requests and events are served one after the other: a handler runs to
      its end before the next one starts. The one place where the order of
      the steps inside an operation is followed is the build lock
      ([Module LockSteps]).
    - A request body is cast to its TypeScript type without a check. The
      model follows the cast where the code branches on the value (the
      [status] of a webhook payload, a [null] metadata); the other
      properties are taken at their declared types.
    - [Object.prototype] is as the engine made it. A handler that assigns
      to it ends in [Polluted], and the model does not follow the process
      any further. *)

From stdpp Require Import base option list gmap strings pretty.
From Stdlib Require Import ZArith String Ascii Lia Sorted.

Local Open Scope string_scope.
Local Open Scope list_scope.

(** ** JavaScript helpers *)

(** Truthiness of a possibly-undefined string: [undefined] and [""] are falsy. *)
Definition truthy (o : option string) : bool :=
  match o with
  | Some s => negb (String.eqb s "")
  | None => false
  end.

(** [a ?? b] on a possibly-undefined value. *)
Definition nullish {A} (o : option A) (d : A) : A :=
  match o with
  | Some a => a
  | None => d
  end.

(** ** packages/shared/src/types.ts *)

(** A JSON value; a number, an array and an object are kept as the text
    [JSON.stringify] gives them. *)
Inductive Json :=
  | JNull
  | JBool (b : bool)
  | JNumber (text : string)
  | JString (s : string)
  | JArray (text : string)
  | JObject (text : string).

(** The [status] property of a build object or of a webhook payload. The
    seven names are those of [BuildStatus]; nothing checks the property at
    run time, so it also holds whatever else a webhook body carried there
    ([StOther (Some v)]), or is missing ([StOther None], [undefined]). *)
Inductive BuildStatus :=
  | StPending | StDownloading | StInstalling | StBuilding | StUploading
  | StSuccess | StFailed
  | StOther (raw : option Json).

(** The string a status is, when it is one. *)
Definition statusName (s : BuildStatus) : option string :=
  match s with
  | StPending => Some "pending"
  | StDownloading => Some "downloading"
  | StInstalling => Some "installing"
  | StBuilding => Some "building"
  | StUploading => Some "uploading"
  | StSuccess => Some "success"
  | StFailed => Some "failed"
  | StOther (Some (JString name)) => Some name
  | StOther _ => None
  end.

(** [status === name] *)
Definition statusIs (s : BuildStatus) (name : string) : bool :=
  match statusName s with
  | Some n => String.eqb n name
  | None => false
  end.

Inductive Platform := PIos | PAndroid | PAll.

Record ExpoClientConfig := {
  cfg_name : option string;
  cfg_slug : option string;
  cfg_owner : option string;
  cfg_rest : list (string * string)
}.

Record AssetMetadata := {
  am_key : string;
  am_hash : string;
  am_contentType : string;
  am_fileExtension : option string;
  am_path : string
}.

Record ExpoAsset := {
  ea_key : string;
  ea_hash : string;
  ea_contentType : string;
  ea_fileExtension : option string;
  ea_url : string
}.

Record ManifestExtra := {
  ex_scopeKey : option string;
  ex_expoClient : option ExpoClientConfig;
  ex_rest : list (string * string)
}.

Record ExpoManifest := {
  m_id : string;
  m_createdAt : string;
  m_runtimeVersion : string;
  m_launchAsset : ExpoAsset;
  m_assets : list ExpoAsset;
  m_metadata : list (string * string);
  m_extra : option ManifestExtra
}.

Record Build := {
  b_id : string;
  b_projectSlug : string;
  b_status : BuildStatus;
  b_platform : Platform;
  b_runtimeVersion : string;
  b_createdAt : string;
  b_updatedAt : string;
  b_completedAt : option string;
  b_error : option string;
  b_expoConfig : option ExpoClientConfig;
  b_manifest : option ExpoManifest;
  b_assets : option (list AssetMetadata)
}.

Record UploadRequest := {
  ur_projectSlug : option string;
  ur_platform : option Platform;
  ur_runtimeVersion : option string;
  ur_expoConfig : option ExpoClientConfig
}.

(** The body of a webhook request after [c.req.json() as WebhookPayload].
    The [status] is typed ['success' | 'failed'], but the cast checks
    nothing: it is whatever the body carried. *)
Record WebhookPayload := {
  wp_buildId : string;
  wp_status : BuildStatus;
  wp_error : option string;
  wp_manifest : option ExpoManifest;
  wp_assets : option (list AssetMetadata)
}.

(** Only [success] and [failed] are terminal. *)
Definition isTerminal (s : BuildStatus) : bool :=
  statusIs s "success" || statusIs s "failed".

(** Field updates on a build object ([build.f = v]). *)
Definition set_status (v : BuildStatus) (b : Build) : Build :=
  {| b_id := b_id b; b_projectSlug := b_projectSlug b; b_status := v;
     b_platform := b_platform b; b_runtimeVersion := b_runtimeVersion b;
     b_createdAt := b_createdAt b; b_updatedAt := b_updatedAt b;
     b_completedAt := b_completedAt b; b_error := b_error b;
     b_expoConfig := b_expoConfig b; b_manifest := b_manifest b;
     b_assets := b_assets b |}.

Definition set_updatedAt (v : string) (b : Build) : Build :=
  {| b_id := b_id b; b_projectSlug := b_projectSlug b; b_status := b_status b;
     b_platform := b_platform b; b_runtimeVersion := b_runtimeVersion b;
     b_createdAt := b_createdAt b; b_updatedAt := v;
     b_completedAt := b_completedAt b; b_error := b_error b;
     b_expoConfig := b_expoConfig b; b_manifest := b_manifest b;
     b_assets := b_assets b |}.

Definition set_completedAt (v : option string) (b : Build) : Build :=
  {| b_id := b_id b; b_projectSlug := b_projectSlug b; b_status := b_status b;
     b_platform := b_platform b; b_runtimeVersion := b_runtimeVersion b;
     b_createdAt := b_createdAt b; b_updatedAt := b_updatedAt b;
     b_completedAt := v; b_error := b_error b;
     b_expoConfig := b_expoConfig b; b_manifest := b_manifest b;
     b_assets := b_assets b |}.

Definition set_error (v : option string) (b : Build) : Build :=
  {| b_id := b_id b; b_projectSlug := b_projectSlug b; b_status := b_status b;
     b_platform := b_platform b; b_runtimeVersion := b_runtimeVersion b;
     b_createdAt := b_createdAt b; b_updatedAt := b_updatedAt b;
     b_completedAt := b_completedAt b; b_error := v;
     b_expoConfig := b_expoConfig b; b_manifest := b_manifest b;
     b_assets := b_assets b |}.

Definition set_manifest (v : option ExpoManifest) (b : Build) : Build :=
  {| b_id := b_id b; b_projectSlug := b_projectSlug b; b_status := b_status b;
     b_platform := b_platform b; b_runtimeVersion := b_runtimeVersion b;
     b_createdAt := b_createdAt b; b_updatedAt := b_updatedAt b;
     b_completedAt := b_completedAt b; b_error := b_error b;
     b_expoConfig := b_expoConfig b; b_manifest := v;
     b_assets := b_assets b |}.

Definition set_assets (v : option (list AssetMetadata)) (b : Build) : Build :=
  {| b_id := b_id b; b_projectSlug := b_projectSlug b; b_status := b_status b;
     b_platform := b_platform b; b_runtimeVersion := b_runtimeVersion b;
     b_createdAt := b_createdAt b; b_updatedAt := b_updatedAt b;
     b_completedAt := b_completedAt b; b_error := b_error b;
     b_expoConfig := b_expoConfig b; b_manifest := b_manifest b;
     b_assets := v |}.

(** ** packages/shared/src/constants.ts *)

Definition API_VERSION : string := "v1".
Definition EXPO_PROTOCOL_VERSION : string := "1".
Definition EXPO_SFV_VERSION : string := "0".
Definition BUILD_TIMEOUT_MS : N := 15 * 60 * 1000.
Definition MAX_TARBALL_SIZE_BYTES : N := 100 * 1024 * 1024.
Definition DEFAULT_RUNTIME_VERSION : string := "exposdk:52.0.0".
Definition ROUTES_WEBHOOK : string := "/" +:+ API_VERSION +:+ "/webhook/build-complete".
Definition STORAGE_PATHS_TARBALL (buildId : string) : string :=
  "tarballs/" +:+ buildId +:+ ".tar.gz".
Definition MIME_TYPES_JAVASCRIPT : string := "application/javascript".

(** ** The world the handlers run in *)

(** [LocalKVData]: the content of the KV service's JSON file. *)
Record LocalKVData := {
  builds : gmap string Build;
  apiKeys : list string;
  buildLock : bool
}.

Inductive BuilderType := Docker | Process.

(** A spawned builder child together with its pending timeout. The closure
    of the timeout (and of the child's event handlers) holds the [build]
    object that the upload handler created and [triggerBuild] updated. *)
Record Job := {
  job_builder : BuilderType;
  job_build : Build;
  job_timer : bool   (* the timeout is still pending *)
}.

Record World := {
  kv : LocalKVData;
  jobs : list Job
}.

Definition with_kv (f : LocalKVData -> LocalKVData) (w : World) : World :=
  {| kv := f (kv w); jobs := jobs w |}.

Definition with_jobs (f : list Job -> list Job) (w : World) : World :=
  {| kv := kv w; jobs := f (jobs w) |}.

(** ** A state-and-exception monad for the asynchronous handlers *)

(** What a [throw] carries: an [Error] with its message, or some other value. *)
Inductive Thrown := ErrorObj (message : string) | OtherValue.

(** How a handler ends: it returns, it throws, or it has assigned to
    [Object.prototype], which every object of the process inherits from,
    those of the libraries included: what the process does from then on is
    outside the model. *)
Inductive Outcome (A : Type) :=
  | Ret (a : A)
  | Throw (e : Thrown)
  | Polluted.
Arguments Ret {A} a.
Arguments Throw {A} e.
Arguments Polluted {A}.

Definition M (A : Type) : Type := World -> Outcome A * World.

Definition ret {A} (a : A) : M A := fun w => (Ret a, w).

Definition raise {A} (e : Thrown) : M A := fun w => (Throw e, w).

Definition pollute {A} : M A := fun w => (Polluted, w).

Definition bind {A B} (c : M A) (k : A -> M B) : M B :=
  fun w =>
    match c w with
    | (Ret a, w') => k a w'
    | (Throw e, w') => (Throw e, w')
    | (Polluted, w') => (Polluted, w')
    end.

(** [try { body } catch (error) { handler }] *)
Definition try_catch {A} (body : M A) (handler : Thrown -> M A) : M A :=
  fun w =>
    match body w with
    | (Ret a, w') => (Ret a, w')
    | (Throw e, w') => handler e w'
    | (Polluted, w') => (Polluted, w')
    end.

Declare Scope M_scope.
Delimit Scope M_scope with M.
Notation "x ← y ; z" := (bind y (fun x => z))
  (at level 20, y at level 100, z at level 200, only parsing) : M_scope.
Notation "y ;; z" := (bind y (fun _ => z))
  (at level 100, z at level 200, only parsing, right associativity) : M_scope.
Local Open Scope M_scope.

(** ** services/kv.ts: LocalKVService *)

(** The names every object inherits from [Object.prototype]. Under
    [__proto__] sits the prototype object itself, under the others a
    function. *)
Definition Object_prototype_keys : list string :=
  ["constructor"; "__defineGetter__"; "__defineSetter__"; "hasOwnProperty";
   "__lookupGetter__"; "__lookupSetter__"; "isPrototypeOf";
   "propertyIsEnumerable"; "toString"; "valueOf"; "__proto__";
   "toLocaleString"].

Definition inheritedKey (key : string) : bool :=
  existsb (String.eqb key) Object_prototype_keys.

(** What [data.builds[buildId]] evaluates to when it is not [undefined]:
    a stored record (an own property of the parsed object), or, for an id
    that names no record but a member of [Object.prototype], that member:
    an object of the process, shared by all requests. *)
Inductive Looked :=
  | Stored (build : Build)
  | Inherited (key : string).

(** [data.builds[buildId] ?? null] *)
Definition getBuild (buildId : string) : M (option Looked) :=
  fun w =>
    (Ret (match builds (kv w) !! buildId with
          | Some build => Some (Stored build)
          | None => if inheritedKey buildId then Some (Inherited buildId) else None
          end), w).

(** [build.status] of what the lookup gave. A function of
    [Object.prototype] has the status an earlier webhook for its key has
    assigned to it ([inherited_status], which the handler finds in the
    process, not in the store); the prototype itself has none. *)
Definition lookedStatus (inherited_status : BuildStatus) (found : Looked) : BuildStatus :=
  match found with
  | Stored build => b_status build
  | Inherited key =>
      if String.eqb key "__proto__" then StOther None else inherited_status
  end.

Definition setBuild (build : Build) : M unit :=
  fun w =>
    (Ret tt,
     with_kv (fun d => {| builds := <[b_id build := build]> (builds d);
                          apiKeys := apiKeys d;
                          buildLock := buildLock d |}) w).

(** [setBuild] handed a function of [Object.prototype]: the function has no
    [id], so the assignment [data.builds[build.id] = build] goes to the key
    [undefined], and [JSON.stringify] leaves a property out whose value is a
    function: the file is written without that key. *)
Definition setBuild_inherited : M unit :=
  fun w =>
    (Ret tt,
     with_kv (fun d => {| builds := delete "undefined" (builds d);
                          apiKeys := apiKeys d;
                          buildLock := buildLock d |}) w).

Definition set_lock (v : bool) (d : LocalKVData) : LocalKVData :=
  {| builds := builds d; apiKeys := apiKeys d; buildLock := v |}.

(** [acquireBuildLock] as a call that no other call overlaps: load, test,
    assignment and save in one step. The call awaits between these; its
    steps, and what two overlapping calls do, are in [LockSteps] below. *)
Definition acquireBuildLock : M bool :=
  fun w =>
    if buildLock (kv w)
    then (Ret false, w)
    else (Ret true, with_kv (set_lock true) w).

Definition releaseBuildLock : M unit :=
  fun w => (Ret tt, with_kv (set_lock false) w).

Definition isBuildLocked : M bool :=
  fun w => (Ret (buildLock (kv w)), w).

(** ** HTTP responses *)

Inductive Body :=
  | ErrorBody (error : string)                       (* { error } *)
  | NotReadyBody (error : string) (status : BuildStatus) (* { error, status } *)
  | UploadBody (buildId : string) (status : BuildStatus) (* UploadResponse *)
  | SuccessBody                                      (* { success: true } *)
  | ManifestBody (manifest : ExpoManifest)           (* c.json(manifest) *)
  | TextBody (text : string).                        (* c.body(text) *)

(** A response. [r_headers] lists the headers the handler has set with
    [c.header] and that the response still carries; the content type that
    [c.json] writes itself is not listed. *)
Record Response := {
  r_status : nat;
  r_headers : list (string * string);
  r_body : Body
}.

(** [c.header(name, value)]: the header is set, in place of an earlier
    value of the same name. *)
Definition c_header (name value : string) (headers : list (string * string))
    : list (string * string) :=
  List.filter (fun h => negb (String.eqb (fst h) name)) headers ++ [(name, value)].

(** [c.json(body, status)] after the handler has set [headers]: [c.json]
    writes its own content type, so one the handler has set is lost. *)
Definition c_json (headers : list (string * string)) (body : Body) (status : nat)
    : Response :=
  {| r_status := status;
     r_headers :=
       List.filter (fun h => negb (String.eqb (fst h) "Content-Type")) headers;
     r_body := body |}.

(** [c.json(body, status)] with no header set by the handler. *)
Definition json (body : Body) (status : nat) : Response := c_json [] body status.

(** [app.onError]: what the client gets when a handler throws. *)
Definition app_onError (handler : M Response) : M Response :=
  try_catch handler (fun err => ret (json (ErrorBody "Internal server error") 500)).

(** ** services/builder.ts *)

(** [spawn(...)]: the child is started, or the call throws. *)
Definition spawn (fault : option Thrown) : M unit :=
  match fault with
  | Some e => raise e
  | None => ret tt
  end.

(** [setTimeout(..., BUILD_TIMEOUT_MS)] and the registration of the child's
    [close] and [error] handlers. Time itself is not modelled: a pending
    timer may fire at any later step. *)
Definition setTimeout (j : Job) : M unit :=
  fun w => (Ret tt, with_jobs (fun js => js ++ [j]) w).

Definition LocalDockerBuilder_triggerBuild
    (spawnFault : option Thrown) (now : string) (build : Build) : M unit :=
  let build := set_updatedAt now (set_status StPending build) in
  setBuild build;;
  spawn spawnFault;;
  setTimeout {| job_builder := Docker; job_build := build; job_timer := true |}.

Definition LocalProcessBuilder_triggerBuild
    (spawnFault : option Thrown) (now : string) (build : Build) : M unit :=
  let build := set_updatedAt now (set_status StPending build) in
  setBuild build;;
  spawn spawnFault;;
  setTimeout {| job_builder := Process; job_build := build; job_timer := true |}.

(** [getBuilder().triggerBuild]: the variant chosen by [initBuilder]. *)
Definition triggerBuild (builder : BuilderType) :
    option Thrown -> string -> Build -> M unit :=
  match builder with
  | Docker => LocalDockerBuilder_triggerBuild
  | Process => LocalProcessBuilder_triggerBuild
  end.

(** The timeout callback of [LocalDockerBuilder]: it logs and sends SIGTERM
    to the docker child; it touches neither [build], the store nor the lock. *)
Definition LocalDockerBuilder_timedOut (now : string) (build : Build) : Build :=
  build.

Definition LocalDockerBuilder_onTimeout (build : Build) (now : string) : M unit :=
  ret tt.

(** The timeout callback of [LocalProcessBuilder]: the assignments to the
    captured [build], then the two store calls. *)
Definition LocalProcessBuilder_timedOut (now : string) (build : Build) : Build :=
  let build := set_status StFailed build in
  let build := set_error (Some "Build timed out") build in
  set_updatedAt now build.

Definition LocalProcessBuilder_onTimeout (build : Build) (now : string) : M unit :=
  let build := LocalProcessBuilder_timedOut now build in
  setBuild build;;
  releaseBuildLock.

(** The [error] handlers of the two children. *)
Definition LocalDockerBuilder_errored (message now : string) (build : Build) : Build :=
  let build := set_status StFailed build in
  let build := set_error (Some ("Docker error: " +:+ message)) build in
  set_updatedAt now build.

Definition LocalDockerBuilder_onError (build : Build) (message now : string) : M unit :=
  let build := LocalDockerBuilder_errored message now build in
  setBuild build;;
  releaseBuildLock.

Definition LocalProcessBuilder_errored (message now : string) (build : Build) : Build :=
  let build := set_status StFailed build in
  let build := set_error (Some ("Process error: " +:+ message)) build in
  set_updatedAt now build.

Definition LocalProcessBuilder_onError (build : Build) (message now : string) : M unit :=
  let build := LocalProcessBuilder_errored message now build in
  setBuild build;;
  releaseBuildLock.

(** Dispatch on the variant that spawned the job. *)
Definition timedOut (j : Job) (now : string) : Build :=
  match job_builder j with
  | Docker => LocalDockerBuilder_timedOut now (job_build j)
  | Process => LocalProcessBuilder_timedOut now (job_build j)
  end.

Definition onTimeout (j : Job) (now : string) : M unit :=
  match job_builder j with
  | Docker => LocalDockerBuilder_onTimeout (job_build j) now
  | Process => LocalProcessBuilder_onTimeout (job_build j) now
  end.

Definition errored (j : Job) (message now : string) : Build :=
  match job_builder j with
  | Docker => LocalDockerBuilder_errored message now (job_build j)
  | Process => LocalProcessBuilder_errored message now (job_build j)
  end.

Definition onError (j : Job) (message now : string) : M unit :=
  match job_builder j with
  | Docker => LocalDockerBuilder_onError (job_build j) message now
  | Process => LocalProcessBuilder_onError (job_build j) message now
  end.

(** ** routes/upload.ts *)

(** A field of the multipart form: absent, a [File] of some size, or a string. *)
Inductive FormField :=
  | FieldMissing
  | FieldFile (size : N)
  | FieldString (s : string).

Record UploadForm := {
  form_tarball : FormField;
  form_metadata : FormField
}.

(** Everything the upload handler gets from outside the store: the JSON
    parser's verdict on the metadata ([None] when [JSON.parse] throws,
    [Some None] when the text is [null], else the properties the handler
    reads of the parsed value), the random id, the clock readings, the
    request URL, the configured builder and whether tarball persistence or
    the spawn of the builder throws. *)
Record UploadEnv := {
  JSON_parse : string -> option (option UploadRequest);
  nanoid : string;
  now_createdAt : string;
  now_updatedAt : string;
  now_trigger : string;
  url_protocol : string;
  url_host : string;
  storage_baseUrl : string;
  storage_fault : option Thrown;
  builder : BuilderType;
  spawn_fault : option Thrown
}.

(** [storage.uploadTarball]; the blob store itself is not modelled. *)
Definition uploadTarball (env : UploadEnv) (buildId : string) : M string :=
  match storage_fault env with
  | Some e => raise e
  | None =>
      ret (storage_baseUrl env +:+ "/storage/" +:+ STORAGE_PATHS_TARBALL buildId)
  end.

(** [error instanceof Error ? error.message : 'Upload failed'] *)
Definition thrownMessage (e : Thrown) : string :=
  match e with
  | ErrorObj message => message
  | OtherValue => "Upload failed"
  end.

(** Lines 73-86: the build record of a validated submission. *)
Definition newBuild (env : UploadEnv) (metadata : UploadRequest) : Build :=
  {| b_id := "bld_" +:+ nanoid env;
     b_projectSlug := nullish (ur_projectSlug metadata) "";
     b_status := StPending;
     b_platform := nullish (ur_platform metadata) PAll;
     b_runtimeVersion := nullish (ur_runtimeVersion metadata) DEFAULT_RUNTIME_VERSION;
     b_createdAt := now_createdAt env;
     b_updatedAt := now_updatedAt env;
     b_completedAt := None;
     b_error := None;
     b_expoConfig := ur_expoConfig metadata;
     b_manifest := None;
     b_assets := None |}.

(** Lines 66-117 of the handler: from the lock acquisition on. *)
Definition upload_locked (env : UploadEnv) (metadata : UploadRequest) : M Response :=
  lockAcquired ← acquireBuildLock;
  if negb lockAcquired
  then ret (json (ErrorBody "Failed to acquire build lock") 429)
  else
    try_catch
      (let build := newBuild env metadata in
       let buildId := b_id build in
       setBuild build;;
       tarballUrl ← uploadTarball env buildId;
       let baseUrl := url_protocol env +:+ "//" +:+ url_host env in
       let webhookUrl := baseUrl +:+ ROUTES_WEBHOOK in
       triggerBuild (builder env) (spawn_fault env) (now_trigger env) build;;
       ret (json (UploadBody buildId (b_status build)) 201))
      (fun error =>
         releaseBuildLock;;
         ret (json (ErrorBody (thrownMessage error)) 500)).

(** How the handler turns a submission down before it takes the lock: it
    answers, or it throws. *)
Inductive Rejected :=
  | Answered (response : Response)
  | Crashed (e : Thrown).

(** The [TypeError] of reading [metadata.projectSlug] on [null], in the
    wording of the Node.js engine; no code reads the message. *)
Definition TypeError_projectSlug_of_null : Thrown :=
  ErrorObj "Cannot read properties of null (reading 'projectSlug')".

(** Lines 28-64 of the handler: the form is parsed and validated; the first
    failing check decides the 400 response, and a valid form gives the
    metadata. The metadata is parsed inside a [try], but read outside it:
    on the text [null] the first read throws. *)
Definition validate (form : UploadForm) (env : UploadEnv) : Rejected + UploadRequest :=
  match form_tarball form with
  | FieldMissing | FieldString _ =>
      inl (Answered (json (ErrorBody "Missing tarball file") 400))
  | FieldFile size =>
      match form_metadata form with
      | FieldMissing | FieldFile _ =>
          inl (Answered (json (ErrorBody "Missing metadata") 400))
      | FieldString metadataJson =>
          if String.eqb metadataJson ""
          then inl (Answered (json (ErrorBody "Missing metadata") 400))
          else
            match JSON_parse env metadataJson with
            | None => inl (Answered (json (ErrorBody "Invalid metadata JSON") 400))
            | Some None => inl (Crashed TypeError_projectSlug_of_null)
            | Some (Some metadata) =>
                if negb (truthy (ur_projectSlug metadata))
                then inl (Answered
                       (json (ErrorBody "Missing projectSlug in metadata") 400))
                else if negb (truthy (ur_expoConfig metadata ≫= cfg_name))
                        || negb (truthy (ur_expoConfig metadata ≫= cfg_slug))
                then inl (Answered (json (ErrorBody
                       "Missing expoConfig.name or expoConfig.slug in metadata") 400))
                else if (MAX_TARBALL_SIZE_BYTES <? size)%N
                then inl (Answered
                       (json (ErrorBody "Tarball too large. Max size is 100MB") 400))
                else inr metadata
            end
      end
  end.

(** [upload.post('/')] *)
Definition upload (form : UploadForm) (env : UploadEnv) : M Response :=
  isLocked ← isBuildLocked;
  if isLocked
  then ret (json (ErrorBody "A build is already in progress. Please wait.") 429)
  else
    match validate form env with
    | inl (Answered badRequest) => ret badRequest
    | inl (Crashed e) => raise e
    | inr metadata => upload_locked env metadata
    end.

(** ** routes/webhook.ts *)

(** Lines 36-46 of the route: the assignments to the build object. *)
Definition webhookUpdated (payload : WebhookPayload) (now_updated now_completed : string)
    (build : Build) : Build :=
  let status := wp_status payload in
  let build := set_status status build in
  let build := set_updatedAt now_updated build in
  if statusIs status "success"
  then
    set_assets (wp_assets payload)
      (set_manifest (wp_manifest payload)
         (set_completedAt (Some now_completed) build))
  else if statusIs status "failed"
  then
    set_error (Some (nullish (wp_error payload) "Unknown error"))
      (set_completedAt (Some now_completed) build)
  else build.

(** [webhook.post('/build-complete')], for a body that parses as JSON to
    something other than [null] (the destructuring of [null] throws).
    [now_updated] and [now_completed] are the two clock readings. When the
    lookup gives a function of [Object.prototype], the assignments go to
    that function and the store is written without it; when it gives
    [Object.prototype] itself, they go to the prototype. *)
Definition webhook (payload : WebhookPayload) (now_updated now_completed : string)
    : M Response :=
  let buildId := wp_buildId payload in
  if String.eqb buildId ""
  then ret (json (ErrorBody "Missing buildId") 400)
  else
    found ← getBuild buildId;
    match found with
    | None => ret (json (ErrorBody "Build not found") 404)
    | Some (Stored build) =>
        let build := webhookUpdated payload now_updated now_completed build in
        setBuild build;;
        releaseBuildLock;;
        ret (json SuccessBody 200)
    | Some (Inherited key) =>
        if String.eqb key "__proto__"
        then pollute
        else
          setBuild_inherited;;
          releaseBuildLock;;
          ret (json SuccessBody 200)
    end.

(** ** The system as a transition system *)

(** The world after running a handler, and what the handler returned. *)
Definition exec {A} (c : M A) (w : World) : World := snd (c w).
Definition result {A} (c : M A) (w : World) : Outcome A := fst (c w).

(** The timer of job [i] has fired or was cleared; its closure keeps the
    build object as the callback left it. *)
Definition timerDone (i : nat) (j : Job) (build : Build) (w : World) : World :=
  with_jobs (fun js => <[i := {| job_builder := job_builder j;
                                 job_build := build;
                                 job_timer := false |}]> js) w.

(** The child of job [i] has exited: [clearTimeout], and no more events. *)
Definition childClosed (i : nat) (w : World) : World :=
  with_jobs (delete i) w.

(** The timeout of job [i] fires, if that job exists and its timer is still
    pending: the callback's assignments to the captured build, then its
    store calls. *)
Definition fireTimeout (i : nat) (now : string) (w : World) : World :=
  match jobs w !! i with
  | Some j =>
      if job_timer j
      then exec (onTimeout j now) (timerDone i j (timedOut j now) w)
      else w
  | None => w
  end.

(** [LocalKVService.load] on a missing file. *)
Definition defaultKVData : LocalKVData :=
  {| builds := ∅; apiKeys := ["lk_test_dev_key_12345"]; buildLock := false |}.

Definition initialWorld : World := {| kv := defaultKVData; jobs := [] |}.

(** One request or one event of a spawned child. A webhook delivery for
    the id [__proto__] is left out: it assigns to [Object.prototype]. *)
Inductive step : World -> World -> Prop :=
  | step_upload form env w :
      step w (exec (upload form env) w)
  | step_webhook payload now_updated now_completed w :
      wp_buildId payload <> "__proto__" ->
      step w (exec (webhook payload now_updated now_completed) w)
  | step_timeout i j now w :
      jobs w !! i = Some j ->
      job_timer j = true ->
      step w (exec (onTimeout j now) (timerDone i j (timedOut j now) w))
  | step_error i j message now w :
      jobs w !! i = Some j ->
      step w (exec (onError j message now) (timerDone i j (errored j message now) w))
  | step_close i j w :
      jobs w !! i = Some j ->
      step w (childClosed i w).

Definition reachable (w : World) : Prop := rtc step initialWorld w.

(** ** JavaScript string helpers *)

(** [s.includes(sub)] *)
Fixpoint includes (sub s : string) : bool :=
  if String.prefix sub s then true
  else match s with
       | EmptyString => false
       | String _ s' => includes sub s'
       end.

(** [s.slice(a, b)] for [0 <= a <= b] *)
Definition slice (a b : nat) (s : string) : string := substring a (b - a) s.

Fixpoint replicate_char (n : nat) (c : ascii) : string :=
  match n with
  | O => EmptyString
  | S n' => String c (replicate_char n' c)
  end.

(** [s.padStart(targetLength, c)] *)
Definition padStart (targetLength : nat) (c : ascii) (s : string) : string :=
  replicate_char (targetLength - String.length s) c +:+ s.

Definition hexDigit (n : Z) : ascii :=
  match n with
  | 0 => "0" | 1 => "1" | 2 => "2" | 3 => "3" | 4 => "4" | 5 => "5" | 6 => "6"
  | 7 => "7" | 8 => "8" | 9 => "9" | 10 => "a" | 11 => "b" | 12 => "c"
  | 13 => "d" | 14 => "e" | 15 => "f" | _ => "?"
  end%Z%char.

(** [b.toString(16)] for an element [b] of a [Uint8Array]. *)
Definition toString16 (b : Z) : string :=
  if (b <? 16)%Z
  then String (hexDigit b) EmptyString
  else String (hexDigit (b / 16)) (String (hexDigit (b mod 16)) EmptyString).

Definition CRLF : string := String (ascii_of_nat 13) (String (ascii_of_nat 10) EmptyString).
Definition dquote : string := String (ascii_of_nat 34) EmptyString.

(** [parts.join(sep)] *)
Definition join (sep : string) (parts : list string) : string := String.concat sep parts.

(** ** The shape of a version-4 UUID *)

Inductive CharClass := Hex | Dash | Version4 | Variant10.

Definition isHexChar (c : ascii) : bool :=
  let n := nat_of_ascii c in
  ((48 <=? n)%nat && (n <=? 57)%nat) || ((97 <=? n)%nat && (n <=? 102)%nat).

Definition classOk (k : CharClass) (c : ascii) : bool :=
  match k with
  | Hex => isHexChar c
  | Dash => Ascii.eqb c "-"
  | Version4 => Ascii.eqb c "4"
  | Variant10 => Ascii.eqb c "8" || Ascii.eqb c "9" || Ascii.eqb c "a" || Ascii.eqb c "b"
  end.

Fixpoint matchesPattern (p : list CharClass) (s : string) : bool :=
  match p, s with
  | [], EmptyString => true
  | k :: p', String c s' => classOk k c && matchesPattern p' s'
  | _, _ => false
  end.

(** xxxxxxxx-xxxx-4xxx-Nxxx-xxxxxxxxxxxx with N one of 8, 9, a, b. *)
Definition uuidPattern : list CharClass :=
  repeat Hex 8 ++ [Dash] ++ repeat Hex 4 ++ [Dash; Version4] ++ repeat Hex 3
  ++ [Dash; Variant10] ++ repeat Hex 3 ++ [Dash] ++ repeat Hex 12.

(** A string of exactly two characters, of the given classes. *)
Definition pairOk (k1 k2 : CharClass) (s : string) : bool :=
  match s with
  | String c1 (String c2 EmptyString) => classOk k1 c1 && classOk k2 c2
  | _ => false
  end.

Definition isByte (b : Z) : Prop := (0 <= b < 256)%Z.

(** The two objects the manifest route serialises with [JSON.stringify]. *)
Inductive JsObject :=
  | ObjManifest (manifest : ExpoManifest)
  | ObjExtensions.                      (* { assetRequestHeaders: {} } *)

(** ** lib/manifest.ts and routes/manifest.ts *)

Section Manifest.

(** [createHash('sha256').update(input).digest()], as the bytes of the
    digest, and [JSON.stringify]. *)
Variable sha256 : string -> list Z.
Variable JSON_stringify : JsObject -> string.

Definition generateUUID (input : string) : string :=
  let hash := sha256 input in
  let bytes := take 16 hash in
  let bytes := <[6%nat := Z.lor (Z.land (default 0%Z (bytes !! 6%nat)) 0x0f) 0x40]> bytes in
  let bytes := <[8%nat := Z.lor (Z.land (default 0%Z (bytes !! 8%nat)) 0x3f) 0x80]> bytes in
  let hex := join "" (map (fun b => padStart 2 "0" (toString16 b)) bytes) in
  slice 0 8 hex +:+ "-" +:+ slice 8 12 hex +:+ "-" +:+ slice 12 16 hex +:+ "-"
    +:+ slice 16 20 hex +:+ "-" +:+ slice 20 32 hex.

(** Lines 127-131 of [generateManifest]: the scopeKey of a build. *)
Definition scopeKeyOf (build : Build) : string :=
  let slug := nullish (b_expoConfig build ≫= cfg_slug) "app" in
  let owner : option string := b_expoConfig build ≫= cfg_owner in
  if truthy owner
  then "@" +:+ nullish owner "" +:+ "/" +:+ slug
  else "@anonymous/" +:+ slug.

Definition with_url (url : string) (a : ExpoAsset) : ExpoAsset :=
  {| ea_key := ea_key a; ea_hash := ea_hash a; ea_contentType := ea_contentType a;
     ea_fileExtension := ea_fileExtension a; ea_url := url |}.

Definition updateManifestUrls (manifest : ExpoManifest) (baseUrl buildId : string)
    : ExpoManifest :=
  let assetsBaseUrl := baseUrl +:+ "/v1/assets/" +:+ buildId in
  let id := if includes "-" (m_id manifest)
            then m_id manifest
            else generateUUID (m_id manifest) in
  let stored : option string := m_extra manifest ≫= ex_scopeKey in
  let scopeKey :=
    if truthy stored
    then nullish stored ""
    else if truthy ((m_extra manifest ≫= ex_expoClient) ≫= cfg_slug)
         then "@anonymous/"
                +:+ nullish ((m_extra manifest ≫= ex_expoClient) ≫= cfg_slug) ""
         else "@anonymous/app" in
  let resolve (url : string) :=
    if includes "://" url then url else assetsBaseUrl +:+ "/" +:+ url in
  {| m_id := id;
     m_createdAt := m_createdAt manifest;
     m_runtimeVersion := m_runtimeVersion manifest;
     m_launchAsset :=
       with_url (resolve (ea_url (m_launchAsset manifest))) (m_launchAsset manifest);
     m_assets := map (fun asset => with_url (resolve (ea_url asset)) asset)
                     (m_assets manifest);
     m_metadata := m_metadata manifest;
     m_extra := Some {| ex_scopeKey := Some scopeKey;
                        ex_expoClient := m_extra manifest ≫= ex_expoClient;
                        ex_rest := from_option ex_rest [] (m_extra manifest) |} |}.

(** [generateManifest(build, { baseUrl, platform })] of the API. *)
Definition generateManifest (build : Build) (baseUrl platform : string)
    : ExpoManifest :=
  match b_manifest build with
  | Some manifest => updateManifestUrls manifest baseUrl (b_id build)
  | None =>
      let assetsBaseUrl := baseUrl +:+ "/v1/assets/" +:+ b_id build in
      let launchAsset :=
        {| ea_key := "bundle"; ea_hash := "";
           ea_contentType := MIME_TYPES_JAVASCRIPT;
           ea_fileExtension := None;
           ea_url := assetsBaseUrl +:+ "/bundles/" +:+ platform +:+ ".js" |} in
      let assets :=
        map (fun asset =>
               {| ea_key := am_key asset; ea_hash := am_hash asset;
                  ea_contentType := am_contentType asset;
                  ea_fileExtension := am_fileExtension asset;
                  ea_url := assetsBaseUrl +:+ "/" +:+ am_path asset |})
            (List.filter (fun a => negb (String.eqb (am_key a) "bundle"))
                         (nullish (b_assets build) [])) in
      {| m_id := generateUUID (b_id build);
         m_createdAt := b_createdAt build;
         m_runtimeVersion := b_runtimeVersion build;
         m_launchAsset := launchAsset;
         m_assets := assets;
         m_metadata := [];
         m_extra := Some {| ex_scopeKey := Some (scopeKeyOf build);
                            ex_expoClient := b_expoConfig build;
                            ex_rest := [] |} |}
  end.

(** [createMultipartResponse] *)
Definition createMultipartResponse (manifestJson : JsObject) (boundary : string)
    : string :=
  let parts : list string := [] in
  let parts := parts ++ ["--" +:+ boundary] in
  let parts := parts ++ ["Content-Disposition: form-data; name="
                           +:+ dquote +:+ "manifest" +:+ dquote] in
  let parts := parts ++ ["Content-Type: application/json"] in
  let parts := parts ++ [EmptyString] in
  let parts := parts ++ [JSON_stringify manifestJson] in
  let parts := parts ++ ["--" +:+ boundary] in
  let parts := parts ++ ["Content-Disposition: form-data; name="
                           +:+ dquote +:+ "extensions" +:+ dquote] in
  let parts := parts ++ ["Content-Type: application/json"] in
  let parts := parts ++ [EmptyString] in
  let parts := parts ++ [JSON_stringify ObjExtensions] in
  let parts := parts ++ ["--" +:+ boundary +:+ "--"] in
  let parts := parts ++ [EmptyString] in
  join CRLF parts.

(** The [TypeError] of [createHash('sha256').update(undefined)], which
    [generateUUID(build.id)] runs into when the build object has no [id];
    the wording is that of Node.js, and no code reads the message. *)
Definition TypeError_hash_update_undefined : Thrown :=
  ErrorObj ("The " +:+ dquote +:+ "data" +:+ dquote
            +:+ " argument must be of type string or an instance of Buffer,"
            +:+ " TypedArray, or DataView. Received undefined").

(** The request as the manifest route reads it, with the one thing it
    reads from the process: [inherited_status], the status of the function
    of [Object.prototype] that the lookup may give (see [lookedStatus];
    [StOther None] when no webhook has assigned one). *)
Record ManifestRequest := {
  param_id : string;
  inherited_status : BuildStatus;
  hdr_platform : option string;
  hdr_runtimeVersion : option string;
  hdr_protocolVersion : option string;
  hdr_accept : option string;
  hdr_forwardedProto : option string;
  hdr_forwardedHost : option string;
  hdr_host : option string;
  req_url_protocol : string;
  req_url_host : string;
  Date_now : N
}.

Definition with_id (id : string) (m : ExpoManifest) : ExpoManifest :=
  {| m_id := id; m_createdAt := m_createdAt m;
     m_runtimeVersion := m_runtimeVersion m; m_launchAsset := m_launchAsset m;
     m_assets := m_assets m; m_metadata := m_metadata m; m_extra := m_extra m |}.

(** Lines 110-115 of the route: the six [c.header] calls. *)
Definition expoHeaders (manifestId : string) : list (string * string) :=
  [("expo-protocol-version", EXPO_PROTOCOL_VERSION);
   ("expo-sfv-version", EXPO_SFV_VERSION);
   ("expo-manifest-filters", EmptyString);
   ("expo-server-defined-headers", EmptyString);
   ("expo-update-id", manifestId);
   ("Cache-Control", "private, max-age=0")].

(** [manifest.get('/:id')] *)
Definition manifest_get (req : ManifestRequest) : M Response :=
  let buildId := param_id req in
  let platform := hdr_platform req in
  let protocolVersion := hdr_protocolVersion req in
  let accept := nullish (hdr_accept req) "" in
  if truthy protocolVersion
     && negb (String.eqb (nullish protocolVersion "") EXPO_PROTOCOL_VERSION)
  then ret (json (ErrorBody ("Unsupported protocol version: "
                               +:+ nullish protocolVersion "")) 400)
  else
    found ← getBuild buildId;
    match found with
    | None => ret (json (ErrorBody "Build not found") 404)
    | Some found =>
        let status := lookedStatus (inherited_status req) found in
        if negb (statusIs status "success")
        then ret (json (NotReadyBody "Build not ready" status) 404)
        else
          match found with
          | Inherited _ =>
              (* no [id]: [generateUUID(build.id)] throws, in
                 [generateManifest] or on line 104 *)
              raise TypeError_hash_update_undefined
          | Stored build =>
              let targetPlatform :=
                match platform with
                | Some p => if String.eqb p "ios" || String.eqb p "android"
                            then p else "ios"
                | None => "ios"
                end in
              let forwardedProto := hdr_forwardedProto req in
              let forwardedHost :=
                match hdr_forwardedHost req with
                | Some h => Some h
                | None => hdr_host req
                end in
              let protocol :=
                if truthy forwardedProto
                then nullish forwardedProto "" +:+ ":"
                else req_url_protocol req in
              let host := nullish forwardedHost (req_url_host req) in
              let baseUrl := protocol +:+ "//" +:+ host in
              let expoManifest := generateManifest build baseUrl targetPlatform in
              let manifestId := generateUUID (b_id build) in
              let manifestWithUUID := with_id manifestId expoManifest in
              let headers := expoHeaders manifestId in
              if includes "multipart/mixed" accept
              then
                let boundary :=
                  "----ExpoManifestBoundary-"
                    +:+ slice 0 22 (generateUUID (b_id build +:+ pretty (Date_now req))) in
                let body :=
                  createMultipartResponse (ObjManifest manifestWithUUID) boundary in
                ret {| r_status := 200;
                       r_headers := headers ++
                         [("Content-Type", "multipart/mixed; boundary=" +:+ boundary)];
                       r_body := TextBody body |}
              else
                (* [c.header('Content-Type', 'application/expo+json')], then
                   [c.json], which writes its own content type over it *)
                ret (c_json (c_header "Content-Type" "application/expo+json" headers)
                       (ManifestBody manifestWithUUID) 200)
          end
    end.

End Manifest.

(** ** packages/builder/src/build.ts *)

Module BuilderBuild.

Record Bundles := {
  bundles_ios : option string;
  bundles_android : option string
}.

(** The two errors [generateManifest] throws. *)
Inductive ManifestError :=
  | NoBundlePath (platform : string)
      (* No bundle path found for platform ${platform} *)
  | BundleNotFound (bundlePath platform : string).
      (* Bundle not found at path ${bundlePath} for platform ${platform} *)

Section WithPath.

(** [extname] of [node:path]. *)
Variable extname : string -> string.

(** Lines 635-637: the path of the launch bundle. *)
Definition bundlePathFor (bundles : Bundles) (platform : string) : option string :=
  if String.eqb platform "ios"
  then bundles_ios bundles
  else match bundles_android bundles with
       | Some p => Some p
       | None => bundles_ios bundles
       end.

(** [generateManifest] of the builder; [now] is its clock reading. *)
Definition generateManifest
    (buildId runtimeVersion : string) (expoConfig : option ExpoClientConfig)
    (assets : list AssetMetadata) (bundles : Bundles) (platform : string)
    (now : string) : ManifestError + ExpoManifest :=
  let bundlePath := bundlePathFor bundles platform in
  if negb (truthy bundlePath)
  then inl (NoBundlePath platform)
  else
    let bundlePath := nullish bundlePath "" in
    match List.find (fun a => String.eqb (am_path a) bundlePath) assets with
    | None => inl (BundleNotFound bundlePath platform)
    | Some bundleAsset =>
        let bundleExt := extname bundlePath in
        let bundleContentType :=
          if String.eqb bundleExt ".hbc"
          then "application/javascript"
          else MIME_TYPES_JAVASCRIPT in
        let launchAsset :=
          {| ea_key := "bundle"; ea_hash := am_hash bundleAsset;
             ea_contentType := bundleContentType;
             ea_fileExtension := None;
             ea_url := "bundles/" +:+ platform +:+ bundleExt |} in
        let bundlePaths :=
          omap (fun p => if truthy p then p else None)
               [bundles_ios bundles; bundles_android bundles] in
        let otherAssets :=
          map (fun asset =>
                 {| ea_key := am_key asset; ea_hash := am_hash asset;
                    ea_contentType := am_contentType asset;
                    ea_fileExtension := am_fileExtension asset;
                    ea_url := am_path asset |})
              (List.filter
                 (fun a => negb (existsb (String.eqb (am_path a)) bundlePaths)
                           && negb (String.eqb (am_path a) "metadata.json"))
                 assets) in
        let slug := nullish (expoConfig ≫= cfg_slug) "app" in
        let owner : option string := expoConfig ≫= cfg_owner in
        let scopeKey :=
          if truthy owner
          then "@" +:+ nullish owner "" +:+ "/" +:+ slug
          else "@anonymous/" +:+ slug in
        inr {| m_id := buildId;
               m_createdAt := now;
               m_runtimeVersion := runtimeVersion;
               m_launchAsset := launchAsset;
               m_assets := otherAssets;
               m_metadata := [];
               m_extra := Some {| ex_scopeKey := Some scopeKey;
                                  ex_expoClient := expoConfig;
                                  ex_rest := [] |} |}
    end.

End WithPath.

End BuilderBuild.

(** ** SHA-256 (FIPS 180-4)

    The function behind [createHash('sha256')] of [node:crypto]. The
    definitions of [lib/manifest.ts] above take the digest as a parameter;
    this implementation instantiates it in the examples. *)

Module SHA256.
Local Open Scope Z_scope.

Definition w32 (x : Z) : Z := x mod 2 ^ 32.
Definition add32 (x y : Z) : Z := w32 (x + y).
Definition rotr (n x : Z) : Z := Z.lor (Z.shiftr x n) (w32 (Z.shiftl x (32 - n))).
Definition not32 (x : Z) : Z := Z.lxor x 0xffffffff.

Definition Ch (x y z : Z) : Z := Z.lxor (Z.land x y) (Z.land (not32 x) z).
Definition Maj (x y z : Z) : Z :=
  Z.lxor (Z.lxor (Z.land x y) (Z.land x z)) (Z.land y z).
Definition Sigma0 (x : Z) : Z := Z.lxor (Z.lxor (rotr 2 x) (rotr 13 x)) (rotr 22 x).
Definition Sigma1 (x : Z) : Z := Z.lxor (Z.lxor (rotr 6 x) (rotr 11 x)) (rotr 25 x).
Definition sigma0 (x : Z) : Z := Z.lxor (Z.lxor (rotr 7 x) (rotr 18 x)) (Z.shiftr x 3).
Definition sigma1 (x : Z) : Z := Z.lxor (Z.lxor (rotr 17 x) (rotr 19 x)) (Z.shiftr x 10).

(** The first 64 primes. *)
Definition primes : list Z :=
  [2; 3; 5; 7; 11; 13; 17; 19; 23; 29; 31; 37; 41; 43; 47; 53; 59; 61; 67; 71; 73;
   79; 83; 89; 97; 101; 103; 107; 109; 113; 127; 131; 137; 139; 149; 151; 157; 163;
   167; 173; 179; 181; 191; 193; 197; 199; 211; 223; 227; 229; 233; 239; 241; 251;
   257; 263; 269; 271; 277; 281; 283; 293; 307; 311].

(** Integer cube root, one bit at a time from bit [bits - 1] down. *)
Fixpoint icbrt_bits (bits : nat) (n x : Z) : Z :=
  match bits with
  | O => x
  | S b =>
      let y := x + 2 ^ Z.of_nat b in
      icbrt_bits b n (if y * y * y <=? n then y else x)
  end.

Definition icbrt (n : Z) : Z := icbrt_bits 40 n 0.

(** The round constants: the first 32 bits of the fractional parts of the
    cube roots of the first 64 primes. *)
Definition K : list Z := map (fun p => w32 (icbrt (p * 2 ^ 96))) primes.

(** The first 32 bits of the fractional part of a square root. *)
Definition frac_sqrt (p : Z) : Z := w32 (Z.sqrt (p * 2 ^ 64)).

(** The eight working variables, and the hash value between blocks. *)
Record State := {
  ha : Z; hb : Z; hc : Z; hd : Z; he : Z; hf : Z; hg : Z; hh : Z
}.

(** The initial hash value, from the square roots of the first 8 primes. *)
Definition H0 : State :=
  {| ha := frac_sqrt 2; hb := frac_sqrt 3; hc := frac_sqrt 5; hd := frac_sqrt 7;
     he := frac_sqrt 11; hf := frac_sqrt 13; hg := frac_sqrt 17; hh := frac_sqrt 19 |}.

(** Padding: a 1 bit, zeros up to 56 mod 64 bytes, the bit length on 64 bits. *)
Definition be_bytes (n : nat) (x : Z) : list Z :=
  map (fun i => (x / 2 ^ (8 * Z.of_nat i)) mod 256) (rev (seq 0 n)).

Definition pad (msg : list Z) : list Z :=
  let len := Z.of_nat (List.length msg) in
  let zeros := Z.to_nat ((55 - len) mod 64) in
  msg ++ [0x80] ++ repeat 0 zeros ++ be_bytes 8 (8 * len).

Definition be_word (bs : list Z) : Z :=
  fold_left (fun acc b => acc * 256 + b) bs 0.

(** Cut a list into pieces of [n] elements ([fuel] bounds the pieces). *)
Fixpoint chunks {A} (fuel n : nat) (l : list A) : list (list A) :=
  match fuel with
  | O => []
  | S fuel' =>
      match l with
      | [] => []
      | _ => take n l :: chunks fuel' n (drop n l)
      end
  end.

(** The message schedule, latest word first. *)
Fixpoint extend (n : nat) (w : list Z) : list Z :=
  match n with
  | O => w
  | S n' =>
      let word i := nth i w 0 in
      extend n'
        (add32 (add32 (sigma1 (word 1%nat)) (word 6%nat))
               (add32 (sigma0 (word 14%nat)) (word 15%nat)) :: w)
  end.

Definition schedule (block : list Z) : list Z :=
  rev (extend 48 (rev (map be_word (chunks 16 4 block)))).

Definition round (s : State) (kw : Z * Z) : State :=
  let t1 := add32 (add32 (add32 (hh s) (Sigma1 (he s)))
                         (add32 (Ch (he s) (hf s) (hg s)) (fst kw))) (snd kw) in
  let t2 := add32 (Sigma0 (ha s)) (Maj (ha s) (hb s) (hc s)) in
  {| ha := add32 t1 t2; hb := ha s; hc := hb s; hd := hc s;
     he := add32 (hd s) t1; hf := he s; hg := hf s; hh := hg s |}.

Definition compress (h : State) (block : list Z) : State :=
  let s := fold_left round (combine K (schedule block)) h in
  {| ha := add32 (ha h) (ha s); hb := add32 (hb h) (hb s);
     hc := add32 (hc h) (hc s); hd := add32 (hd h) (hd s);
     he := add32 (he h) (he s); hf := add32 (hf h) (hf s);
     hg := add32 (hg h) (hg s); hh := add32 (hh h) (hh s) |}.

Definition digest_bytes (h : State) : list Z :=
  be_bytes 4 (ha h) ++ be_bytes 4 (hb h) ++ be_bytes 4 (hc h) ++ be_bytes 4 (hd h)
  ++ be_bytes 4 (he h) ++ be_bytes 4 (hf h) ++ be_bytes 4 (hg h) ++ be_bytes 4 (hh h).

Definition hash_bytes (msg : list Z) : list Z :=
  let padded := pad msg in
  digest_bytes (fold_left compress (chunks (List.length padded) 64 padded) H0).

(** The digest of a string, read as its bytes. *)
Definition digest (input : string) : list Z :=
  hash_bytes (map (fun c => Z.of_nat (nat_of_ascii c)) (list_ascii_of_string input)).

End SHA256.

(** ** Concrete worlds and inputs used by the examples below *)

Definition demoConfig : ExpoClientConfig :=
  {| cfg_name := Some "Demo"; cfg_slug := Some "app"; cfg_owner := Some "acme";
     cfg_rest := [] |}.

Definition demoMetadata : UploadRequest :=
  {| ur_projectSlug := Some "demo"; ur_platform := Some PIos;
     ur_runtimeVersion := None; ur_expoConfig := Some demoConfig |}.

Definition demoForm : UploadForm :=
  {| form_tarball := FieldFile 2048; form_metadata := FieldString "{...}" |}.

Definition demoEnv (b : BuilderType) (nano : string)
    (storageFault spawnFault : option Thrown) : UploadEnv :=
  {| JSON_parse := fun _ => Some (Some demoMetadata);
     nanoid := nano;
     now_createdAt := "2025-01-01T00:00:00.000Z";
     now_updatedAt := "2025-01-01T00:00:00.001Z";
     now_trigger := "2025-01-01T00:00:00.002Z";
     url_protocol := "http:";
     url_host := "localhost:3000";
     storage_baseUrl := "http://localhost:3000";
     storage_fault := storageFault;
     builder := b;
     spawn_fault := spawnFault |}.

(** A build in flight: one accepted submission, with either builder. *)
Definition inFlight (b : BuilderType) : World :=
  exec (upload demoForm (demoEnv b "AAAAAAAAAAAA" None None)) initialWorld.

Definition demoAsset : ExpoAsset :=
  {| ea_key := "bundle"; ea_hash := "h0"; ea_contentType := "application/javascript";
     ea_fileExtension := None; ea_url := "bundles/ios.js" |}.

Definition demoManifest : ExpoManifest :=
  {| m_id := "bld_AAAAAAAAAAAA"; m_createdAt := "2025-01-01T00:05:00.000Z";
     m_runtimeVersion := "exposdk:52.0.0"; m_launchAsset := demoAsset;
     m_assets := []; m_metadata := [];
     m_extra := Some {| ex_scopeKey := Some "@acme/app";
                        ex_expoClient := Some demoConfig; ex_rest := [] |} |}.

Definition failedPayload : WebhookPayload :=
  {| wp_buildId := "bld_AAAAAAAAAAAA"; wp_status := StFailed;
     wp_error := Some "expo export failed"; wp_manifest := None; wp_assets := None |}.

Definition successPayload (m : option ExpoManifest) : WebhookPayload :=
  {| wp_buildId := "bld_AAAAAAAAAAAA"; wp_status := StSuccess;
     wp_error := None; wp_manifest := m; wp_assets := Some [] |}.

Definition unknownPayload : WebhookPayload :=
  {| wp_buildId := "bld_unknown"; wp_status := StFailed;
     wp_error := None; wp_manifest := None; wp_assets := None |}.

(** A delivery whose build id names no record, but the property
    [constructor] that every object inherits. *)
Definition constructorPayload : WebhookPayload :=
  {| wp_buildId := "constructor"; wp_status := StFailed;
     wp_error := None; wp_manifest := None; wp_assets := None |}.

Definition emptyIdPayload : WebhookPayload :=
  {| wp_buildId := ""; wp_status := StFailed;
     wp_error := None; wp_manifest := None; wp_assets := None |}.

(** The outcome a payload describes is the one recorded on a build. *)
Definition sameOutcome (payload : WebhookPayload) (b : Build) : Prop :=
  b_status b = wp_status payload /\
  (statusIs (wp_status payload) "success" = true ->
     b_manifest b = wp_manifest payload /\ b_assets b = wp_assets payload) /\
  (statusIs (wp_status payload) "failed" = true ->
     b_error b = Some (nullish (wp_error payload) "Unknown error")).

(** The invariant of the design document, on every stored record. *)
Definition manifestIffSuccess (w : World) : Prop :=
  forall id b, builds (kv w) !! id = Some b ->
    (is_Some (b_manifest b) <-> b_status b = StSuccess).

(** The build in flight has failed (first delivery of [failedPayload]). *)
Definition afterFailure : World :=
  exec (webhook failedPayload "2025-01-01T00:05:00.000Z" "2025-01-01T00:05:00.001Z")
       (inFlight Process).

(** The same payload is delivered a second time, four seconds later. *)
Definition afterRedelivery : World :=
  exec (webhook failedPayload "2025-01-01T00:05:04.000Z" "2025-01-01T00:05:04.001Z")
       afterFailure.

(** After the failure, the next submission is accepted and in flight. *)
Definition laterBuildInFlight : World :=
  exec (upload demoForm (demoEnv Process "BBBBBBBBBBBB" None None)) afterFailure.

(** A success webhook whose payload carries no manifest. *)
Definition successWithoutManifest : World :=
  exec (webhook (successPayload None) "2025-01-01T00:05:00.000Z"
          "2025-01-01T00:05:00.001Z")
       (inFlight Process).

(** A success webhook with a manifest, followed by a failure webhook for the
    same build (the builder reports failure when its success call errors). *)
Definition successThenFailure : World :=
  exec (webhook failedPayload "2025-01-01T00:05:04.000Z" "2025-01-01T00:05:04.001Z")
    (exec (webhook (successPayload (Some demoManifest)) "2025-01-01T00:05:00.000Z"
             "2025-01-01T00:05:00.001Z")
       (inFlight Process)).

(** A delivery that reports the build as [pending] again. *)
Definition pendingPayload : WebhookPayload :=
  {| wp_buildId := "bld_AAAAAAAAAAAA"; wp_status := StPending;
     wp_error := None; wp_manifest := None; wp_assets := None |}.

(** A success webhook with a manifest, followed by a delivery with status
    [pending] for the same build. *)
Definition successThenPending : World :=
  exec (webhook pendingPayload "2025-01-01T00:05:04.000Z" "2025-01-01T00:05:04.001Z")
    (exec (webhook (successPayload (Some demoManifest)) "2025-01-01T00:05:00.000Z"
             "2025-01-01T00:05:00.001Z")
       (inFlight Process)).

(** A record has an id, and carries a manifest only together with a
    completion time (both are written by a success webhook). *)
Definition buildOk (b : Build) : Prop :=
  b_id b <> "" /\ (is_Some (b_manifest b) -> is_Some (b_completedAt b)).

(** The build object held by the callbacks of a spawned child has an id and
    carries no manifest. *)
Definition jobOk (j : Job) : Prop :=
  b_id (job_build j) <> "" /\ b_manifest (job_build j) = None.

(** Records are stored under their own id and satisfy [buildOk]; the jobs
    satisfy [jobOk]. *)
Definition worldOk (w : World) : Prop :=
  (forall id b, builds (kv w) !! id = Some b -> b_id b = id /\ buildOk b) /\
  Forall jobOk (jobs w).

(** A handler keeps [worldOk], whether it returns or throws. *)
Definition preserves {A} (c : M A) : Prop :=
  forall w, worldOk w -> worldOk (exec c w).

(** The timeout of the build in flight fires, fifteen minutes in, before any
    webhook was delivered. *)
Definition afterTimeout (b : BuilderType) : World :=
  fireTimeout 0 "2025-01-01T00:15:00.002Z" (inFlight b).

(** The next submission. *)
Definition nextEnv (b : BuilderType) : UploadEnv :=
  demoEnv b "BBBBBBBBBBBB" None None.



(** A stand-in for [JSON.stringify] in the examples (the properties hold for
    any serialiser). *)
Definition exampleStringify (o : JsObject) : string :=
  match o with
  | ObjManifest m =>
      "{id:" +:+ m_id m +:+ ",extra:{scopeKey:"
        +:+ nullish (m_extra m ≫= ex_scopeKey) "" +:+ "}}"
  | ObjExtensions => "{assetRequestHeaders:{}}"
  end.

Fixpoint lastDotSuffix (s : string) : option string :=
  match s with
  | EmptyString => None
  | String c s' =>
      match lastDotSuffix s' with
      | Some e => Some e
      | None => if Ascii.eqb c "." then Some s else None
      end
  end.

(** A stand-in for [extname] in the examples: the suffix from the last dot. *)
Definition exampleExtname (p : string) : string := nullish (lastDotSuffix p) "".

(** The build in flight has succeeded and its manifest is stored. *)
Definition afterSuccess : World :=
  exec (webhook (successPayload (Some demoManifest)) "2025-01-01T00:05:00.000Z"
          "2025-01-01T00:05:00.001Z")
       (inFlight Process).


(** Build output with an iOS bundle only. *)
Definition iosOnlyBundles : BuilderBuild.Bundles :=
  {| BuilderBuild.bundles_ios := Some "_expo/static/js/ios/index-1a2b.hbc";
     BuilderBuild.bundles_android := None |}.

Definition iosOnlyAssets : list AssetMetadata :=
  [ {| am_key := "metadata.json"; am_hash := "hash-meta";
       am_contentType := "application/json"; am_fileExtension := Some ".json";
       am_path := "metadata.json" |};
    {| am_key := "_expo/static/js/ios/index-1a2b.hbc"; am_hash := "hash-ios";
       am_contentType := "application/javascript"; am_fileExtension := Some ".hbc";
       am_path := "_expo/static/js/ios/index-1a2b.hbc" |};
    {| am_key := "assets/icon.png"; am_hash := "hash-icon";
       am_contentType := "image/png"; am_fileExtension := Some ".png";
       am_path := "assets/icon.png" |} ].

(** Records for the scopeKey scenarios. *)
Definition buildWithConfig (cfg : option ExpoClientConfig) : Build :=
  {| b_id := "bld_AAAAAAAAAAAA"; b_projectSlug := "demo"; b_status := StSuccess;
     b_platform := PIos; b_runtimeVersion := "exposdk:52.0.0";
     b_createdAt := "2025-01-01T00:00:00.000Z";
     b_updatedAt := "2025-01-01T00:05:00.000Z";
     b_completedAt := Some "2025-01-01T00:05:00.001Z"; b_error := None;
     b_expoConfig := cfg; b_manifest := None; b_assets := None |}.

Definition configOf (owner slug : option string) : ExpoClientConfig :=
  {| cfg_name := Some "Demo"; cfg_slug := slug; cfg_owner := owner; cfg_rest := [] |}.

(** The request passes the protocol-version check of the manifest route:
    the header is absent or empty, or names the supported version. *)
Definition protocolAccepted (req : ManifestRequest) : Prop :=
  truthy (hdr_protocolVersion req) = false
  \/ hdr_protocolVersion req = Some EXPO_PROTOCOL_VERSION.

(** * The rest of the API and of the builder *)

(** ** services/kv.ts: the steps of [acquireBuildLock] *)

(** [acquireBuildLock] awaits three times: the read of the file in [load],
    [mkdir] in [save], and the write of the file in [save]. Between two
    awaits a call runs alone; at an await another call can run. The
    service object is shared: [load] assigns the parsed object to
    [this.data], and [save] serialises whatever [this.data] is when [mkdir]
    has returned. *)
Module LockSteps.

(** The file, and [this.data] of the one service object. *)
Record Service := {
  file : LocalKVData;
  this_data : option LocalKVData
}.

(** Where a call of [acquireBuildLock] stands: before the read; after the
    read, inside [save] before [mkdir] has returned; with the text to write;
    returned. *)
Inductive Phase :=
  | Start
  | Loaded
  | Serialized (text : LocalKVData)
  | Done (acquired : bool).

(** The call runs up to its next await. *)
Definition advance (s : Service) (p : Phase) : Service * Phase :=
  match p with
  | Start =>
      (* the read has returned: [this.data = JSON.parse(content)], then the
         test and the assignment to the object just parsed *)
      let data := file s in
      if buildLock data
      then ({| file := file s; this_data := Some data |}, Done false)
      else ({| file := file s; this_data := Some (set_lock true data) |}, Loaded)
  | Loaded =>
      (* [mkdir] has returned: [JSON.stringify(this.data)] *)
      match this_data s with
      | Some data => (s, Serialized data)
      | None => (s, Done true)
      end
  | Serialized text =>
      (* the write has returned *)
      ({| file := text; this_data := this_data s |}, Done true)
  | Done acquired => (s, Done acquired)
  end.

(** Two calls in flight; the schedule says which one runs next. *)
Inductive Caller := First | Second.

Definition turn (c : Caller) (st : Service * Phase * Phase) : Service * Phase * Phase :=
  match st with
  | (s, p1, p2) =>
      match c with
      | First => let (s', p1') := advance s p1 in (s', p1', p2)
      | Second => let (s', p2') := advance s p2 in (s', p1, p2')
      end
  end.

Definition run (schedule : list Caller) (s : Service) : Service * Phase * Phase :=
  fold_left (fun st c => turn c st) schedule (s, Start, Start).

(** One call after the other, and the two reads before the two writes. *)
Definition inTurn : list Caller := [First; First; First; Second; Second; Second].
Definition overlapping : list Caller := [First; Second; First; First; Second; Second].

End LockSteps.

(** ** services/kv.ts: API keys and the list of builds *)

(** [data.apiKeys.includes(apiKey)] *)
Definition validateApiKey (apiKey : string) : M bool :=
  fun w => (Ret (existsb (String.eqb apiKey) (apiKeys (kv w))), w).

(** [Array.prototype.sort] with a comparator is a stable sort: an element
    stays before a later one unless the comparator is positive on the pair.
    Inserting from the right end, before the first element it need not
    follow, is that sort. *)
Fixpoint insertSorted {A} (cmp : A -> A -> Z) (x : A) (l : list A) : list A :=
  match l with
  | [] => [x]
  | y :: l' =>
      if (cmp x y <=? 0)%Z then x :: y :: l' else y :: insertSorted cmp x l'
  end.

Definition sortStable {A} (cmp : A -> A -> Z) (l : list A) : list A :=
  foldr (insertSorted cmp) [] l.

Section ListBuilds.

(** [Object.values(data.builds)]: the stored records in the key order of the
    JSON object, which the finite map does not keep; and
    [new Date(s).getTime()] on the timestamps of the records. *)
Variable objectValues : gmap string Build -> list Build.
Variable getTime : string -> Z.

(** [(a, b) => new Date(b.createdAt).getTime() - new Date(a.createdAt).getTime()] *)
Definition newestFirst (a b : Build) : Z :=
  (getTime (b_createdAt b) - getTime (b_createdAt a))%Z.

Definition listBuilds (projectSlug : option string) : M (list Build) :=
  fun w =>
    let found := objectValues (builds (kv w)) in
    let found :=
      if truthy projectSlug
      then List.filter (fun b => String.eqb (b_projectSlug b) (nullish projectSlug "")) found
      else found in
    (Ret (sortStable newestFirst found), w).

End ListBuilds.

(** ** middleware/auth.ts *)

(** [s.slice(n)] *)
Definition sliceFrom (n : nat) (s : string) : string :=
  substring n (String.length s - n) s.

(** [authMiddleware]; [authHeader] is the value of the Authorization header
    as the server has received it. *)
Definition authMiddleware (authHeader : option string) (next : M Response) : M Response :=
  if negb (truthy authHeader)
  then ret (json (ErrorBody "Missing Authorization header") 401)
  else
    let authHeader := nullish authHeader "" in
    let token :=
      if String.prefix "Bearer " authHeader then sliceFrom 7 authHeader else authHeader in
    isValid ← validateApiKey token;
    if negb isValid
    then ret (json (ErrorBody "Invalid API key") 401)
    else next.

(** app.ts: the upload route sits behind the middleware. *)
Definition protected_upload (authHeader : option string)
    (form : UploadForm) (env : UploadEnv) : M Response :=
  authMiddleware authHeader (upload form env).

(** ** routes/builds.ts *)

(** What [JSON.stringify] makes of the [build] property of the status
    response: the record, an empty object for [Object.prototype], nothing
    for a function. *)
Inductive BuildView :=
  | ViewRecord (build : Build)
  | ViewEmpty
  | ViewOmitted.

Record BuildStatusResponse := {
  bsr_build : BuildView;
  bsr_manifestUrl : option string;
  bsr_expoGoUrl : option string
}.

Definition ROUTES_MANIFEST (id : string) : string :=
  "/" +:+ API_VERSION +:+ "/manifest/" +:+ id.

Definition lookedView (found : Looked) : BuildView :=
  match found with
  | Stored build => ViewRecord build
  | Inherited key => if String.eqb key "__proto__" then ViewEmpty else ViewOmitted
  end.

(** [build.id] inside a template literal: a function has no [id]. *)
Definition lookedIdText (found : Looked) : string :=
  match found with
  | Stored build => b_id build
  | Inherited _ => "undefined"
  end.

Section BuildsRoute.

(** [new URL(u).host] and [new URL(u).pathname]. *)
Variable URL_host : string -> string.
Variable URL_pathname : string -> string.

(** [generateExpoGoUrl] *)
Definition generateExpoGoUrl (manifestUrl : string) : string :=
  "exp://" +:+ URL_host manifestUrl +:+ "/--" +:+ URL_pathname manifestUrl.

(** [builds.get('/:id')]: the 404 response, or the body of the 200 response.
    [inherited_status] is as for the manifest route. *)
Definition builds_get (buildId url_protocol url_host : string)
    (inherited_status : BuildStatus) : M (Response + BuildStatusResponse) :=
  found ← getBuild buildId;
  match found with
  | None => ret (inl (json (ErrorBody "Build not found") 404))
  | Some found =>
      let baseUrl := url_protocol +:+ "//" +:+ url_host in
      if statusIs (lookedStatus inherited_status found) "success"
      then
        let manifestUrl := baseUrl +:+ ROUTES_MANIFEST (lookedIdText found) in
        ret (inr {| bsr_build := lookedView found;
                    bsr_manifestUrl := Some manifestUrl;
                    bsr_expoGoUrl := Some (generateExpoGoUrl manifestUrl) |})
      else
        ret (inr {| bsr_build := lookedView found;
                    bsr_manifestUrl := None;
                    bsr_expoGoUrl := None |})
  end.

End BuildsRoute.

(** ** services/storage.ts and routes/assets.ts: bundles *)

(** [s] without the suffix [suffix], when it ends with it. *)
Fixpoint stripSuffix (suffix s : string) : option string :=
  if String.eqb s suffix then Some EmptyString
  else match s with
       | EmptyString => None
       | String c s' => option_map (String c) (stripSuffix suffix s')
       end.

(** [filename.replace(/\.(js|hbc)$/, '')] *)
Definition stripBundleExtension (filename : string) : string :=
  match stripSuffix ".js" filename with
  | Some platform => platform
  | None =>
      match stripSuffix ".hbc" filename with
      | Some platform => platform
      | None => filename
      end
  end.

(** What the bundle route answers: a JSON error, or the file. *)
Inductive AssetResponse :=
  | AssetError (status : nat) (error : string)
  | AssetFile (content contentType cacheControl : string).

Section Storage.

(** [join] of [node:path], the base path of the storage service, and the
    file system as [readFile] sees it ([None]: the read is rejected). *)
Variable path_join : list string -> string.
Variable basePath : string.
Variable readFile : string -> option string.

(** [LocalStorageService.getBundle]; [None] when the promise is rejected. *)
Definition getBundle (buildId platformWithExt : string) : option string :=
  let bundlesDir := path_join [basePath; "bundles"; buildId] in
  if includes "." platformWithExt
  then readFile (path_join [bundlesDir; platformWithExt])
  else
    match readFile (path_join [bundlesDir; platformWithExt +:+ ".js"]) with
    | Some data => Some data
    | None => readFile (path_join [bundlesDir; platformWithExt +:+ ".hbc"])
    end.

(** [assets.get('/:buildId/bundles/:filename')] *)
Definition assets_getBundle (buildId filename : string) : M AssetResponse :=
  if String.eqb filename ""
  then ret (AssetError 400 "Filename required")
  else
    let platform := stripBundleExtension filename in
    found ← getBuild buildId;
    match found with
    | None => ret (AssetError 404 "Build not found")
    | Some _ =>
        let contentType := "application/javascript" in
        let bundle :=
          match getBundle buildId (platform +:+ ".js") with
          | Some data => Some data
          | None => getBundle buildId (platform +:+ ".hbc")
          end in
        match bundle with
        | Some data =>
            ret (AssetFile data contentType "public, max-age=31536000, immutable")
        | None => ret (AssetError 404 "Bundle not found")
        end
    end.

End Storage.

(** ** packages/builder/src: the bundles of an export and the webhook payload *)

Module BuilderRun.

Import BuilderBuild.

(** Lines 585-591 of [collectAssets]: a bundle path of [metadata.json] is
    recorded when it is there and not empty. *)
Definition bundlesOfMetadata (iosBundle androidBundle : option string) : Bundles :=
  {| bundles_ios := if truthy iosBundle then iosBundle else None;
     bundles_android := if truthy androidBundle then androidBundle else None |}.

(** The message of the [Error] that [generateManifest] throws. *)
Definition errorMessage (e : ManifestError) : string :=
  match e with
  | NoBundlePath platform => "No bundle path found for platform " +:+ platform
  | BundleNotFound bundlePath platform =>
      "Bundle not found at path " +:+ bundlePath +:+ " for platform " +:+ platform
  end.

(** What steps 1 to 6 of [runBuild] leave for the last two. *)
Record BuildOutput := {
  out_expoConfig : ExpoClientConfig;
  out_assets : list AssetMetadata;
  out_bundles : Bundles
}.

Section WithPath.

Variable extname : string -> string.

(** [runBuild], lines 58-122: the payload of its first webhook call. Steps 1
    to 6 either throw or give the build output; step 7 generates the manifest
    for platform [ios] when the build is for [all]. *)
Definition firstPayload (BUILD_ID RUNTIME_VERSION PLATFORM : string)
    (steps : Thrown + BuildOutput) (now : string) : WebhookPayload :=
  let failed (message : string) :=
    {| wp_buildId := BUILD_ID; wp_status := StFailed; wp_error := Some message;
       wp_manifest := None; wp_assets := None |} in
  match steps with
  | inl (ErrorObj message) => failed message
  | inl OtherValue => failed "Unknown error"
  | inr out =>
      match generateManifest extname BUILD_ID RUNTIME_VERSION
              (Some (out_expoConfig out)) (out_assets out) (out_bundles out)
              (if String.eqb PLATFORM "all" then "ios" else PLATFORM) now with
      | inl e => failed (errorMessage e)
      | inr manifest =>
          {| wp_buildId := BUILD_ID; wp_status := StSuccess; wp_error := None;
             wp_manifest := Some manifest; wp_assets := Some (out_assets out) |}
      end
  end.

End WithPath.

End BuilderRun.

(** ** Shapes of records, for the invariants below *)

(** The build object [triggerBuild] stores and hands to its callbacks. *)
Definition triggered (now : string) (build : Build) : Build :=
  set_updatedAt now (set_status StPending build).

(** What holds of a stored record whatever was delivered for it: a success
    record is stamped, a failed record has an error, and a manifest or
    assets come with a completion time. *)
Definition recordShape (b : Build) : Prop :=
  (statusIs (b_status b) "success" = true -> is_Some (b_completedAt b))
  /\ (statusIs (b_status b) "failed" = true -> is_Some (b_error b))
  /\ (is_Some (b_manifest b) -> is_Some (b_completedAt b))
  /\ (is_Some (b_assets b) -> is_Some (b_completedAt b)).

(** What the build object of a job looks like: never stamped, never given a
    manifest, pending or failed with an error. *)
Definition jobShape (b : Build) : Prop :=
  b_completedAt b = None /\ b_manifest b = None /\ b_assets b = None
  /\ ((b_status b = StPending /\ b_error b = None)
      \/ (b_status b = StFailed /\ is_Some (b_error b))).

(** The invariant: the API keys are those of the default data, every record
    sits under its id and has [recordShape], every job has [jobShape]. *)
Definition shapeInv (w : World) : Prop :=
  apiKeys (kv w) = apiKeys defaultKVData
  /\ (forall id b, builds (kv w) !! id = Some b -> b_id b = id /\ recordShape b)
  /\ Forall (fun j => jobShape (job_build j)) (jobs w).

(** A handler keeps [shapeInv], whether it returns or throws. *)
Definition keeps {A} (c : M A) : Prop :=
  forall w, shapeInv w -> shapeInv (exec c w).

(** The [error] event of the child of job [i], if that job exists: the
    handler clears the timer, assigns to the captured build and stores it. *)
Definition fireError (i : nat) (message now : string) (w : World) : World :=
  match jobs w !! i with
  | Some j => exec (onError j message now) (timerDone i j (errored j message now) w)
  | None => w
  end.

(** ** Helpers for the statements about the manifest route *)

(** The protocol-version check of the manifest route fails (line 60). *)
Definition protocolRefused (req : ManifestRequest) : bool :=
  truthy (hdr_protocolVersion req)
  && negb (String.eqb (nullish (hdr_protocolVersion req) "") EXPO_PROTOCOL_VERSION).

(** The URL of a stored asset as it is served: kept when it holds a scheme,
    else put under the assets route of the build. *)
Definition resolveUrl (baseUrl buildId url : string) : string :=
  if includes "://" url
  then url
  else (baseUrl +:+ "/v1/assets/" +:+ buildId) +:+ "/" +:+ url.

(** A request in JSON mode: its Accept header does not name multipart/mixed. *)
Definition jsonMode (req : ManifestRequest) : Prop :=
  includes "multipart/mixed" (nullish (hdr_accept req) "") = false.

(** Lines 89-95 of the manifest route: the base URL of the request, from the
    forwarding headers when they are there. *)
Definition requestBaseUrl (req : ManifestRequest) : string :=
  let forwardedProto := hdr_forwardedProto req in
  let forwardedHost :=
    match hdr_forwardedHost req with
    | Some h => Some h
    | None => hdr_host req
    end in
  let protocol :=
    if truthy forwardedProto
    then nullish forwardedProto "" +:+ ":"
    else req_url_protocol req in
  let host := nullish forwardedHost (req_url_host req) in
  protocol +:+ "//" +:+ host.

(** The request of [demoRequest] from a client that takes JSON only. *)
Definition jsonRequest : ManifestRequest :=
  {| param_id := "bld_AAAAAAAAAAAA";
     inherited_status := StOther None;
     hdr_platform := Some "ios";
     hdr_runtimeVersion := Some "exposdk:52.0.0";
     hdr_protocolVersion := Some "1";
     hdr_accept := Some "application/expo+json,application/json";
     hdr_forwardedProto := Some "https";
     hdr_forwardedHost := Some "kitty.ngrok.app";
     hdr_host := Some "localhost:3000";
     req_url_protocol := "http:";
     req_url_host := "localhost:3000";
     Date_now := 1735689900000 |}.

(** ** Helpers for the statements about the list of builds *)

(** [a] was created no earlier than [b]. *)
Definition notOlder (getTime : string -> Z) (a b : Build) : Prop :=
  (getTime (b_createdAt b) <= getTime (b_createdAt a))%Z.

(** The record passes the project filter: there is none, or its slug is the
    one asked for. *)
Definition slugMatches (projectSlug : option string) (b : Build) : Prop :=
  truthy projectSlug = true -> projectSlug = Some (b_projectSlug b).

(** The digits of a timestamp read as one number: on ISO timestamps of the
    same length it orders as [getTime] does. *)
Definition digitsOf (s : string) : Z :=
  fold_left
    (fun acc c =>
       let n := Z.of_nat (nat_of_ascii c) in
       if ((48 <=? n) && (n <=? 57))%Z then (10 * acc + (n - 48))%Z else acc)
    (list_ascii_of_string s) 0%Z.

(** The values of the map in the order of [map_to_list]. *)
Definition valuesInMapOrder (m : gmap string Build) : list Build :=
  map snd (map_to_list m).

(** ** Helpers for the statements about the status route *)

(** What follows the first [//] of a URL. *)
Fixpoint afterSlashes (s : string) : string :=
  match s with
  | EmptyString => EmptyString
  | String c s' => if String.prefix "//" s then sliceFrom 2 s else afterSlashes s'
  end.

Fixpoint untilSlash (s : string) : string :=
  match s with
  | EmptyString => EmptyString
  | String c s' => if Ascii.eqb c "/" then EmptyString else String c (untilSlash s')
  end.

Fixpoint fromSlash (s : string) : string :=
  match s with
  | EmptyString => "/"
  | String c s' => if Ascii.eqb c "/" then s else fromSlash s'
  end.

(** [new URL(u).host] and [new URL(u).pathname] on a URL without query. *)
Definition hostOfUrl (u : string) : string := untilSlash (afterSlashes u).
Definition pathnameOfUrl (u : string) : string := fromSlash (afterSlashes u).

(** ** Helpers for the statements about the bundle route *)

(** The answer of the bundle route for the two reads of a platform. *)
Definition bundleAnswer (js hbc : option string) : AssetResponse :=
  match js with
  | Some data =>
      AssetFile data "application/javascript" "public, max-age=31536000, immutable"
  | None =>
      match hbc with
      | Some data =>
          AssetFile data "application/javascript" "public, max-age=31536000, immutable"
      | None => AssetError 404 "Bundle not found"
      end
  end.

(** A disk that holds one file, the Hermes bundle of the example build. *)
Definition hermesOnly (path : string) : option string :=
  if String.eqb path "data/bundles/bld_AAAAAAAAAAAA/ios.hbc"
  then Some "HBC0" else None.

(** ** Helpers for the statements about the builder *)

(** The manifest entry of a collected asset (lines 661-667 of [build.ts]). *)
Definition assetEntry (asset : AssetMetadata) : ExpoAsset :=
  {| ea_key := am_key asset; ea_hash := am_hash asset;
     ea_contentType := am_contentType asset;
     ea_fileExtension := am_fileExtension asset;
     ea_url := am_path asset |}.

(** The output of an export for iOS only, with the example app config. *)
Definition demoOutput : BuilderRun.BuildOutput :=
  {| BuilderRun.out_expoConfig := demoConfig;
     BuilderRun.out_assets := iosOnlyAssets;
     BuilderRun.out_bundles := iosOnlyBundles |}.
(** * Properties *)

(** ** Reaching a state *)

Lemma rtc_step_r (w1 w2 w3 : World) :
  rtc step w1 w2 -> step w2 w3 -> rtc step w1 w3.
Proof. intros H12 H23. eapply rtc_r; eauto. Qed.

Lemma reachable_step (w w' : World) : reachable w -> step w w' -> reachable w'.
Proof. apply rtc_step_r. Qed.

Lemma reachable_inFlight (b : BuilderType) : reachable (inFlight b).
Proof. eapply reachable_step; [apply rtc_refl | apply step_upload]. Qed.

(** ** Submission while a build is in flight *)

(** C2. A submission issued while the build lock is held is answered with the
    lock-conflict response (HTTP 429) and leaves the whole world, hence the
    store of build records, as it was. The same holds for the second guard of
    the handler, the failed [acquireBuildLock], whatever metadata reached it. *)
Theorem upload_rejected_while_locked (form : UploadForm) (env : UploadEnv) (w : World) :
  buildLock (kv w) = true ->
  upload form env w =
    (Ret (json (ErrorBody "A build is already in progress. Please wait.") 429), w)
  /\ forall metadata,
       upload_locked env metadata w =
         (Ret (json (ErrorBody "Failed to acquire build lock") 429), w).
Proof.
  intros Hlock. split.
  - unfold upload, bind, isBuildLocked. now rewrite Hlock.
  - intros metadata. unfold upload_locked, bind, acquireBuildLock.
    now rewrite Hlock.
Qed.

Lemma upload_rejected_while_locked_witness :
  buildLock (kv (inFlight Process)) = true /\
  result (upload demoForm (demoEnv Process "BBBBBBBBBBBB" None None)) (inFlight Process)
    = Ret (json (ErrorBody "A build is already in progress. Please wait.") 429) /\
  exec (upload demoForm (demoEnv Process "BBBBBBBBBBBB" None None)) (inFlight Process)
    = inFlight Process.
Proof.
  assert (Hlock : buildLock (kv (inFlight Process)) = true) by reflexivity.
  destruct (upload_rejected_while_locked demoForm
              (demoEnv Process "BBBBBBBBBBBB" None None) _ Hlock) as [Hup _].
  unfold result, exec. rewrite Hup. repeat split; exact Hlock.
Defined.

(** ** Webhook for an unknown build *)

(** A delivery whose build id is the empty string matches no stored record,
    and is answered 400 "Missing buildId", not 404, by the guard before the
    lookup. *)
Lemma webhook_empty_buildId_is_400 :
  builds (kv (inFlight Process)) !! wp_buildId emptyIdPayload = None
  /\ webhook emptyIdPayload "2025-01-01T00:05:00.000Z" "2025-01-01T00:05:00.001Z"
       (inFlight Process)
     = (Ret (json (ErrorBody "Missing buildId") 400), inFlight Process)
  /\ r_status (json (ErrorBody "Missing buildId") 400) <> 404.
Proof.
  split; [vm_compute; reflexivity|]. split; [reflexivity|]. simpl. lia.
Qed.

(** The lookup of a handler, by cases on the id. *)
Lemma getBuild_stored (id : string) (w : World) (build : Build) :
  builds (kv w) !! id = Some build -> getBuild id w = (Ret (Some (Stored build)), w).
Proof. intros Hb. unfold getBuild. now rewrite Hb. Qed.

Lemma getBuild_missing (id : string) (w : World) :
  builds (kv w) !! id = None ->
  getBuild id w
  = (Ret (if inheritedKey id then Some (Inherited id) else None), w).
Proof. intros Hb. unfold getBuild. now rewrite Hb. Qed.

(** C5. For a build id that matches no stored record the route answers 404
    and leaves the world, hence the lock, as it was, as long as the id names
    nothing on [Object.prototype]. For an id without a record that names a
    function of [Object.prototype] ([constructor], [toString], ...) the
    lookup gives that function: the delivery is answered 200, the store is
    written back and the build lock is released. *)
Theorem webhook_inherited_key_releases_lock
    (payload : WebhookPayload) (t1 t2 : string) (w : World) :
  builds (kv w) !! wp_buildId payload = None ->
  wp_buildId payload <> "" ->
  (inheritedKey (wp_buildId payload) = false ->
     webhook payload t1 t2 w = (Ret (json (ErrorBody "Build not found") 404), w))
  /\ (inheritedKey (wp_buildId payload) = true ->
      wp_buildId payload <> "__proto__" ->
      webhook payload t1 t2 w
        = (Ret (json SuccessBody 200),
           {| kv := {| builds := delete "undefined" (builds (kv w));
                       apiKeys := apiKeys (kv w);
                       buildLock := false |};
              jobs := jobs w |})).
Proof.
  intros Hnone Hid. unfold webhook, bind.
  destruct (String.eqb_spec (wp_buildId payload) "") as [E|_]; [contradiction|].
  rewrite (getBuild_missing _ _ Hnone). split.
  - intros ->. reflexivity.
  - intros -> Hproto.
    destruct (String.eqb_spec (wp_buildId payload) "__proto__") as [E|_];
      [contradiction|].
    reflexivity.
Qed.

(** The failing input: while the build [bld_AAAAAAAAAAAA] is in flight and
    holds the lock, a delivery for the id [constructor], which no record
    has, is answered 200 and frees the lock, and the next submission is
    accepted beside the build in flight. *)
Lemma webhook_inherited_key_releases_lock_witness :
  builds (kv (inFlight Process)) !! wp_buildId constructorPayload = None
  /\ buildLock (kv (inFlight Process)) = true
  /\ result (webhook constructorPayload "2025-01-01T00:05:00.000Z"
               "2025-01-01T00:05:00.001Z") (inFlight Process)
     = Ret (json SuccessBody 200)
  /\ buildLock (kv (exec (webhook constructorPayload "2025-01-01T00:05:00.000Z"
                            "2025-01-01T00:05:00.001Z") (inFlight Process)))
     = false
  /\ result (upload demoForm (nextEnv Process))
        (exec (webhook constructorPayload "2025-01-01T00:05:00.000Z"
                 "2025-01-01T00:05:00.001Z") (inFlight Process))
     = Ret (json (UploadBody "bld_BBBBBBBBBBBB" StPending) 201).
Proof.
  assert (Hnone : builds (kv (inFlight Process)) !! wp_buildId constructorPayload = None)
    by (vm_compute; reflexivity).
  destruct (webhook_inherited_key_releases_lock constructorPayload
              "2025-01-01T00:05:00.000Z" "2025-01-01T00:05:00.001Z"
              (inFlight Process) Hnone) as [_ Hfound]; [discriminate|].
  specialize (Hfound eq_refl). unfold result, exec. rewrite Hfound by discriminate.
  split; [exact Hnone|]. split; [reflexivity|]. split; [reflexivity|].
  split; [reflexivity|]. vm_compute. reflexivity.
Defined.

(** ** Failure of the upload handler after the lock was taken *)

(** From the lock acquisition on: the failing step is tarball persistence,
    or the spawn of the builder inside [triggerBuild]. *)
Lemma upload_locked_failure
    (env : UploadEnv) (metadata : UploadRequest) (w : World) (e : Thrown) :
  buildLock (kv w) = false ->
  storage_fault env = Some e \/ (storage_fault env = None /\ spawn_fault env = Some e) ->
  exists b,
    upload_locked env metadata w
      = (Ret (json (ErrorBody (thrownMessage e)) 500),
         {| kv := {| builds := <["bld_" +:+ nanoid env := b]> (builds (kv w));
                     apiKeys := apiKeys (kv w);
                     buildLock := false |};
            jobs := jobs w |})
    /\ (b = newBuild env metadata
        \/ b = set_updatedAt (now_trigger env) (newBuild env metadata)).
Proof.
  intros Hfree [Hst | [Hst Hsp]].
  - exists (newBuild env metadata). split; [|left; reflexivity].
    unfold upload_locked, bind, acquireBuildLock, try_catch. rewrite Hfree. simpl.
    unfold uploadTarball. rewrite Hst. reflexivity.
  - exists (set_updatedAt (now_trigger env) (newBuild env metadata)).
    split; [|right; reflexivity].
    unfold upload_locked, bind, acquireBuildLock, try_catch. rewrite Hfree. simpl.
    unfold uploadTarball. rewrite Hst. unfold ret. simpl.
    unfold triggerBuild.
    destruct (builder env); simpl;
      unfold LocalDockerBuilder_triggerBuild, LocalProcessBuilder_triggerBuild,
        bind, setBuild, spawn; simpl; rewrite Hsp; unfold raise; simpl;
      unfold with_kv, set_lock; simpl; rewrite insert_insert_eq; reflexivity.
Qed.

(** C10. When tarball persistence or the dispatch of the build throws after
    the lock was acquired (the lock was free and the form valid), the handler
    answers 500 with the lock released, and the pending record it had written
    stays in the store: a non-terminal record with no lock held, and no
    builder job behind it. *)
Theorem upload_failure_leaves_pending_record
    (form : UploadForm) (env : UploadEnv) (metadata : UploadRequest)
    (w : World) (e : Thrown) :
  buildLock (kv w) = false ->
  validate form env = inr metadata ->
  storage_fault env = Some e \/ (storage_fault env = None /\ spawn_fault env = Some e) ->
  exists b,
    upload form env w
      = (Ret (json (ErrorBody (thrownMessage e)) 500),
         {| kv := {| builds := <["bld_" +:+ nanoid env := b]> (builds (kv w));
                     apiKeys := apiKeys (kv w);
                     buildLock := false |};
            jobs := jobs w |})
    /\ b_id b = "bld_" +:+ nanoid env
    /\ b_status b = StPending
    /\ isTerminal (b_status b) = false.
Proof.
  intros Hfree Hvalid Hfault.
  destruct (upload_locked_failure env metadata w e Hfree Hfault) as (b & Heq & Hb).
  exists b. split.
  - unfold upload, bind, isBuildLocked. rewrite Hfree. simpl. rewrite Hvalid. exact Heq.
  - destruct Hb as [-> | ->]; simpl; auto.
Qed.

Lemma upload_failure_leaves_pending_record_witness :
  exists b,
    builds (kv (exec (upload demoForm
                        (demoEnv Process "CCCCCCCCCCCC" (Some (ErrorObj "disk full")) None))
                     initialWorld))
      !! "bld_CCCCCCCCCCCC" = Some b
    /\ b_status b = StPending
    /\ buildLock (kv (exec (upload demoForm
                        (demoEnv Process "CCCCCCCCCCCC" (Some (ErrorObj "disk full")) None))
                     initialWorld)) = false
    /\ result (upload demoForm
                 (demoEnv Process "CCCCCCCCCCCC" (Some (ErrorObj "disk full")) None))
              initialWorld
       = Ret (json (ErrorBody "disk full") 500).
Proof.
  destruct (upload_failure_leaves_pending_record demoForm
              (demoEnv Process "CCCCCCCCCCCC" (Some (ErrorObj "disk full")) None)
              demoMetadata initialWorld (ErrorObj "disk full"))
    as (b & Heq & Hid & Hst & _).
  - reflexivity.
  - reflexivity.
  - left. reflexivity.
  - exists b. unfold exec, result. rewrite Heq. simpl.
    split; [apply lookup_insert_eq|]. auto.
Defined.

(** ** The reachable states *)

Section Preservation.

Lemma preserves_ret {A} (a : A) : preserves (ret a).
Proof. intros w Hw. exact Hw. Qed.

Lemma preserves_raise {A} (e : Thrown) : preserves (@raise A e).
Proof. intros w Hw. exact Hw. Qed.

Lemma preserves_bind {A B} (c : M A) (k : A -> M B) :
  preserves c -> (forall a, preserves (k a)) -> preserves (bind c k).
Proof.
  intros Hc Hk w Hw. specialize (Hc w Hw). unfold exec, bind in *.
  destruct (c w) as [[a|e|] w']; simpl in *; [now apply Hk | exact Hc | exact Hc].
Qed.

Lemma preserves_try_catch {A} (body : M A) (handler : Thrown -> M A) :
  preserves body -> (forall e, preserves (handler e)) ->
  preserves (try_catch body handler).
Proof.
  intros Hb Hh w Hw. specialize (Hb w Hw). unfold exec, try_catch in *.
  destruct (body w) as [[a|e|] w']; simpl in *; [exact Hb | now apply Hh | exact Hb].
Qed.

Lemma preserves_isBuildLocked : preserves isBuildLocked.
Proof. intros w Hw. exact Hw. Qed.

Lemma preserves_acquireBuildLock : preserves acquireBuildLock.
Proof.
  intros w Hw. unfold exec, acquireBuildLock.
  destruct (buildLock (kv w)); exact Hw.
Qed.

Lemma preserves_releaseBuildLock : preserves releaseBuildLock.
Proof. intros w Hw. exact Hw. Qed.

Lemma preserves_setBuild (b : Build) : buildOk b -> preserves (setBuild b).
Proof.
  intros Hb w [Hrec Hjobs]. split; [|exact Hjobs].
  intros id b'. unfold exec, setBuild. simpl. rewrite lookup_insert.
  case_decide as Hid.
  - intros [= <-]. auto.
  - apply Hrec.
Qed.

Lemma preserves_spawn (fault : option Thrown) : preserves (spawn fault).
Proof. destruct fault; [apply preserves_raise | apply preserves_ret]. Qed.

Lemma preserves_setTimeout (j : Job) : jobOk j -> preserves (setTimeout j).
Proof.
  intros Hj w [Hrec Hjobs]. split; [exact Hrec|].
  unfold exec, setTimeout. simpl. apply Forall_app. split; [exact Hjobs|].
  constructor; [exact Hj | constructor].
Qed.

Lemma buildOk_no_manifest (b : Build) :
  b_id b <> "" -> b_manifest b = None -> buildOk b.
Proof. intros Hid Hb. split; [exact Hid|]. intros [m Hm]. congruence. Qed.

Lemma buildOk_stamped (b : Build) :
  b_id b <> "" -> is_Some (b_completedAt b) -> buildOk b.
Proof. intros Hid Hb. split; [exact Hid|]. intros _. exact Hb. Qed.

Lemma buildOk_webhookUpdated payload t1 t2 (b : Build) :
  buildOk b -> buildOk (webhookUpdated payload t1 t2 b).
Proof.
  intros [Hid Hm]. unfold webhookUpdated.
  destruct (statusIs (wp_status payload) "success");
    [apply buildOk_stamped; simpl; eauto|].
  destruct (statusIs (wp_status payload) "failed");
    [apply buildOk_stamped; simpl; eauto|].
  split; [exact Hid | exact Hm].
Qed.

Lemma preserves_setBuild_inherited : preserves setBuild_inherited.
Proof.
  intros w [Hrec Hjobs]. split; [|exact Hjobs].
  intros id b. unfold exec, setBuild_inherited. simpl.
  intros Hb. apply lookup_delete_Some in Hb as [_ Hb]. now apply Hrec.
Qed.

Lemma preserves_triggerBuild builder fault now (build : Build) :
  b_id build <> "" -> b_manifest build = None ->
  preserves (triggerBuild builder fault now build).
Proof.
  intros Hid Hb. destruct builder; simpl;
    (apply preserves_bind; [now apply preserves_setBuild, buildOk_no_manifest|]);
    intros _;
    (apply preserves_bind; [apply preserves_spawn|]); intros _;
    apply preserves_setTimeout; split; assumption.
Qed.

Lemma preserves_uploadTarball env id : preserves (uploadTarball env id).
Proof.
  unfold uploadTarball. destruct (storage_fault env);
    [apply preserves_raise | apply preserves_ret].
Qed.

Lemma preserves_upload_locked env metadata : preserves (upload_locked env metadata).
Proof.
  unfold upload_locked.
  apply preserves_bind; [apply preserves_acquireBuildLock|]. intros lockAcquired.
  destruct (negb lockAcquired); [apply preserves_ret|].
  apply preserves_try_catch.
  - apply preserves_bind;
      [apply preserves_setBuild, buildOk_no_manifest; [discriminate|reflexivity]|].
    intros _. apply preserves_bind; [apply preserves_uploadTarball|]. intros url.
    apply preserves_bind;
      [apply preserves_triggerBuild; [discriminate|reflexivity]|].
    intros _. apply preserves_ret.
  - intros e. apply preserves_bind; [apply preserves_releaseBuildLock|].
    intros _. apply preserves_ret.
Qed.

Lemma preserves_upload form env : preserves (upload form env).
Proof.
  unfold upload.
  apply preserves_bind; [apply preserves_isBuildLocked|]. intros isLocked.
  repeat first
    [ apply preserves_ret
    | apply preserves_raise
    | apply preserves_upload_locked
    | match goal with
      | |- preserves (if ?c then _ else _) => destruct c
      | |- preserves (match ?x with _ => _ end) => destruct x
      end ].
Qed.

Lemma preserves_webhook payload t1 t2 : preserves (webhook payload t1 t2).
Proof.
  intros w Hw. unfold exec, webhook, bind, getBuild.
  destruct (String.eqb (wp_buildId payload) ""); [exact Hw|].
  destruct (builds (kv w) !! wp_buildId payload) as [build|] eqn:Hb.
  - destruct (proj1 Hw _ _ Hb) as [_ Hok]. simpl.
    refine (preserves_setBuild _ _ w Hw). now apply buildOk_webhookUpdated.
  - simpl. destruct (inheritedKey (wp_buildId payload)); [|exact Hw].
    destruct (String.eqb (wp_buildId payload) "__proto__"); [exact Hw|].
    exact (preserves_setBuild_inherited w Hw).
Qed.

Lemma preserves_onTimeout j now : jobOk j -> preserves (onTimeout j now).
Proof.
  intros [Hid Hm]. unfold onTimeout. destruct (job_builder j); [apply preserves_ret|].
  apply preserves_bind; [now apply preserves_setBuild, buildOk_no_manifest|].
  intros _. apply preserves_releaseBuildLock.
Qed.

Lemma preserves_onError j message now : jobOk j -> preserves (onError j message now).
Proof.
  intros [Hid Hm]. unfold onError. destruct (job_builder j);
    (apply preserves_bind; [now apply preserves_setBuild, buildOk_no_manifest|]);
    intros _; apply preserves_releaseBuildLock.
Qed.

Lemma worldOk_timerDone i j (build : Build) w :
  b_id build <> "" -> b_manifest build = None ->
  worldOk w -> worldOk (timerDone i j build w).
Proof.
  intros Hid Hb [Hrec Hjobs]. split; [exact Hrec|].
  unfold timerDone. simpl. apply Forall_insert; [exact Hjobs | split; assumption].
Qed.

Lemma worldOk_childClosed i w : worldOk w -> worldOk (childClosed i w).
Proof.
  intros [Hrec Hjobs]. split; [exact Hrec|].
  unfold childClosed. simpl. now apply Forall_delete.
Qed.

Lemma worldOk_job w i j : worldOk w -> jobs w !! i = Some j -> jobOk j.
Proof.
  intros [_ Hjobs] Hj. rewrite Forall_lookup in Hjobs. exact (Hjobs i j Hj).
Qed.

Lemma worldOk_initial : worldOk initialWorld.
Proof.
  split; [|constructor]. intros id b. simpl. rewrite lookup_empty. discriminate.
Qed.

Lemma worldOk_step w w' : worldOk w -> step w w' -> worldOk w'.
Proof.
  intros Hw Hstep. destruct Hstep as [form env w | payload t1 t2 w _
    | i j now w Hj Htimer | i j message now w Hj | i j w Hj].
  - now apply preserves_upload.
  - now apply preserves_webhook.
  - pose proof (worldOk_job _ _ _ Hw Hj) as [Hid Hm].
    apply preserves_onTimeout; [now split|].
    apply worldOk_timerDone; [| |exact Hw];
      unfold timedOut; destruct (job_builder j); simpl; assumption.
  - pose proof (worldOk_job _ _ _ Hw Hj) as [Hid Hm].
    apply preserves_onError; [now split|].
    apply worldOk_timerDone; [| |exact Hw];
      unfold errored; destruct (job_builder j); simpl; assumption.
  - now apply worldOk_childClosed.
Qed.

Lemma worldOk_reachable w : reachable w -> worldOk w.
Proof.
  unfold reachable. intros Hreach.
  apply (rtc_ind_r (R := step) worldOk initialWorld); [ | | exact Hreach].
  - apply worldOk_initial.
  - intros y z _ Hstep Hy. exact (worldOk_step y z Hy Hstep).
Qed.

(** A record of a reachable world sits under its own, non-empty id. *)
Lemma reachable_record_id w id b :
  reachable w -> builds (kv w) !! id = Some b -> b_id b = id /\ id <> "".
Proof.
  intros Hreach Hb. destruct (proj1 (worldOk_reachable w Hreach) id b Hb)
    as [Hkey [Hne _]]. split; [exact Hkey|]. now rewrite <- Hkey.
Qed.

End Preservation.

(** ** Redelivery of a webhook *)

Lemma statusIs_inj (s : BuildStatus) (a b : string) :
  statusIs s a = true -> statusIs s b = true -> a = b.
Proof.
  unfold statusIs. destruct (statusName s) as [n|]; [|discriminate].
  intros Ha Hb. apply String.eqb_eq in Ha, Hb. congruence.
Qed.

Lemma b_status_webhookUpdated payload t1 t2 (b : Build) :
  b_status (webhookUpdated payload t1 t2 b) = wp_status payload.
Proof.
  unfold webhookUpdated.
  destruct (statusIs (wp_status payload) "success"); [reflexivity|].
  destruct (statusIs (wp_status payload) "failed"); reflexivity.
Qed.

Lemma b_id_webhookUpdated payload t1 t2 (b : Build) :
  b_id (webhookUpdated payload t1 t2 b) = b_id b.
Proof.
  unfold webhookUpdated.
  destruct (statusIs (wp_status payload) "success"); [reflexivity|].
  destruct (statusIs (wp_status payload) "failed"); reflexivity.
Qed.

(** A delivery for a stored build: the record is rewritten and the lock
    released. *)
Lemma webhook_found (payload : WebhookPayload) (t1 t2 : string) (w : World) (build : Build) :
  wp_buildId payload <> "" ->
  builds (kv w) !! wp_buildId payload = Some build ->
  webhook payload t1 t2 w
    = (Ret (json SuccessBody 200),
       exec releaseBuildLock (exec (setBuild (webhookUpdated payload t1 t2 build)) w)).
Proof.
  intros Hid Hb. unfold webhook, bind.
  destruct (String.eqb_spec (wp_buildId payload) "") as [E|_]; [contradiction|].
  rewrite (getBuild_stored _ _ _ Hb). reflexivity.
Qed.

(** The first delivery of a terminal outcome records the outcome its payload
    describes. *)
Lemma webhook_records_outcome
    (payload : WebhookPayload) (t1 t2 : string) (w : World) (b0 : Build) :
  reachable w ->
  builds (kv w) !! wp_buildId payload = Some b0 ->
  isTerminal (wp_status payload) = true ->
  exists b,
    builds (kv (exec (webhook payload t1 t2) w)) !! wp_buildId payload = Some b
    /\ sameOutcome payload b
    /\ isTerminal (b_status b) = true.
Proof.
  intros Hreach Hb0 Hterm. destruct (reachable_record_id _ _ _ Hreach Hb0) as [Hkey Hid].
  unfold exec. rewrite (webhook_found _ _ _ _ _ Hid Hb0). simpl.
  rewrite b_id_webhookUpdated, Hkey.
  eexists. split; [apply lookup_insert_eq|].
  split; [|now rewrite b_status_webhookUpdated].
  split; [apply b_status_webhookUpdated|]. unfold webhookUpdated. split.
  - intros Hs. rewrite Hs. simpl. auto.
  - intros Hf. destruct (statusIs (wp_status payload) "success") eqn:Hs.
    + discriminate (statusIs_inj _ _ _ Hs Hf).
    + rewrite Hf. reflexivity.
Qed.

(** C1 (as amended). In a reachable state, a second delivery with the same
    terminal outcome for a build that is already terminal is answered 200, not
    an error, and rewrites the record with every field as it was except
    [updatedAt] and [completedAt], which take the clock readings of the second
    call; the build lock is released once more. *)
Theorem webhook_redelivery_restamps
    (payload : WebhookPayload) (t3 t4 : string) (w : World) (b : Build) :
  reachable w ->
  builds (kv w) !! wp_buildId payload = Some b ->
  isTerminal (b_status b) = true ->
  sameOutcome payload b ->
  webhook payload t3 t4 w =
    (Ret (json SuccessBody 200),
     {| kv := {| builds := <[wp_buildId payload :=
                              set_completedAt (Some t4) (set_updatedAt t3 b)]>
                             (builds (kv w));
                 apiKeys := apiKeys (kv w);
                 buildLock := false |};
        jobs := jobs w |}).
Proof.
  intros Hreach Hb Hterm (Hst & Hsucc & Hfail).
  destruct (reachable_record_id _ _ _ Hreach Hb) as [Hkey Hid].
  rewrite (webhook_found _ _ _ _ _ Hid Hb).
  assert (Hsame : webhookUpdated payload t3 t4 b
                  = set_completedAt (Some t4) (set_updatedAt t3 b)).
  { unfold webhookUpdated. rewrite Hst in Hterm. unfold isTerminal in Hterm.
    destruct (statusIs (wp_status payload) "success") eqn:Hs.
    - destruct (Hsucc eq_refl) as [Hm Ha]. destruct b; simpl in *. now subst.
    - simpl in Hterm. rewrite Hterm. specialize (Hfail Hterm).
      destruct b; simpl in *. now subst. }
  rewrite Hsame. unfold exec, setBuild, releaseBuildLock, with_kv, set_lock. simpl.
  rewrite Hkey. reflexivity.
Qed.

Lemma reachable_afterFailure : reachable afterFailure.
Proof.
  eapply reachable_step; [apply (reachable_inFlight Process) | apply step_webhook; discriminate].
Qed.

Lemma webhook_redelivery_restamps_witness :
  exists b,
    builds (kv afterFailure) !! "bld_AAAAAAAAAAAA" = Some b /\
    webhook failedPayload "2025-01-01T00:05:04.000Z" "2025-01-01T00:05:04.001Z"
      afterFailure =
    (Ret (json SuccessBody 200),
     {| kv := {| builds := <["bld_AAAAAAAAAAAA" :=
                              set_completedAt (Some "2025-01-01T00:05:04.001Z")
                                (set_updatedAt "2025-01-01T00:05:04.000Z" b)]>
                             (builds (kv afterFailure));
                 apiKeys := apiKeys (kv afterFailure);
                 buildLock := false |};
        jobs := jobs afterFailure |}).
Proof.
  eexists. split.
  - vm_compute. reflexivity.
  - apply (webhook_redelivery_restamps failedPayload).
    + exact reachable_afterFailure.
    + vm_compute. reflexivity.
    + reflexivity.
    + split; [reflexivity|]. split; [discriminate | reflexivity].
Defined.

(** C1 (as stated) fails: the record of a failed build changes when the same
    failure payload is delivered again at a later time. *)
Lemma webhook_redelivery_changes_record :
  (exists b, builds (kv afterFailure) !! "bld_AAAAAAAAAAAA" = Some b
             /\ isTerminal (b_status b) = true
             /\ sameOutcome failedPayload b)
  /\ builds (kv afterRedelivery) !! "bld_AAAAAAAAAAAA"
     <> builds (kv afterFailure) !! "bld_AAAAAAAAAAAA".
Proof.
  split.
  - eexists. split; [vm_compute; reflexivity|]. split; [reflexivity|].
    split; [reflexivity|]. split; [discriminate | reflexivity].
  - vm_compute. discriminate.
Qed.

(** Redelivery is not a no-op on the lock either: delivered while a later
    build is in flight, the old payload frees the lock that build holds. *)
Lemma webhook_redelivery_releases_foreign_lock :
  buildLock (kv laterBuildInFlight) = true
  /\ (exists b, builds (kv laterBuildInFlight) !! "bld_BBBBBBBBBBBB" = Some b
                /\ b_status b = StPending)
  /\ buildLock (kv (exec (webhook failedPayload "2025-01-01T00:06:00.000Z"
                            "2025-01-01T00:06:00.001Z") laterBuildInFlight)) = false.
Proof.
  split; [reflexivity|]. split; [|reflexivity].
  eexists. split; [vm_compute; reflexivity | reflexivity].
Qed.

Lemma step_fireTimeout (i : nat) (j : Job) (now : string) (w : World) :
  jobs w !! i = Some j -> job_timer j = true -> step w (fireTimeout i now w).
Proof.
  intros Hj Ht. unfold fireTimeout. rewrite Hj, Ht. now apply step_timeout.
Qed.

(** ** The manifest of a record and its status *)

(** C4 (as stated) fails: after a success webhook whose payload carries no
    manifest, a reachable state holds a record with status [success] and no
    manifest. *)
Lemma success_without_manifest_breaks_invariant :
  reachable successWithoutManifest /\ ~ manifestIffSuccess successWithoutManifest.
Proof.
  split.
  - eapply reachable_step; [apply (reachable_inFlight Process) | apply step_webhook; discriminate].
  - intros Hinv.
    assert (Hb : exists b, builds (kv successWithoutManifest) !! "bld_AAAAAAAAAAAA" = Some b
                           /\ b_status b = StSuccess /\ b_manifest b = None).
    { eexists. split; [vm_compute; reflexivity|]. split; reflexivity. }
    destruct Hb as (b & Hlook & Hst & Hm).
    destruct (Hinv _ _ Hlook) as [_ Hback].
    destruct (Hback Hst) as [m Hsome]. congruence.
Qed.

(** The other direction fails too: a failure webhook that follows a success
    webhook leaves the manifest on a record whose status is [failed]. *)
Lemma failure_after_success_keeps_manifest :
  reachable successThenFailure /\
  exists b, builds (kv successThenFailure) !! "bld_AAAAAAAAAAAA" = Some b
            /\ b_status b = StFailed /\ b_manifest b = Some demoManifest.
Proof.
  split.
  - eapply reachable_step; [|apply step_webhook; discriminate].
    eapply reachable_step; [apply (reachable_inFlight Process) | apply step_webhook; discriminate].
  - eexists. split; [vm_compute; reflexivity|]. split; reflexivity.
Qed.

(** A submission leaves the stored records alone or adds one pending record
    without manifest. *)
Lemma upload_writes_pending_record (form : UploadForm) (env : UploadEnv) (w : World) :
  builds (kv (exec (upload form env) w)) = builds (kv w)
  \/ exists b, b_status b = StPending /\ b_manifest b = None
               /\ builds (kv (exec (upload form env) w)) = <[b_id b := b]> (builds (kv w)).
Proof.
  unfold exec, upload, bind, isBuildLocked.
  destruct (buildLock (kv w)) eqn:Hlock; [left; reflexivity|].
  simpl.
  destruct (validate form env) as [[badRequest|e]|metadata];
    [left; reflexivity | left; reflexivity |].
  right. unfold upload_locked, bind, acquireBuildLock, try_catch. rewrite Hlock. simpl.
  unfold uploadTarball.
  destruct (storage_fault env) as [e|]; simpl.
  - exists (newBuild env metadata). repeat split.
  - exists (set_updatedAt (now_trigger env) (set_status StPending (newBuild env metadata))).
    split; [reflexivity|]. split; [reflexivity|].
    unfold triggerBuild, LocalDockerBuilder_triggerBuild, LocalProcessBuilder_triggerBuild,
      bind, spawn.
    destruct (builder env); simpl;
      destruct (spawn_fault env); simpl; apply insert_insert_eq.
Qed.

(** A timeout leaves the stored records alone or writes one failed record
    without manifest. *)
Lemma timeout_writes_failed_record (i : nat) (now : string) (w : World) :
  worldOk w ->
  builds (kv (fireTimeout i now w)) = builds (kv w)
  \/ exists b, b_status b = StFailed /\ b_manifest b = None
               /\ builds (kv (fireTimeout i now w)) = <[b_id b := b]> (builds (kv w)).
Proof.
  intros Hok. unfold fireTimeout.
  destruct (jobs w !! i) as [j|] eqn:Hj; [|left; reflexivity].
  destruct (job_timer j); [|left; reflexivity].
  destruct (worldOk_job _ _ _ Hok Hj) as [_ Hm].
  unfold onTimeout. destruct (job_builder j); [left; reflexivity|].
  right. exists (LocalProcessBuilder_timedOut now (job_build j)).
  split; [reflexivity|]. split; [exact Hm | reflexivity].
Qed.

(** Nor is a manifest a sign of a terminal status: the status of a payload
    is stored unchecked, so a delivery with status [pending] after a success
    webhook leaves the manifest on a pending record. *)
Lemma pending_after_success_keeps_manifest :
  reachable successThenPending /\
  exists b, builds (kv successThenPending) !! "bld_AAAAAAAAAAAA" = Some b
            /\ b_status b = StPending /\ b_manifest b = Some demoManifest.
Proof.
  split.
  - eapply reachable_step; [|apply step_webhook; discriminate].
    eapply reachable_step;
      [apply (reachable_inFlight Process) | apply step_webhook; discriminate].
  - eexists. split; [vm_compute; reflexivity|]. split; reflexivity.
Qed.

(** C4 (as amended). In every reachable state a record that carries a
    manifest carries a completion time: only a success webhook writes a
    manifest, and it stamps the record. A submission adds at most one record,
    pending and without manifest; a timeout writes at most one record, failed
    and without manifest. A webhook for a stored build stores the status of
    its payload, whatever it is; on [success] the record's manifest becomes
    the payload's, present or not, and on any other status the manifest stays
    as it was. *)
Theorem manifest_written_by_success_webhook (w : World) :
  reachable w ->
  (forall id b, builds (kv w) !! id = Some b ->
     is_Some (b_manifest b) -> is_Some (b_completedAt b))
  /\ (forall form env,
        builds (kv (exec (upload form env) w)) = builds (kv w)
        \/ exists b, b_status b = StPending /\ b_manifest b = None
             /\ builds (kv (exec (upload form env) w)) = <[b_id b := b]> (builds (kv w)))
  /\ (forall i now,
        builds (kv (fireTimeout i now w)) = builds (kv w)
        \/ exists b, b_status b = StFailed /\ b_manifest b = None
             /\ builds (kv (fireTimeout i now w)) = <[b_id b := b]> (builds (kv w)))
  /\ (forall payload t1 t2 b0,
        builds (kv w) !! wp_buildId payload = Some b0 ->
        exists b,
          builds (kv (exec (webhook payload t1 t2) w)) !! wp_buildId payload = Some b
          /\ b_status b = wp_status payload
          /\ b_manifest b = (if statusIs (wp_status payload) "success"
                             then wp_manifest payload
                             else b_manifest b0)).
Proof.
  intros Hreach. pose proof (worldOk_reachable w Hreach) as Hok.
  split; [|split; [|split]].
  - intros id b Hb. exact (proj2 (proj2 (proj1 Hok id b Hb))).
  - intros form env. apply upload_writes_pending_record.
  - intros i now. now apply timeout_writes_failed_record.
  - intros payload t1 t2 b0 Hb0.
    destruct (reachable_record_id _ _ _ Hreach Hb0) as [Hkey Hid].
    unfold exec. rewrite (webhook_found _ _ _ _ _ Hid Hb0). simpl.
    rewrite b_id_webhookUpdated, Hkey.
    eexists. split; [apply lookup_insert_eq|].
    split; [apply b_status_webhookUpdated|]. unfold webhookUpdated.
    destruct (statusIs (wp_status payload) "success"); [reflexivity|].
    destruct (statusIs (wp_status payload) "failed"); reflexivity.
Qed.

Lemma manifest_written_by_success_webhook_witness :
  reachable successThenPending /\
  (forall id b, builds (kv successThenPending) !! id = Some b ->
     is_Some (b_manifest b) -> is_Some (b_completedAt b)).
Proof.
  assert (Hreach : reachable successThenPending)
    by exact (proj1 pending_after_success_keeps_manifest).
  split; [exact Hreach|].
  exact (proj1 (manifest_written_by_success_webhook successThenPending Hreach)).
Defined.

(** ** The build timeout *)

(** The timeout callback of the docker builder changes nothing in the world. *)
Lemma docker_onTimeout_noop (j : Job) (now : string) (w : World) :
  job_builder j = Docker -> onTimeout j now w = (Ret tt, w).
Proof. intros Hj. unfold onTimeout. now rewrite Hj. Qed.

(** The timeout callback of the process builder stores the build as failed
    with the timeout error and releases the lock. *)
Lemma process_onTimeout_fails_and_releases (j : Job) (now : string) (w : World) :
  job_builder j = Process ->
  let w' := exec (onTimeout j now) w in
  builds (kv w') !! b_id (job_build j)
    = Some (set_updatedAt now
              (set_error (Some "Build timed out") (set_status StFailed (job_build j))))
  /\ buildLock (kv w') = false.
Proof.
  intros Hj. unfold onTimeout. rewrite Hj. simpl. split; [|reflexivity].
  apply lookup_insert_eq.
Qed.

(** With the process builder the scenario of the design document holds: the
    record fails with the timeout error, the lock is free and the next
    submission is accepted. *)
Lemma process_timeout_scenario :
  step (inFlight Process) (afterTimeout Process)
  /\ (exists b, builds (kv (afterTimeout Process)) !! "bld_AAAAAAAAAAAA" = Some b
                /\ b_status b = StFailed /\ b_error b = Some "Build timed out")
  /\ buildLock (kv (afterTimeout Process)) = false
  /\ result (upload demoForm (nextEnv Process)) (afterTimeout Process)
     = Ret (json (UploadBody "bld_BBBBBBBBBBBB" StPending) 201).
Proof.
  split; [|split; [|split]].
  - eapply step_fireTimeout; reflexivity.
  - eexists. split; [vm_compute; reflexivity|]. split; reflexivity.
  - reflexivity.
  - vm_compute. reflexivity.
Qed.

(** C3 fails for the docker builder. With a build in flight under
    [LocalDockerBuilder], the timeout fires before any webhook: the record is
    still [pending], the lock is still held, and the next submission is
    refused with 429. *)
Theorem docker_timeout_leaves_lock_held :
  step (inFlight Docker) (afterTimeout Docker)
  /\ kv (afterTimeout Docker) = kv (inFlight Docker)
  /\ (exists b, builds (kv (afterTimeout Docker)) !! "bld_AAAAAAAAAAAA" = Some b
                /\ b_status b = StPending /\ b_error b = None)
  /\ buildLock (kv (afterTimeout Docker)) = true
  /\ result (upload demoForm (nextEnv Docker)) (afterTimeout Docker)
     = Ret (json (ErrorBody "A build is already in progress. Please wait.") 429).
Proof.
  split; [|split; [|split; [|split]]].
  - eapply step_fireTimeout; reflexivity.
  - reflexivity.
  - eexists. split; [vm_compute; reflexivity|]. split; reflexivity.
  - reflexivity.
  - vm_compute. reflexivity.
Qed.

(** ** The deterministic UUID *)

Section UuidFacts.

Lemma byte_cases (P : Z -> bool) :
  forallb P (map Z.of_nat (seq 0 256)) = true ->
  forall b, isByte b -> P b = true.
Proof.
  intros Hall b [Hlo Hhi]. rewrite forallb_forall in Hall. apply Hall.
  apply in_map_iff. exists (Z.to_nat b). split; [lia|].
  apply in_seq. lia.
Qed.

Lemma pairOk_inv k1 k2 s :
  pairOk k1 k2 s = true ->
  exists c1 c2, s = String c1 (String c2 EmptyString)
                /\ classOk k1 c1 = true /\ classOk k2 c2 = true.
Proof.
  destruct s as [|c1 [|c2 [|? ?]]]; simpl; try discriminate.
  intros H. apply andb_true_iff in H. eauto.
Qed.

(** Two lowercase hex digits for every byte. *)
Lemma hex_pair_byte b :
  isByte b -> pairOk Hex Hex (padStart 2 "0" (toString16 b)) = true.
Proof.
  revert b. apply (byte_cases (fun b => pairOk Hex Hex (padStart 2 "0" (toString16 b)))).
  vm_compute. reflexivity.
Qed.

(** [(b & 0x0f) | 0x40] prints as 4 and a hex digit. *)
Lemma hex_pair_version b :
  isByte b ->
  pairOk Version4 Hex (padStart 2 "0" (toString16 (Z.lor (Z.land b 0x0f) 0x40))) = true.
Proof.
  revert b.
  apply (byte_cases (fun b =>
    pairOk Version4 Hex (padStart 2 "0" (toString16 (Z.lor (Z.land b 0x0f) 0x40))))).
  vm_compute. reflexivity.
Qed.

(** [(b & 0x3f) | 0x80] prints as one of 8, 9, a, b and a hex digit. *)
Lemma hex_pair_variant b :
  isByte b ->
  pairOk Variant10 Hex (padStart 2 "0" (toString16 (Z.lor (Z.land b 0x3f) 0x80))) = true.
Proof.
  revert b.
  apply (byte_cases (fun b =>
    pairOk Variant10 Hex (padStart 2 "0" (toString16 (Z.lor (Z.land b 0x3f) 0x80))))).
  vm_compute. reflexivity.
Qed.

End UuidFacts.

Section Uuid.

Variable sha256 : string -> list Z.

Ltac hex_pair lem b :=
  match goal with
  | Hb : isByte b |- _ =>
      let c := fresh "c" in
      let d := fresh "d" in
      let E := fresh "E" in
      let Hc := fresh "Hc" in
      let Hd := fresh "Hd" in
      destruct (pairOk_inv _ _ _ (lem b Hb)) as (c & d & E & Hc & Hd);
      clear Hb
  end.

Lemma generateUUID_shape (input : string) :
  List.length (sha256 input) = 32%nat ->
  Forall isByte (sha256 input) ->
  matchesPattern uuidPattern (generateUUID sha256 input) = true.
Proof.
  intros Hlen Hbytes. unfold generateUUID.
  destruct (sha256 input) as [|b0 l]; [discriminate|].
  destruct l as [|b1 l]; [discriminate|].
  destruct l as [|b2 l]; [discriminate|].
  destruct l as [|b3 l]; [discriminate|].
  destruct l as [|b4 l]; [discriminate|].
  destruct l as [|b5 l]; [discriminate|].
  destruct l as [|b6 l]; [discriminate|].
  destruct l as [|b7 l]; [discriminate|].
  destruct l as [|b8 l]; [discriminate|].
  destruct l as [|b9 l]; [discriminate|].
  destruct l as [|b10 l]; [discriminate|].
  destruct l as [|b11 l]; [discriminate|].
  destruct l as [|b12 l]; [discriminate|].
  destruct l as [|b13 l]; [discriminate|].
  destruct l as [|b14 l]; [discriminate|].
  destruct l as [|b15 l]; [discriminate|].
  do 16 (destruct l as [|? l]; [discriminate|]).
  destruct l; [|discriminate]. clear Hlen.
  repeat match goal with
         | H : Forall isByte (_ :: _) |- _ => apply Forall_cons in H; destruct H
         end.
  hex_pair hex_pair_version b6. hex_pair hex_pair_variant b8.
  repeat match goal with
         | Hb : isByte ?b |- _ => first [ is_var b; hex_pair hex_pair_byte b | clear Hb ]
         end.
  cbn -[classOk padStart toString16].
  repeat match goal with
         | E : padStart _ _ _ = _ |- _ => try rewrite E; clear E
         end.
  cbv -[classOk].
  repeat match goal with
         | H : classOk _ _ = true |- _ => try rewrite H; clear H
         end.
  reflexivity.
Qed.

(** C6. [generateUUID] is a function of its input: equal inputs give equal
    outputs. Given that the digest of the input is 32 bytes, the output has
    the canonical shape xxxxxxxx-xxxx-4xxx-Nxxx-xxxxxxxxxxxx of lowercase hex
    digits, with version nibble 4 and N (the variant, bits 10xx) one of
    8, 9, a, b. *)
Theorem generateUUID_pure_and_shaped (input1 input2 : string) :
  List.length (sha256 input1) = 32%nat ->
  Forall isByte (sha256 input1) ->
  input1 = input2 ->
  generateUUID sha256 input1 = generateUUID sha256 input2
  /\ matchesPattern uuidPattern (generateUUID sha256 input1) = true.
Proof.
  intros Hlen Hbytes Heq. split.
  - now rewrite Heq.
  - now apply generateUUID_shape.
Qed.

End Uuid.

(** The digest computed by [SHA256.digest] is always 32 bytes. *)
Lemma SHA256_digest_length (input : string) :
  List.length (SHA256.digest input) = 32%nat.
Proof. reflexivity. Qed.

Lemma SHA256_be_bytes_isByte (n : nat) (x : Z) : Forall isByte (SHA256.be_bytes n x).
Proof.
  unfold SHA256.be_bytes. apply Forall_forall. intros b Hb.
  apply list_elem_of_In, in_map_iff in Hb. destruct Hb as (i & <- & _).
  unfold isByte. apply Z.mod_pos_bound. lia.
Qed.

Lemma SHA256_digest_isByte (input : string) : Forall isByte (SHA256.digest input).
Proof.
  unfold SHA256.digest, SHA256.hash_bytes, SHA256.digest_bytes.
  repeat (apply Forall_app; split); apply SHA256_be_bytes_isByte.
Qed.

Lemma generateUUID_pure_and_shaped_witness :
  generateUUID SHA256.digest "bld_AAAAAAAAAAAA" = "8f137b33-8bb2-428d-91e3-d2070c0660a7"
  /\ matchesPattern uuidPattern (generateUUID SHA256.digest "bld_AAAAAAAAAAAA") = true.
Proof.
  split; [vm_compute; reflexivity|].
  apply (generateUUID_pure_and_shaped SHA256.digest
           "bld_AAAAAAAAAAAA" "bld_AAAAAAAAAAAA").
  - apply SHA256_digest_length.
  - apply SHA256_digest_isByte.
  - reflexivity.
Defined.

(** ** The scopeKey *)

Lemma append_assoc (s1 s2 s3 : string) : (s1 +:+ s2) +:+ s3 = s1 +:+ s2 +:+ s3.
Proof.
  induction s1 as [|c s1 IH]; [reflexivity|].
  change (String c ((s1 +:+ s2) +:+ s3) = String c (s1 +:+ s2 +:+ s3)).
  now rewrite IH.
Qed.

Lemma append_nonempty (c : ascii) (s t : string) : String c s +:+ t <> "".
Proof. change (String c (s +:+ t) <> ""). discriminate. Qed.

Lemma truthy_Some (o : option string) :
  truthy o = true -> exists s, o = Some s /\ s <> "".
Proof.
  destruct o as [s|]; [|discriminate]. simpl. intros H. exists s. split; [reflexivity|].
  intros ->. discriminate.
Qed.

Lemma scopeKeyOf_nonempty (build : Build) : scopeKeyOf build <> "".
Proof.
  unfold scopeKeyOf. destruct (truthy _); apply append_nonempty.
Qed.

(** C9. The scopeKey derived from a build record is "@<owner>/<slug>" when
    the config has a (non-empty) owner, "@anonymous/<slug>" when it has no
    owner but a slug, and "@anonymous/app" when it has neither; a missing slug
    reads as "app" beside an owner too. The result is never empty, and it is
    the [extra.scopeKey] of the manifest generated for a record that stores
    no manifest. *)
Theorem scopeKey_derivation (build : Build) :
  let slug := b_expoConfig build ≫= cfg_slug in
  let owner := b_expoConfig build ≫= cfg_owner in
  (forall o, owner = Some o -> o <> "" ->
     scopeKeyOf build = "@" +:+ o +:+ "/" +:+ nullish slug "app")
  /\ (truthy owner = false -> forall s, slug = Some s ->
        scopeKeyOf build = "@anonymous/" +:+ s)
  /\ (truthy owner = false -> slug = None -> scopeKeyOf build = "@anonymous/app")
  /\ scopeKeyOf build <> ""
  /\ (forall sha256 baseUrl platform,
        b_manifest build = None ->
        m_extra (generateManifest sha256 build baseUrl platform) ≫= ex_scopeKey
          = Some (scopeKeyOf build)).
Proof.
  cbv zeta. split; [|split; [|split; [|split]]].
  - intros o Ho Hne. unfold scopeKeyOf. rewrite Ho. simpl.
    destruct (String.eqb_spec o "") as [E|_]; [contradiction|]. reflexivity.
  - intros Ho s Hs. unfold scopeKeyOf. rewrite Ho, Hs. reflexivity.
  - intros Ho Hs. unfold scopeKeyOf. rewrite Ho, Hs. reflexivity.
  - apply scopeKeyOf_nonempty.
  - intros sha256 baseUrl platform Hm. unfold generateManifest. rewrite Hm. reflexivity.
Qed.

Lemma scopeKey_derivation_witness :
  scopeKeyOf (buildWithConfig (Some (configOf (Some "acme") (Some "app")))) = "@acme/app"
  /\ scopeKeyOf (buildWithConfig (Some (configOf None (Some "app")))) = "@anonymous/app"
  /\ scopeKeyOf (buildWithConfig (Some (configOf None None))) = "@anonymous/app"
  /\ scopeKeyOf (buildWithConfig None) = "@anonymous/app".
Proof.
  split; [|split; [|split]].
  - apply (proj1 (scopeKey_derivation
                    (buildWithConfig (Some (configOf (Some "acme") (Some "app")))))
                 "acme"); [reflexivity | discriminate].
  - apply (proj1 (proj2 (scopeKey_derivation
                    (buildWithConfig (Some (configOf None (Some "app"))))))); reflexivity.
  - apply (proj1 (proj2 (proj2 (scopeKey_derivation
                    (buildWithConfig (Some (configOf None None))))))); reflexivity.
  - apply (proj1 (proj2 (proj2 (scopeKey_derivation (buildWithConfig None)))));
      reflexivity.
Defined.

(** ** The launch asset chosen by the builder *)

Section LaunchAsset.

Import BuilderBuild.
Variable extname : string -> string.

(** C7. For platform [android] the launch bundle is the android bundle when
    the build output has one and the iOS bundle otherwise; for [ios] it is
    the iOS bundle only. Without a bundle path for the requested platform
    generation fails with the missing-bundle error; and whenever a manifest
    is generated its launch asset is the asset found at the chosen path. *)
Theorem launch_asset_selection
    (buildId runtimeVersion : string) (expoConfig : option ExpoClientConfig)
    (assets : list AssetMetadata) (bundles : Bundles) (now : string) :
  bundlePathFor bundles "android"
    = match bundles_android bundles with
      | Some p => Some p
      | None => bundles_ios bundles
      end
  /\ bundlePathFor bundles "ios" = bundles_ios bundles
  /\ (forall platform,
        truthy (bundlePathFor bundles platform) = false ->
        generateManifest extname buildId runtimeVersion expoConfig assets bundles
          platform now = inl (NoBundlePath platform))
  /\ (forall platform manifest,
        generateManifest extname buildId runtimeVersion expoConfig assets bundles
          platform now = inr manifest ->
        exists bundlePath bundleAsset,
          bundlePathFor bundles platform = Some bundlePath
          /\ List.find (fun a => String.eqb (am_path a) bundlePath) assets
             = Some bundleAsset
          /\ am_path bundleAsset = bundlePath
          /\ ea_key (m_launchAsset manifest) = "bundle"
          /\ ea_hash (m_launchAsset manifest) = am_hash bundleAsset
          /\ ea_url (m_launchAsset manifest)
             = "bundles/" +:+ platform +:+ extname bundlePath)
  /\ (forall platform bundlePath bundleAsset,
        bundlePathFor bundles platform = Some bundlePath ->
        bundlePath <> "" ->
        List.find (fun a => String.eqb (am_path a) bundlePath) assets
          = Some bundleAsset ->
        exists manifest,
          generateManifest extname buildId runtimeVersion expoConfig assets bundles
            platform now = inr manifest
          /\ ea_hash (m_launchAsset manifest) = am_hash bundleAsset).
Proof.
  split; [reflexivity|]. split; [reflexivity|]. split; [|split].
  - intros platform Hnone. unfold generateManifest. now rewrite Hnone.
  - intros platform manifest. unfold generateManifest.
    destruct (truthy (bundlePathFor bundles platform)) eqn:Hpath; [|discriminate].
    destruct (truthy_Some _ Hpath) as (p & Hp & Hne). rewrite Hp. simpl.
    destruct (List.find _ assets) as [a|] eqn:Hfind; [|discriminate].
    intros [= <-]. exists p, a. simpl.
    pose proof (find_some _ _ Hfind) as [_ Hpa].
    apply String.eqb_eq in Hpa. auto 10.
  - intros platform p a Hp Hne Hfind. unfold generateManifest. rewrite Hp. simpl.
    destruct (String.eqb_spec p "") as [E|_]; [contradiction|]. simpl.
    rewrite Hfind. eexists. split; reflexivity.
Qed.

End LaunchAsset.

Lemma launch_asset_selection_witness :
  exists manifest,
    BuilderBuild.generateManifest exampleExtname "bld_AAAAAAAAAAAA" "exposdk:52.0.0"
      (Some demoConfig) iosOnlyAssets iosOnlyBundles "android"
      "2025-01-01T00:04:59.000Z" = inr manifest
    /\ ea_hash (m_launchAsset manifest) = "hash-ios".
Proof.
  destruct (launch_asset_selection exampleExtname "bld_AAAAAAAAAAAA" "exposdk:52.0.0"
              (Some demoConfig) iosOnlyAssets iosOnlyBundles "2025-01-01T00:04:59.000Z")
    as (_ & _ & _ & _ & Hgen).
  destruct (Hgen "android" "_expo/static/js/ios/index-1a2b.hbc"
              {| am_key := "_expo/static/js/ios/index-1a2b.hbc"; am_hash := "hash-ios";
                 am_contentType := "application/javascript";
                 am_fileExtension := Some ".hbc";
                 am_path := "_expo/static/js/ios/index-1a2b.hbc" |})
    as (manifest & Heq & Hhash).
  - reflexivity.
  - discriminate.
  - reflexivity.
  - exists manifest. split; [exact Heq | exact Hhash].
Defined.

(** ** The multipart manifest response *)

Section ManifestRoute.

Variable sha256 : string -> list Z.
Variable JSON_stringify : JsObject -> string.

Lemma updateManifestUrls_scopeKey manifest baseUrl buildId :
  exists k,
    m_extra (updateManifestUrls sha256 manifest baseUrl buildId) ≫= ex_scopeKey = Some k
    /\ k <> "".
Proof.
  unfold updateManifestUrls. simpl.
  destruct (truthy (m_extra manifest ≫= ex_scopeKey)) eqn:Hstored.
  - destruct (truthy_Some _ Hstored) as (k & Hk & Hne). rewrite Hk. simpl. eauto.
  - destruct (truthy ((m_extra manifest ≫= ex_expoClient) ≫= cfg_slug));
      eexists; (split; [reflexivity|]).
    + apply append_nonempty.
    + discriminate.
Qed.




End ManifestRoute.



(** * Further properties of the code *)

(** ** The build lock *)

(** X1. Taking the lock is not one step. A call of [acquireBuildLock] that
    runs alone does what the one-step [acquireBuildLock] of the handlers
    does: it returns whether the lock was free and leaves the file locked.
    Two calls in turn on a free lock: the first gets it, the second does
    not. Two overlapping calls on a free lock, the second reading the file
    before the first has written it: both get the lock. *)
Theorem acquireBuildLock_overlapping
    (d : LocalKVData) (cached : option LocalKVData) (js : list Job) :
  let free := set_lock false d in
  (exists s',
     LockSteps.run [LockSteps.First; LockSteps.First; LockSteps.First]
       {| LockSteps.file := d; LockSteps.this_data := cached |}
     = (s', LockSteps.Done (negb (buildLock d)), LockSteps.Start)
     /\ acquireBuildLock {| kv := d; jobs := js |}
        = (Ret (negb (buildLock d)), {| kv := LockSteps.file s'; jobs := js |}))
  /\ (exists s',
        LockSteps.run LockSteps.inTurn
          {| LockSteps.file := free; LockSteps.this_data := cached |}
        = (s', LockSteps.Done true, LockSteps.Done false)
        /\ LockSteps.file s' = set_lock true d)
  /\ (exists s',
        LockSteps.run LockSteps.overlapping
          {| LockSteps.file := free; LockSteps.this_data := cached |}
        = (s', LockSteps.Done true, LockSteps.Done true)
        /\ LockSteps.file s' = set_lock true d).
Proof.
  destruct d as [bs keys lock]. cbv zeta. split; [|split].
  - unfold acquireBuildLock. destruct lock; simpl; eexists; split; reflexivity.
  - eexists. split; reflexivity.
  - eexists. split; reflexivity.
Qed.

(** ** What the handlers write *)

(** An accepted submission: the lock is taken, the record stored, the builder
    triggered and its job registered. *)
Lemma upload_locked_accepted (env : UploadEnv) (metadata : UploadRequest) (w : World) :
  buildLock (kv w) = false ->
  storage_fault env = None ->
  spawn_fault env = None ->
  upload_locked env metadata w
    = (Ret (json (UploadBody ("bld_" +:+ nanoid env) StPending) 201),
       {| kv := {| builds := <["bld_" +:+ nanoid env :=
                                triggered (now_trigger env) (newBuild env metadata)]>
                               (builds (kv w));
                   apiKeys := apiKeys (kv w);
                   buildLock := true |};
          jobs := jobs w ++ [{| job_builder := builder env;
                                job_build := triggered (now_trigger env)
                                               (newBuild env metadata);
                                job_timer := true |}] |}).
Proof.
  intros Hfree Hst Hsp.
  unfold upload_locked, bind, acquireBuildLock, try_catch. rewrite Hfree. simpl.
  unfold uploadTarball. rewrite Hst. unfold ret. simpl.
  unfold triggerBuild.
  destruct (builder env); simpl;
    unfold LocalDockerBuilder_triggerBuild, LocalProcessBuilder_triggerBuild,
      bind, setBuild, spawn, setTimeout; simpl; rewrite Hsp; simpl;
    unfold with_kv, with_jobs, set_lock; simpl; rewrite insert_insert_eq; reflexivity.
Qed.

Section ShapeInvariant.

Lemma keeps_ret {A} (a : A) : keeps (ret a).
Proof. intros w Hw. exact Hw. Qed.

Lemma keeps_raise {A} (e : Thrown) : keeps (@raise A e).
Proof. intros w Hw. exact Hw. Qed.

Lemma keeps_bind {A B} (c : M A) (k : A -> M B) :
  keeps c -> (forall a, keeps (k a)) -> keeps (bind c k).
Proof.
  intros Hc Hk w Hw. specialize (Hc w Hw). unfold exec, bind in *.
  destruct (c w) as [[a|e|] w']; simpl in *; [now apply Hk | exact Hc | exact Hc].
Qed.

Lemma keeps_try_catch {A} (body : M A) (handler : Thrown -> M A) :
  keeps body -> (forall e, keeps (handler e)) -> keeps (try_catch body handler).
Proof.
  intros Hb Hh w Hw. specialize (Hb w Hw). unfold exec, try_catch in *.
  destruct (body w) as [[a|e|] w']; simpl in *; [exact Hb | now apply Hh | exact Hb].
Qed.

Lemma keeps_acquireBuildLock : keeps acquireBuildLock.
Proof.
  intros w Hw. unfold exec, acquireBuildLock. destruct (buildLock (kv w)); exact Hw.
Qed.

Lemma keeps_releaseBuildLock : keeps releaseBuildLock.
Proof. intros w Hw. exact Hw. Qed.

Lemma keeps_setBuild (b : Build) : recordShape b -> keeps (setBuild b).
Proof.
  intros Hb w (Hkeys & Hrec & Hjobs). split; [exact Hkeys|]. split; [|exact Hjobs].
  intros id b'. unfold exec, setBuild. simpl. rewrite lookup_insert.
  case_decide as Hid.
  - intros [= <-]. auto.
  - apply Hrec.
Qed.

Lemma keeps_setTimeout (j : Job) : jobShape (job_build j) -> keeps (setTimeout j).
Proof.
  intros Hj w (Hkeys & Hrec & Hjobs). split; [exact Hkeys|]. split; [exact Hrec|].
  unfold exec, setTimeout. simpl. apply Forall_app. split; [exact Hjobs|].
  constructor; [exact Hj | constructor].
Qed.

(** A build object that has neither completion time, manifest nor assets,
    and an error when it is failed. *)
Lemma recordShape_unstamped (b : Build) :
  (statusIs (b_status b) "success" = false) ->
  (statusIs (b_status b) "failed" = true -> is_Some (b_error b)) ->
  b_manifest b = None -> b_assets b = None -> recordShape b.
Proof.
  intros Hs Hf Hm Ha. unfold recordShape. rewrite Hs, Hm, Ha.
  split; [discriminate|]. split; [exact Hf|].
  split; intros [x Hx]; discriminate Hx.
Qed.

Lemma recordShape_newBuild env metadata : recordShape (newBuild env metadata).
Proof. apply recordShape_unstamped; try reflexivity. discriminate. Qed.

Lemma recordShape_triggered now env metadata :
  recordShape (triggered now (newBuild env metadata)).
Proof. apply recordShape_unstamped; try reflexivity. discriminate. Qed.

Lemma jobShape_triggered now env metadata :
  jobShape (triggered now (newBuild env metadata)).
Proof. repeat split. left. split; reflexivity. Qed.

Lemma recordShape_webhookUpdated payload t1 t2 build :
  recordShape build -> recordShape (webhookUpdated payload t1 t2 build).
Proof.
  intros (Hs & Hf & Hm & Ha). unfold webhookUpdated, recordShape.
  destruct (statusIs (wp_status payload) "success") eqn:Es.
  - simpl. repeat split; eauto.
    intros Ef. discriminate (statusIs_inj _ _ _ Es Ef).
  - destruct (statusIs (wp_status payload) "failed") eqn:Ef; simpl.
    + repeat split; eauto.
    + rewrite Es, Ef. repeat split; try discriminate; assumption.
Qed.

Lemma jobShape_timedOut j now :
  jobShape (job_build j) -> jobShape (timedOut j now).
Proof.
  intros (Hc & Hm & Ha & Hs). unfold timedOut.
  destruct (job_builder j); [now repeat split|].
  repeat split; try assumption. right. split; [reflexivity|]. simpl. eauto.
Qed.

Lemma jobShape_errored j message now :
  jobShape (job_build j) -> jobShape (errored j message now).
Proof.
  intros (Hc & Hm & Ha & Hs). unfold errored.
  destruct (job_builder j); (repeat split; try assumption);
    right; (split; [reflexivity|]); simpl; eauto.
Qed.

Lemma keeps_triggerBuild kind fault now env metadata :
  keeps (triggerBuild kind fault now (newBuild env metadata)).
Proof.
  destruct kind; simpl;
    (apply keeps_bind;
       [apply keeps_setBuild, (recordShape_triggered now env metadata)|]);
    intros _;
    (apply keeps_bind; [destruct fault; [apply keeps_raise | apply keeps_ret]|]);
    intros _; apply keeps_setTimeout, (jobShape_triggered now env metadata).
Qed.

Lemma keeps_upload form env : keeps (upload form env).
Proof.
  unfold upload. apply keeps_bind; [intros w Hw; exact Hw|]. intros isLocked.
  destruct isLocked; [apply keeps_ret|].
  destruct (validate form env) as [[r|e]|metadata];
    [apply keeps_ret | apply keeps_raise |].
  unfold upload_locked.
  apply keeps_bind; [apply keeps_acquireBuildLock|]. intros lockAcquired.
  destruct (negb lockAcquired); [apply keeps_ret|].
  apply keeps_try_catch.
  - apply keeps_bind; [apply keeps_setBuild, recordShape_newBuild|]. intros _.
    apply keeps_bind.
    { unfold uploadTarball. destruct (storage_fault env);
        [apply keeps_raise | apply keeps_ret]. }
    intros url. apply keeps_bind; [apply keeps_triggerBuild|]. intros _.
    apply keeps_ret.
  - intros e. apply keeps_bind; [apply keeps_releaseBuildLock|]. intros _.
    apply keeps_ret.
Qed.

Lemma keeps_webhook payload t1 t2 : keeps (webhook payload t1 t2).
Proof.
  intros w Hw.
  destruct (String.eqb_spec (wp_buildId payload) "") as [E|Hne].
  - unfold exec, webhook. rewrite E. exact Hw.
  - destruct (builds (kv w) !! wp_buildId payload) as [build|] eqn:Hb.
    + unfold exec at 1. rewrite (webhook_found _ _ _ _ _ Hne Hb). simpl.
      apply keeps_releaseBuildLock.
      refine (keeps_setBuild _ _ w Hw). apply recordShape_webhookUpdated.
      destruct Hw as (_ & Hrec & _). exact (proj2 (Hrec _ _ Hb)).
    + unfold exec, webhook, bind.
      destruct (String.eqb (wp_buildId payload) ""); [exact Hw|].
      rewrite (getBuild_missing _ _ Hb).
      destruct (inheritedKey (wp_buildId payload)); [|exact Hw].
      destruct (String.eqb (wp_buildId payload) "__proto__"); [exact Hw|].
      destruct Hw as (Hkeys & Hrec & Hjobs). simpl.
      split; [exact Hkeys|]. split; [|exact Hjobs].
      intros id b Hlook. simpl in Hlook.
      apply lookup_delete_Some in Hlook as [_ Hlook]. now apply Hrec.
Qed.

Lemma shapeInv_timerDone i j (build : Build) w :
  jobShape build -> shapeInv w -> shapeInv (timerDone i j build w).
Proof.
  intros Hb (Hkeys & Hrec & Hjobs). split; [exact Hkeys|]. split; [exact Hrec|].
  unfold timerDone. simpl. apply Forall_insert; [exact Hjobs | exact Hb].
Qed.

Lemma shapeInv_job w i j : shapeInv w -> jobs w !! i = Some j -> jobShape (job_build j).
Proof.
  intros (_ & _ & Hjobs) Hj. rewrite Forall_lookup in Hjobs. exact (Hjobs i j Hj).
Qed.

Lemma keeps_onTimeout j now : jobShape (job_build j) -> keeps (onTimeout j now).
Proof.
  intros (_ & Hm & Ha & _). unfold onTimeout.
  destruct (job_builder j); [apply keeps_ret|].
  apply keeps_bind; [|intros _; apply keeps_releaseBuildLock].
  apply keeps_setBuild, recordShape_unstamped; simpl; eauto.
Qed.

Lemma keeps_onError j message now :
  jobShape (job_build j) -> keeps (onError j message now).
Proof.
  intros (_ & Hm & Ha & _). unfold onError. destruct (job_builder j);
    (apply keeps_bind; [|intros _; apply keeps_releaseBuildLock]);
    apply keeps_setBuild, recordShape_unstamped; simpl; eauto.
Qed.

Lemma shapeInv_step w w' : shapeInv w -> step w w' -> shapeInv w'.
Proof.
  intros Hw Hstep. destruct Hstep as [form env w | payload t1 t2 w _
    | i j now w Hj Htimer | i j message now w Hj | i j w Hj].
  - now apply keeps_upload.
  - now apply keeps_webhook.
  - pose proof (shapeInv_job _ _ _ Hw Hj) as Hshape.
    apply keeps_onTimeout; [exact Hshape|].
    apply shapeInv_timerDone; [now apply jobShape_timedOut | exact Hw].
  - pose proof (shapeInv_job _ _ _ Hw Hj) as Hshape.
    apply keeps_onError; [exact Hshape|].
    apply shapeInv_timerDone; [now apply jobShape_errored | exact Hw].
  - destruct Hw as (Hkeys & Hrec & Hjobs). split; [exact Hkeys|]. split; [exact Hrec|].
    unfold childClosed. simpl. now apply Forall_delete.
Qed.

Lemma shapeInv_reachable w : reachable w -> shapeInv w.
Proof.
  unfold reachable. intros Hreach.
  apply (rtc_ind_r (R := step) shapeInv initialWorld); [ | | exact Hreach].
  - split; [reflexivity|]. split; [|constructor].
    intros id b. simpl. rewrite lookup_empty. discriminate.
  - intros y z _ Hstep Hy. exact (shapeInv_step y z Hy Hstep).
Qed.

End ShapeInvariant.



(** ** The authorization middleware *)

Lemma substring_all (s : string) : substring 0 (String.length s) s = s.
Proof. induction s as [|c s IH]; [reflexivity|]. simpl. now rewrite IH. Qed.

(** A string is its prefix followed by the rest. *)
Lemma prefix_sliceFrom (p h : string) :
  String.prefix p h = true -> h = p +:+ sliceFrom (String.length p) h.
Proof.
  unfold sliceFrom. revert h. induction p as [|c p IH]; intros h Hp.
  - change ("" +:+ substring 0 (String.length h - 0) h)
      with (substring 0 (String.length h - 0) h).
    now rewrite Nat.sub_0_r, substring_all.
  - destruct h as [|c' h]; [discriminate Hp|]. simpl in Hp.
    destruct (ascii_dec c c') as [<-|]; [|discriminate Hp].
    change (String c p +:+ substring (String.length (String c p))
                            (String.length (String c h) - String.length (String c p))
                            (String c h))
      with (String c (p +:+ substring (String.length p)
                              (String.length h - String.length p) h)).
    f_equal. now apply IH.
Qed.

(** The middleware on a header that was received. *)
Lemma authMiddleware_received (authHeader : string) (next : M Response) (w : World) :
  authHeader <> "" ->
  authMiddleware (Some authHeader) next w
    = (if existsb
            (String.eqb (if String.prefix "Bearer " authHeader
                         then sliceFrom 7 authHeader else authHeader))
            (apiKeys (kv w))
       then next w
       else (Ret (json (ErrorBody "Invalid API key") 401), w)).
Proof.
  intros Hne. unfold authMiddleware, truthy.
  destruct (String.eqb_spec authHeader "") as [E|_]; [contradiction|].
  cbn [negb]. unfold nullish, bind, validateApiKey. cbn [negb fst snd].
  destruct (existsb _ (apiKeys (kv w))); reflexivity.
Qed.

(** X5. No request and no builder event ever changes the API keys: in every
    state reachable from a missing file they are the keys of the default
    data. So the upload route behind the middleware runs for exactly two
    values of the Authorization header as the server receives it, the
    development key after [Bearer ] and the bare development key; every
    other value is answered 401 and the state is left as it was. *)
Theorem reachable_api_keys (w : World) (authHeader : string)
    (form : UploadForm) (env : UploadEnv) :
  reachable w ->
  apiKeys (kv w) = ["lk_test_dev_key_12345"]
  /\ (authHeader = "Bearer lk_test_dev_key_12345"
      \/ authHeader = "lk_test_dev_key_12345" ->
      protected_upload (Some authHeader) form env w = upload form env w)
  /\ (authHeader <> "Bearer lk_test_dev_key_12345" ->
      authHeader <> "lk_test_dev_key_12345" ->
      exists message,
        protected_upload (Some authHeader) form env w
          = (Ret (json (ErrorBody message) 401), w)).
Proof.
  intros Hreach. destruct (shapeInv_reachable w Hreach) as (Hkeys & _ & _).
  simpl in Hkeys. split; [exact Hkeys|].
  unfold protected_upload. split.
  - intros [-> | ->]; (rewrite authMiddleware_received by discriminate);
      rewrite Hkeys; reflexivity.
  - intros Hbearer Hbare.
    destruct (String.eqb_spec authHeader "") as [->|Hne]; [eexists; reflexivity|].
    rewrite (authMiddleware_received authHeader _ w Hne), Hkeys.
    destruct (String.prefix "Bearer " authHeader) eqn:Hp.
    + apply prefix_sliceFrom in Hp. simpl String.length in Hp. simpl existsb.
      destruct (String.eqb_spec (sliceFrom 7 authHeader) "lk_test_dev_key_12345")
        as [E|_]; [|eexists; reflexivity].
      exfalso. apply Hbearer. rewrite Hp, E. reflexivity.
    + simpl existsb.
      destruct (String.eqb_spec authHeader "lk_test_dev_key_12345") as [E|_];
        [contradiction | eexists; reflexivity].
Qed.

Lemma reachable_api_keys_witness :
  apiKeys (kv afterSuccess) = ["lk_test_dev_key_12345"]
  /\ exists message,
       protected_upload (Some "Bearer lk_live_guess") demoForm
         (nextEnv Process) afterSuccess
       = (Ret (json (ErrorBody message) 401), afterSuccess).
Proof.
  assert (Hreach : reachable afterSuccess).
  { eapply reachable_step;
      [apply (reachable_inFlight Process) | apply step_webhook; discriminate]. }
  destruct (reachable_api_keys afterSuccess "Bearer lk_live_guess" demoForm
              (nextEnv Process) Hreach) as (Hkeys & _ & Hdenied).
  split; [exact Hkeys|]. apply Hdenied; discriminate.
Defined.

(** ** Submissions *)

Lemma validate_status (form : UploadForm) (env : UploadEnv) (r : Response) :
  validate form env = inl (Answered r) -> r_status r = 400.
Proof.
  unfold validate. intros H.
  repeat match type of H with
         | context [match ?x with _ => _ end] => destruct x
         end; inversion H; reflexivity.
Qed.

(** The submissions the handler accepts. *)
Lemma validate_valid (form : UploadForm) (env : UploadEnv) (metadata : UploadRequest) :
  validate form env = inr metadata <->
  exists size text,
    form_tarball form = FieldFile size
    /\ (size <= MAX_TARBALL_SIZE_BYTES)%N
    /\ form_metadata form = FieldString text
    /\ text <> ""
    /\ JSON_parse env text = Some (Some metadata)
    /\ truthy (ur_projectSlug metadata) = true
    /\ truthy (ur_expoConfig metadata ≫= cfg_name) = true
    /\ truthy (ur_expoConfig metadata ≫= cfg_slug) = true.
Proof.
  unfold validate. split.
  - intros H.
    destruct (form_tarball form) as [|size|]; try discriminate H.
    destruct (form_metadata form) as [| |text]; try discriminate H.
    destruct (String.eqb_spec text "") as [|Hne]; [discriminate H|].
    destruct (JSON_parse env text) as [[m|]|] eqn:Hparse; try discriminate H.
    destruct (truthy (ur_projectSlug m)) eqn:Hp; [|discriminate H].
    destruct (truthy (ur_expoConfig m ≫= cfg_name)) eqn:Hn; [|discriminate H].
    destruct (truthy (ur_expoConfig m ≫= cfg_slug)) eqn:Hs; [|discriminate H].
    simpl in H.
    destruct (N.ltb_spec MAX_TARBALL_SIZE_BYTES size) as [|Hle]; [discriminate H|].
    injection H as <-. exists size, text. repeat split; try reflexivity; assumption.
  - intros (size & text & -> & Hle & -> & Hne & -> & -> & -> & ->).
    destruct (String.eqb_spec text "") as [E|_]; [contradiction|]. simpl.
    destruct (N.ltb_spec MAX_TARBALL_SIZE_BYTES size) as [Hgt|_]; [lia | reflexivity].
Qed.

(** The one submission the handler throws on. *)
Lemma validate_crashed (form : UploadForm) (env : UploadEnv) (e : Thrown) :
  validate form env = inl (Crashed e) <->
  e = TypeError_projectSlug_of_null
  /\ exists size text,
       form_tarball form = FieldFile size
       /\ form_metadata form = FieldString text
       /\ text <> ""
       /\ JSON_parse env text = Some None.
Proof.
  unfold validate. split.
  - intros H.
    destruct (form_tarball form) as [|size|]; try discriminate H.
    destruct (form_metadata form) as [| |text]; try discriminate H.
    destruct (String.eqb_spec text "") as [|Hne]; [discriminate H|].
    destruct (JSON_parse env text) as [[m|]|] eqn:Hparse; try discriminate H.
    + repeat match type of H with
             | context [if ?c then _ else _] => destruct c
             end; discriminate H.
    + injection H as <-. split; [reflexivity|]. exists size, text.
      repeat split; try reflexivity; assumption.
  - intros (-> & size & text & -> & -> & Hne & ->).
    destruct (String.eqb_spec text "") as [E|_]; [contradiction | reflexivity].
Qed.

(** X6. Of a request whose body is form data, the handler finds the
    submission valid exactly when the tarball is a file of at most 100 MB
    and the metadata is a non-empty string that parses to a value with a
    project slug and an app name and slug. A submission that is not valid
    never takes the lock, stores a record or starts a builder. With a build
    in flight it is answered 429; otherwise it is answered 400, except when
    the metadata parses to [null]: then the handler throws, and the client
    gets the 500 of [app.onError]. *)
Theorem upload_invalid_form (form : UploadForm) (env : UploadEnv) (w : World) :
  (forall metadata,
     validate form env = inr metadata <->
     exists size text,
       form_tarball form = FieldFile size
       /\ (size <= MAX_TARBALL_SIZE_BYTES)%N
       /\ form_metadata form = FieldString text
       /\ text <> ""
       /\ JSON_parse env text = Some (Some metadata)
       /\ truthy (ur_projectSlug metadata) = true
       /\ truthy (ur_expoConfig metadata ≫= cfg_name) = true
       /\ truthy (ur_expoConfig metadata ≫= cfg_slug) = true)
  /\ (forall rejected,
        validate form env = inl rejected ->
        exec (upload form env) w = w
        /\ exec (app_onError (upload form env)) w = w
        /\ (buildLock (kv w) = true ->
            result (upload form env) w
            = Ret (json (ErrorBody "A build is already in progress. Please wait.") 429))
        /\ (buildLock (kv w) = false ->
            match rejected with
            | Answered r =>
                result (upload form env) w = Ret r /\ r_status r = 400
            | Crashed e =>
                result (upload form env) w = Throw e
                /\ result (app_onError (upload form env)) w
                   = Ret (json (ErrorBody "Internal server error") 500)
                /\ exists size text,
                     form_tarball form = FieldFile size
                     /\ form_metadata form = FieldString text
                     /\ JSON_parse env text = Some None
            end)).
Proof.
  split; [intros metadata; apply validate_valid|].
  intros rejected Hrej.
  unfold app_onError, try_catch, result, exec, upload, bind, isBuildLocked.
  destruct (buildLock (kv w)) eqn:Hlock; simpl.
  - repeat split; try reflexivity. discriminate.
  - rewrite Hrej. destruct rejected as [r|e]; simpl.
    + repeat split; try reflexivity; try discriminate.
      exact (validate_status form env r Hrej).
    + repeat split; try reflexivity; try discriminate.
      apply validate_crashed in Hrej as (_ & size & text & Ht & Hm & _ & Hp).
      exists size, text. repeat split; try reflexivity; assumption.
Qed.

(** X7. A valid submission with the lock free, whose tarball is stored and
    whose builder starts, is answered 201 with the new build id and status
    [pending]; afterwards the lock is held, the record is stored as pending
    under that id, one job with a pending timer is registered for the
    configured builder, and any further submission is refused with 429. *)
Theorem upload_accepted (form : UploadForm) (env : UploadEnv)
    (metadata : UploadRequest) (w : World) :
  buildLock (kv w) = false ->
  validate form env = inr metadata ->
  storage_fault env = None ->
  spawn_fault env = None ->
  let id := "bld_" +:+ nanoid env in
  let w' := exec (upload form env) w in
  result (upload form env) w = Ret (json (UploadBody id StPending) 201)
  /\ buildLock (kv w') = true
  /\ builds (kv w') = <[id := triggered (now_trigger env) (newBuild env metadata)]>
                        (builds (kv w))
  /\ jobs w' = jobs w ++ [{| job_builder := builder env;
                             job_build := triggered (now_trigger env)
                                            (newBuild env metadata);
                             job_timer := true |}]
  /\ (forall form' env',
        upload form' env' w'
          = (Ret (json (ErrorBody "A build is already in progress. Please wait.") 429),
             w')).
Proof.
  intros Hfree Hvalid Hst Hsp. cbv zeta.
  assert (Heq : upload form env w = upload_locked env metadata w).
  { unfold upload, bind, isBuildLocked. rewrite Hfree. simpl. now rewrite Hvalid. }
  unfold result, exec. rewrite Heq.
  rewrite (upload_locked_accepted env metadata w Hfree Hst Hsp). simpl.
  repeat split.
Qed.

Lemma upload_accepted_witness :
  result (upload demoForm (nextEnv Process)) afterSuccess
    = Ret (json (UploadBody "bld_BBBBBBBBBBBB" StPending) 201)
  /\ buildLock (kv (exec (upload demoForm (nextEnv Process)) afterSuccess)) = true.
Proof.
  destruct (upload_accepted demoForm (nextEnv Process) demoMetadata afterSuccess)
    as (Hres & Hlock & _); try reflexivity.
  split; [exact Hres | exact Hlock].
Defined.

(** ** The webhook for a stored build *)



(** ** Timeout and error events of the builder children *)

(** X9. When the timeout of a job of the process builder fires in a reachable
    state, the record of its build becomes [failed] with the error "Build
    timed out", without manifest and without completion time, whatever a
    webhook had stored there before; the lock is free, the other records are
    untouched, the timer cannot fire again, and a following valid submission
    is accepted with 201. *)
Theorem process_timeout_recovers (w : World) (i : nat) (j : Job) (now : string) :
  reachable w ->
  jobs w !! i = Some j ->
  job_timer j = true ->
  job_builder j = Process ->
  let w' := fireTimeout i now w in
  let id := b_id (job_build j) in
  (exists b,
     builds (kv w') !! id = Some b
     /\ b_status b = StFailed
     /\ b_error b = Some "Build timed out"
     /\ b_updatedAt b = now
     /\ b_manifest b = None
     /\ b_completedAt b = None)
  /\ buildLock (kv w') = false
  /\ (forall id', id' <> id -> builds (kv w') !! id' = builds (kv w) !! id')
  /\ (forall now', fireTimeout i now' w' = w')
  /\ (forall form env metadata,
        validate form env = inr metadata ->
        storage_fault env = None ->
        spawn_fault env = None ->
        result (upload form env) w'
          = Ret (json (UploadBody ("bld_" +:+ nanoid env) StPending) 201)).
Proof.
  intros Hreach Hj Htimer Hkind. cbv zeta.
  destruct (shapeInv_job _ _ _ (shapeInv_reachable w Hreach) Hj) as (Hc & Hm & _).
  assert (Hlen : (i < List.length (jobs w))%nat) by (eapply lookup_lt_Some; eauto).
  assert (Hw' : fireTimeout i now w
                = {| kv := {| builds := <[b_id (job_build j) :=
                                           LocalProcessBuilder_timedOut now (job_build j)]>
                                          (builds (kv w));
                              apiKeys := apiKeys (kv w);
                              buildLock := false |};
                     jobs := <[i := {| job_builder := Process;
                                       job_build :=
                                         LocalProcessBuilder_timedOut now (job_build j);
                                       job_timer := false |}]> (jobs w) |}).
  { unfold fireTimeout, timerDone, onTimeout, timedOut. rewrite Hj, Htimer, Hkind.
    reflexivity. }
  rewrite Hw'. clear Hw'. simpl.
  split; [|split; [|split; [|split]]].
  - eexists. split; [apply lookup_insert_eq|]. simpl. auto 10.
  - reflexivity.
  - intros id' Hne. rewrite lookup_insert_ne; [reflexivity|]. intros E. now apply Hne.
  - intros now'. unfold fireTimeout. simpl.
    rewrite list_lookup_insert_eq by exact Hlen. reflexivity.
  - intros form env metadata Hvalid Hst Hsp.
    unfold result, upload, bind, isBuildLocked. simpl. rewrite Hvalid.
    rewrite upload_locked_accepted; [reflexivity | reflexivity | exact Hst | exact Hsp].
Qed.

Lemma process_timeout_recovers_witness :
  (exists b0, builds (kv afterSuccess) !! "bld_AAAAAAAAAAAA" = Some b0
              /\ b_status b0 = StSuccess /\ b_manifest b0 = Some demoManifest)
  /\ (exists b,
        builds (kv (fireTimeout 0 "2025-01-01T00:15:00.002Z" afterSuccess))
          !! "bld_AAAAAAAAAAAA" = Some b
        /\ b_status b = StFailed
        /\ b_error b = Some "Build timed out"
        /\ b_manifest b = None)
  /\ buildLock (kv (fireTimeout 0 "2025-01-01T00:15:00.002Z" afterSuccess)) = false.
Proof.
  split; [eexists; split; [vm_compute; reflexivity | split; reflexivity]|].
  assert (Hreach : reachable afterSuccess).
  { eapply reachable_step; [apply (reachable_inFlight Process) | apply step_webhook; discriminate]. }
  assert (Hjob : exists j, jobs afterSuccess !! 0%nat = Some j
                           /\ job_timer j = true /\ job_builder j = Process
                           /\ b_id (job_build j) = "bld_AAAAAAAAAAAA").
  { eexists. split; [reflexivity|]. repeat split. }
  destruct Hjob as (j & Hj & Htimer & Hkind & Hid).
  destruct (process_timeout_recovers afterSuccess 0 j "2025-01-01T00:15:00.002Z"
              Hreach Hj Htimer Hkind) as ((b & Hb & Hs & He & _ & Hm & _) & Hlock & _).
  rewrite Hid in Hb. split; [|exact Hlock].
  exists b. auto.
Defined.

(** X10. An [error] event of the builder child, of either variant, stores
    the build of its job as [failed] with the error "Docker error: ..." or
    "Process error: ..." and releases the lock; the other records are
    untouched and the timeout of the job will not fire any more. *)
Theorem child_error_fails_build (w : World) (i : nat) (j : Job) (message now : string) :
  jobs w !! i = Some j ->
  let w' := fireError i message now w in
  let id := b_id (job_build j) in
  (exists b,
     builds (kv w') !! id = Some b
     /\ b_status b = StFailed
     /\ b_error b = Some (match job_builder j with
                          | Docker => "Docker error: "
                          | Process => "Process error: "
                          end +:+ message)
     /\ b_updatedAt b = now)
  /\ buildLock (kv w') = false
  /\ (forall id', id' <> id -> builds (kv w') !! id' = builds (kv w) !! id')
  /\ (forall now', fireTimeout i now' w' = w').
Proof.
  intros Hj. cbv zeta.
  assert (Hlen : (i < List.length (jobs w))%nat) by (eapply lookup_lt_Some; eauto).
  assert (Hw' : fireError i message now w
                = {| kv := {| builds := <[b_id (job_build j) := errored j message now]>
                                          (builds (kv w));
                              apiKeys := apiKeys (kv w);
                              buildLock := false |};
                     jobs := <[i := {| job_builder := job_builder j;
                                       job_build := errored j message now;
                                       job_timer := false |}]> (jobs w) |}).
  { unfold fireError, timerDone, onError, errored. rewrite Hj.
    destruct (job_builder j); reflexivity. }
  rewrite Hw'. clear Hw'. simpl.
  split; [|split; [|split]].
  - eexists. split; [apply lookup_insert_eq|].
    unfold errored. destruct (job_builder j); simpl; auto.
  - reflexivity.
  - intros id' Hne. rewrite lookup_insert_ne; [reflexivity|]. intros E. now apply Hne.
  - intros now'. unfold fireTimeout. simpl.
    rewrite list_lookup_insert_eq by exact Hlen. reflexivity.
Qed.

Lemma child_error_fails_build_witness :
  (exists b,
     builds (kv (fireError 0 "spawn docker ENOENT" "2025-01-01T00:00:01.000Z"
                   (inFlight Docker)))
       !! "bld_AAAAAAAAAAAA" = Some b
     /\ b_status b = StFailed
     /\ b_error b = Some "Docker error: spawn docker ENOENT")
  /\ buildLock (kv (fireError 0 "spawn docker ENOENT" "2025-01-01T00:00:01.000Z"
                      (inFlight Docker))) = false.
Proof.
  assert (Hjob : exists j, jobs (inFlight Docker) !! 0%nat = Some j
                           /\ job_builder j = Docker
                           /\ b_id (job_build j) = "bld_AAAAAAAAAAAA").
  { eexists. split; [reflexivity|]. split; reflexivity. }
  destruct Hjob as (j & Hj & Hkind & Hid).
  destruct (child_error_fails_build (inFlight Docker) 0 j "spawn docker ENOENT"
              "2025-01-01T00:00:01.000Z" Hj) as ((b & Hb & Hs & He & _) & Hlock & _).
  rewrite Hid in Hb. rewrite Hkind in He.
  split; [|exact Hlock]. exists b. auto.
Defined.

(** ** The manifest route *)

Lemma protocolRefused_accepted (req : ManifestRequest) :
  protocolRefused req = false <-> protocolAccepted req.
Proof.
  unfold protocolRefused, protocolAccepted. split.
  - intros H. destruct (hdr_protocolVersion req) as [v|]; [|left; reflexivity].
    simpl in *. destruct (String.eqb_spec v "") as [Hv0|Hne];
      [left; subst v; reflexivity|].
    simpl in H. destruct (String.eqb_spec v EXPO_PROTOCOL_VERSION) as [Hv|Hv];
      [right; now rewrite Hv | discriminate].
  - intros [H | ->]; [now rewrite H | reflexivity].
Qed.

Section ManifestRouteMore.

Variable sha256 : string -> list Z.
Variable JSON_stringify : JsObject -> string.

(** The route, case by case. *)
Lemma manifest_get_refused (req : ManifestRequest) (w : World) :
  protocolRefused req = true ->
  manifest_get sha256 JSON_stringify req w
  = (Ret (json (ErrorBody ("Unsupported protocol version: "
                             +:+ nullish (hdr_protocolVersion req) "")) 400), w).
Proof.
  unfold manifest_get, protocolRefused. intros ->. reflexivity.
Qed.

Lemma manifest_get_unknown (req : ManifestRequest) (w : World) :
  protocolRefused req = false ->
  builds (kv w) !! param_id req = None ->
  inheritedKey (param_id req) = false ->
  manifest_get sha256 JSON_stringify req w
  = (Ret (json (ErrorBody "Build not found") 404), w).
Proof.
  unfold manifest_get, protocolRefused, bind. intros -> Hb Hk.
  rewrite (getBuild_missing _ _ Hb), Hk. reflexivity.
Qed.

Lemma manifest_get_not_ready (req : ManifestRequest) (w : World) (build : Build) :
  protocolRefused req = false ->
  builds (kv w) !! param_id req = Some build ->
  statusIs (b_status build) "success" = false ->
  manifest_get sha256 JSON_stringify req w
  = (Ret (json (NotReadyBody "Build not ready" (b_status build)) 404), w).
Proof.
  unfold manifest_get, protocolRefused, bind. intros -> Hb Hs.
  rewrite (getBuild_stored _ _ _ Hb). cbn [lookedStatus]. rewrite Hs. reflexivity.
Qed.

Lemma manifest_get_inherited (req : ManifestRequest) (w : World) :
  protocolRefused req = false ->
  builds (kv w) !! param_id req = None ->
  inheritedKey (param_id req) = true ->
  manifest_get sha256 JSON_stringify req w
  = (if statusIs (lookedStatus (inherited_status req) (Inherited (param_id req)))
          "success"
     then (Throw TypeError_hash_update_undefined, w)
     else (Ret (json (NotReadyBody "Build not ready"
                        (lookedStatus (inherited_status req)
                           (Inherited (param_id req)))) 404), w)).
Proof.
  unfold manifest_get, protocolRefused, bind. intros -> Hb Hk.
  rewrite (getBuild_missing _ _ Hb), Hk.
  destruct (statusIs _ "success"); reflexivity.
Qed.

(** The two answers for a stored [success] build. *)
Lemma manifest_get_success (req : ManifestRequest) (w : World) (build : Build) :
  protocolRefused req = false ->
  builds (kv w) !! param_id req = Some build ->
  statusIs (b_status build) "success" = true ->
  exists served,
    m_id served = generateUUID sha256 (b_id build)
    /\ (manifest_get sha256 JSON_stringify req w
        = (Ret {| r_status := 200;
                  r_headers := expoHeaders (generateUUID sha256 (b_id build));
                  r_body := ManifestBody served |}, w)
        \/ exists boundary,
             manifest_get sha256 JSON_stringify req w
             = (Ret {| r_status := 200;
                       r_headers := expoHeaders (generateUUID sha256 (b_id build))
                                    ++ [("Content-Type",
                                         "multipart/mixed; boundary=" +:+ boundary)];
                       r_body := TextBody
                         (createMultipartResponse JSON_stringify
                            (ObjManifest served) boundary) |}, w)).
Proof.
  unfold manifest_get, protocolRefused, bind. intros -> Hb Hs.
  rewrite (getBuild_stored _ _ _ Hb). cbn [lookedStatus]. rewrite Hs. cbn [negb].
  destruct (includes "multipart/mixed" (nullish (hdr_accept req) "")).
  - eexists. split; [|right; eexists; reflexivity]. reflexivity.
  - eexists. split; [|left; reflexivity]. reflexivity.
Qed.

(** X11. The manifest route never changes the state, and these are its
    refusals. It answers 400 when the request names another protocol
    version; 404 "Build not found" when the id names neither a record nor a
    member of [Object.prototype]; 404 "Build not ready" with the current
    status when the record is not [success]. For an id without a record that
    names a member of [Object.prototype] the lookup gives that member: the
    answer is "Build not ready" as long as the member has no status
    [success], and once it has one the handler throws, which the client
    sees as the 500 of [app.onError]. *)
Theorem manifest_get_status (req : ManifestRequest) (w : World) :
  exec (manifest_get sha256 JSON_stringify req) w = w
  /\ (protocolRefused req = true ->
      exists message,
        result (manifest_get sha256 JSON_stringify req) w
        = Ret (json (ErrorBody message) 400))
  /\ (protocolRefused req = false ->
      (builds (kv w) !! param_id req = None ->
       inheritedKey (param_id req) = false ->
       result (manifest_get sha256 JSON_stringify req) w
       = Ret (json (ErrorBody "Build not found") 404))
      /\ (forall build,
            builds (kv w) !! param_id req = Some build ->
            statusIs (b_status build) "success" = false ->
            result (manifest_get sha256 JSON_stringify req) w
            = Ret (json (NotReadyBody "Build not ready" (b_status build)) 404))
      /\ (builds (kv w) !! param_id req = None ->
          inheritedKey (param_id req) = true ->
          let status :=
            lookedStatus (inherited_status req) (Inherited (param_id req)) in
          if statusIs status "success"
          then (exists e, result (manifest_get sha256 JSON_stringify req) w = Throw e)
               /\ result (app_onError (manifest_get sha256 JSON_stringify req)) w
                  = Ret (json (ErrorBody "Internal server error") 500)
          else result (manifest_get sha256 JSON_stringify req) w
               = Ret (json (NotReadyBody "Build not ready" status) 404))).
Proof.
  split; [|split].
  - unfold exec. destruct (protocolRefused req) eqn:Hp.
    + now rewrite manifest_get_refused.
    + destruct (builds (kv w) !! param_id req) as [build|] eqn:Hb.
      * destruct (statusIs (b_status build) "success") eqn:Hs.
        -- destruct (manifest_get_success req w build Hp Hb Hs)
             as (served & _ & [-> | [boundary ->]]); reflexivity.
        -- now rewrite (manifest_get_not_ready req w build).
      * destruct (inheritedKey (param_id req)) eqn:Hk.
        -- rewrite (manifest_get_inherited req w Hp Hb Hk).
           destruct (statusIs _ "success"); reflexivity.
        -- now rewrite manifest_get_unknown.
  - intros Hp. unfold result. rewrite (manifest_get_refused req w Hp).
    eexists. reflexivity.
  - intros Hp. split; [|split].
    + intros Hb Hk. unfold result. now rewrite manifest_get_unknown.
    + intros build Hb Hs. unfold result.
      now rewrite (manifest_get_not_ready req w build).
    + intros Hb Hk. cbv zeta. unfold result, app_onError, try_catch.
      rewrite (manifest_get_inherited req w Hp Hb Hk).
      destruct (statusIs _ "success");
        [split; [eexists; reflexivity | reflexivity] | reflexivity].
Qed.

(** The JSON-mode answer for a build that stores a manifest. *)
Lemma manifest_get_json_stored
    (req : ManifestRequest) (w : World) (build : Build) (stored : ExpoManifest) :
  builds (kv w) !! param_id req = Some build ->
  b_status build = StSuccess ->
  b_manifest build = Some stored ->
  protocolRefused req = false ->
  jsonMode req ->
  manifest_get sha256 JSON_stringify req w
    = (Ret {| r_status := 200;
              r_headers := expoHeaders (generateUUID sha256 (b_id build));
              r_body := ManifestBody
                (with_id (generateUUID sha256 (b_id build))
                   (updateManifestUrls sha256 stored (requestBaseUrl req)
                      (b_id build))) |}, w).
Proof.
  intros Hb Hs Hm Hproto Hjson.
  unfold manifest_get, bind. unfold protocolRefused in Hproto.
  rewrite Hproto, (getBuild_stored _ _ _ Hb). cbn [lookedStatus]. rewrite Hs.
  unfold jsonMode in Hjson. rewrite Hjson.
  unfold generateManifest. rewrite Hm. reflexivity.
Qed.




End ManifestRouteMore.

Lemma reachable_afterSuccess : reachable afterSuccess.
Proof.
  eapply reachable_step;
    [apply (reachable_inFlight Process) | apply step_webhook; discriminate].
Qed.

Lemma afterSuccess_record :
  exists build,
    builds (kv afterSuccess) !! param_id jsonRequest = Some build
    /\ b_id build = "bld_AAAAAAAAAAAA"
    /\ b_status build = StSuccess
    /\ b_manifest build = Some demoManifest.
Proof. eexists. split; [vm_compute; reflexivity|]. repeat split. Qed.




(** ** Resolved manifests *)

Lemma prefix_app (sub a b : string) :
  String.prefix sub a = true -> String.prefix sub (a +:+ b) = true.
Proof.
  revert sub. induction a as [|c a IH]; intros sub H.
  - destruct sub; [destruct b; reflexivity | discriminate].
  - destruct sub as [|c' sub]; [reflexivity|].
    change (String c a +:+ b) with (String c (a +:+ b)). simpl in *.
    destruct (ascii_dec c' c); [now apply IH | discriminate].
Qed.

Lemma includes_cons (sub : string) (c : ascii) (s : string) :
  includes sub (String c s)
  = if String.prefix sub (String c s) then true else includes sub s.
Proof. reflexivity. Qed.

Lemma includes_app_l (sub a b : string) :
  includes sub a = true -> includes sub (a +:+ b) = true.
Proof.
  induction a as [|c a IH]; intros H.
  - destruct sub; [destruct b; reflexivity | discriminate H].
  - change (String c a +:+ b) with (String c (a +:+ b)).
    rewrite includes_cons in H |- *.
    destruct (String.prefix sub (String c a)) eqn:Hp.
    + pose proof (prefix_app _ _ b Hp) as Hp'.
      change (String c a +:+ b) with (String c (a +:+ b)) in Hp'. now rewrite Hp'.
    + destruct (String.prefix sub (String c (a +:+ b))); [reflexivity|]. now apply IH.
Qed.

Lemma includes_app_r (sub a b : string) :
  includes sub b = true -> includes sub (a +:+ b) = true.
Proof.
  intros H. induction a as [|c a IH]; [exact H|].
  change (String c a +:+ b) with (String c (a +:+ b)). rewrite includes_cons.
  destruct (String.prefix sub (String c (a +:+ b))); [reflexivity | exact IH].
Qed.

(** A UUID made by [generateUUID] holds a dash, whatever the digest is. *)
Lemma generateUUID_has_dash (sha256 : string -> list Z) (input : string) :
  includes "-" (generateUUID sha256 input) = true.
Proof.
  unfold generateUUID. cbv zeta. apply includes_app_r.
  match goal with |- includes _ (_ +:+ ?rest) = true => destruct rest end; reflexivity.
Qed.

Lemma resolveUrl_resolved (baseUrl buildId baseUrl' buildId' url : string) :
  includes "://" baseUrl = true ->
  resolveUrl baseUrl' buildId' (resolveUrl baseUrl buildId url)
    = resolveUrl baseUrl buildId url.
Proof.
  intros Hbase. unfold resolveUrl at 1.
  assert (H : includes "://" (resolveUrl baseUrl buildId url) = true).
  { unfold resolveUrl. destruct (includes "://" url) eqn:Hu; [exact Hu|].
    now apply includes_app_l, includes_app_l. }
  now rewrite H.
Qed.

(** X15. Resolving is stable: once the URLs of a manifest were resolved
    against a base URL that holds a scheme, resolving the result again, for
    any base URL and build id, changes nothing (neither the URLs, nor the id,
    nor the scopeKey). *)
Theorem updateManifestUrls_stable (sha256 : string -> list Z)
    (manifest : ExpoManifest) (baseUrl buildId baseUrl' buildId' : string) :
  includes "://" baseUrl = true ->
  updateManifestUrls sha256 (updateManifestUrls sha256 manifest baseUrl buildId)
    baseUrl' buildId'
  = updateManifestUrls sha256 manifest baseUrl buildId.
Proof.
  intros Hbase.
  destruct (updateManifestUrls_scopeKey sha256 manifest baseUrl buildId)
    as (k & Hk & Hne).
  assert (Hid : includes "-" (m_id (updateManifestUrls sha256 manifest baseUrl buildId))
                = true).
  { unfold updateManifestUrls. simpl.
    destruct (includes "-" (m_id manifest)) eqn:Hd;
      [exact Hd | apply generateUUID_has_dash]. }
  assert (Htruthy : truthy (Some k) = true).
  { simpl. destruct (String.eqb_spec k "") as [E|_]; [contradiction | reflexivity]. }
  unfold updateManifestUrls at 1. rewrite Hid, Hk, Htruthy.
  unfold updateManifestUrls in Hk |- *. simpl in Hk |- *. injection Hk as Hk.
  f_equal.
  - unfold with_url. simpl. f_equal.
    exact (resolveUrl_resolved baseUrl buildId baseUrl' buildId' _ Hbase).
  - rewrite map_map. apply map_ext. intros a. unfold with_url. simpl. f_equal.
    exact (resolveUrl_resolved baseUrl buildId baseUrl' buildId' _ Hbase).
  - now rewrite <- Hk.
Qed.

Lemma updateManifestUrls_stable_witness :
  updateManifestUrls SHA256.digest
    (updateManifestUrls SHA256.digest demoManifest "https://kitty.ngrok.app"
       "bld_AAAAAAAAAAAA")
    "http://localhost:3000" "bld_BBBBBBBBBBBB"
  = updateManifestUrls SHA256.digest demoManifest "https://kitty.ngrok.app"
      "bld_AAAAAAAAAAAA".
Proof.
  apply (updateManifestUrls_stable SHA256.digest). reflexivity.
Defined.

(** ** The status route *)

Section StatusRoute.

Variable URL_host : string -> string.
Variable URL_pathname : string -> string.
Variable sha256 : string -> list Z.
Variable JSON_stringify : JsObject -> string.

(** X16. The status route never changes the state. For an id that names
    neither a record nor a member of [Object.prototype] it answers 404. For
    a stored build it returns the record as it is, with a manifest URL
    <base>/v1/manifest/<id> and an Expo Go link exactly when the status is
    [success]; when no manifest URL is offered, the manifest route, asked
    for the same id with an accepted protocol version, answers "Build not
    ready". For an id without a record that names a member of
    [Object.prototype] the answer is a 200 whose body holds no record. *)
Theorem builds_get_links (buildId url_protocol url_host : string)
    (inherited : BuildStatus) (req : ManifestRequest) (w : World) :
  param_id req = buildId ->
  protocolRefused req = false ->
  exec (builds_get URL_host URL_pathname buildId url_protocol url_host inherited) w = w
  /\ (builds (kv w) !! buildId = None ->
      inheritedKey buildId = false ->
      result (builds_get URL_host URL_pathname buildId url_protocol url_host inherited) w
      = Ret (inl (json (ErrorBody "Build not found") 404)))
  /\ (forall build, builds (kv w) !! buildId = Some build ->
        exists resp,
          result (builds_get URL_host URL_pathname buildId url_protocol url_host
                    inherited) w
            = Ret (inr resp)
          /\ bsr_build resp = ViewRecord build
          /\ (statusIs (b_status build) "success" = true ->
              bsr_manifestUrl resp
              = Some (url_protocol +:+ "//" +:+ url_host +:+ "/v1/manifest/"
                        +:+ b_id build))
          /\ (statusIs (b_status build) "success" = false ->
              bsr_manifestUrl resp = None)
          /\ (is_Some (bsr_expoGoUrl resp) <-> is_Some (bsr_manifestUrl resp))
          /\ (bsr_manifestUrl resp = None ->
              manifest_get sha256 JSON_stringify req w
              = (Ret (json (NotReadyBody "Build not ready" (b_status build)) 404),
                 w)))
  /\ (builds (kv w) !! buildId = None ->
      inheritedKey buildId = true ->
      exists resp,
        result (builds_get URL_host URL_pathname buildId url_protocol url_host
                  inherited) w
          = Ret (inr resp)
        /\ forall build, bsr_build resp <> ViewRecord build).
Proof.
  intros Hid Hproto. subst buildId. unfold builds_get, result, exec, bind.
  split; [|split; [|split]].
  - destruct (builds (kv w) !! param_id req) as [build|] eqn:Hb.
    + rewrite (getBuild_stored _ _ _ Hb). destruct (statusIs _ "success"); reflexivity.
    + rewrite (getBuild_missing _ _ Hb).
      destruct (inheritedKey (param_id req)); [|reflexivity].
      destruct (statusIs _ "success"); reflexivity.
  - intros Hnone Hk. rewrite (getBuild_missing _ _ Hnone), Hk. reflexivity.
  - intros build Hb. rewrite (getBuild_stored _ _ _ Hb). cbn [lookedStatus].
    destruct (statusIs (b_status build) "success") eqn:Hs; simpl;
      (eexists; split; [reflexivity|]; split; [reflexivity|]; simpl).
    + split; [intros _; rewrite !append_assoc; reflexivity|].
      split; [discriminate|].
      split; [split; intros _; eauto|].
      discriminate.
    + split; [discriminate|]. split; [reflexivity|].
      split; [split; intros [x Hx]; discriminate Hx|].
      intros _.
      exact (manifest_get_not_ready sha256 JSON_stringify req w build Hproto Hb Hs).
  - intros Hnone Hk. rewrite (getBuild_missing _ _ Hnone), Hk.
    destruct (statusIs _ "success"); (eexists; split; [reflexivity|]);
      intros build; simpl; destruct (String.eqb (param_id req) "__proto__");
      discriminate.
Qed.

End StatusRoute.

Lemma builds_get_links_witness :
  exists resp,
    result (builds_get hostOfUrl pathnameOfUrl "bld_AAAAAAAAAAAA" "http:"
              "localhost:3000" (StOther None))
      afterSuccess = Ret (inr resp)
    /\ bsr_manifestUrl resp
       = Some "http://localhost:3000/v1/manifest/bld_AAAAAAAAAAAA".
Proof.
  destruct afterSuccess_record as (build & Hb & Hid & Hs & Hm).
  destruct (builds_get_links hostOfUrl pathnameOfUrl SHA256.digest exampleStringify
              "bld_AAAAAAAAAAAA" "http:" "localhost:3000" (StOther None) jsonRequest
              afterSuccess eq_refl eq_refl) as (_ & _ & H & _).
  destruct (H build Hb) as (resp & Hr & _ & Hurl & _).
  exists resp. split; [exact Hr|]. rewrite Hurl by now rewrite Hs.
  rewrite Hid. reflexivity.
Defined.

(** ** The list of builds *)

Lemma insertSorted_perm {A} (cmp : A -> A -> Z) (x : A) (l : list A) :
  insertSorted cmp x l ≡ₚ x :: l.
Proof.
  induction l as [|y l IH]; simpl; [reflexivity|].
  destruct (cmp x y <=? 0)%Z; [reflexivity|].
  rewrite IH. apply perm_swap.
Qed.

Lemma sortStable_perm {A} (cmp : A -> A -> Z) (l : list A) :
  sortStable cmp l ≡ₚ l.
Proof.
  unfold sortStable. induction l as [|x l IH]; simpl; [reflexivity|].
  rewrite insertSorted_perm. now rewrite IH.
Qed.

Lemma insertSorted_sorted (getTime : string -> Z) (x : Build) (l : list Build) :
  StronglySorted (notOlder getTime) l ->
  StronglySorted (notOlder getTime) (insertSorted (newestFirst getTime) x l).
Proof.
  induction l as [|y l IH]; simpl; intros Hl.
  - constructor; [constructor|constructor].
  - apply StronglySorted_inv in Hl as [Hl Hy].
    unfold newestFirst at 1.
    destruct (Z.leb_spec (getTime (b_createdAt y) - getTime (b_createdAt x)) 0) as [Hle|Hgt].
    + constructor; [constructor; assumption|].
      constructor; [unfold notOlder; lia|].
      eapply Forall_impl; [exact Hy|]. unfold notOlder. intros z Hz. lia.
    + constructor; [apply IH; exact Hl|].
      rewrite insertSorted_perm. constructor; [unfold notOlder; lia | exact Hy].
Qed.

Lemma sortStable_sorted (getTime : string -> Z) (l : list Build) :
  StronglySorted (notOlder getTime) (sortStable (newestFirst getTime) l).
Proof.
  unfold sortStable. induction l as [|x l IH]; simpl; [constructor|].
  apply insertSorted_sorted. exact IH.
Qed.

Lemma sortStable_of_sorted (getTime : string -> Z) (l : list Build) :
  StronglySorted (notOlder getTime) l ->
  sortStable (newestFirst getTime) l = l.
Proof.
  unfold sortStable. induction l as [|x l IH]; simpl; intros Hl; [reflexivity|].
  apply StronglySorted_inv in Hl as [Hl Hx]. rewrite (IH Hl).
  destruct l as [|y l']; [reflexivity|]. simpl.
  apply Forall_cons in Hx as [Hxy _]. unfold newestFirst, notOlder in *.
  destruct (Z.leb_spec (getTime (b_createdAt y) - getTime (b_createdAt x)) 0); [reflexivity|lia].
Qed.

(** X17. Listing never changes the state. When [Object.values] yields the
    stored records, in whatever order, the list holds exactly the stored
    records that pass the project filter, ordered from the newest to the
    oldest creation time. An absent or empty slug filters nothing: the list
    is then a rearrangement of the stored records, and records that already
    come newest first are returned in the order they came, ties included. *)
Theorem listBuilds_newest_first
    (objectValues : gmap string Build -> list Build) (getTime : string -> Z)
    (projectSlug : option string) (w : World) :
  objectValues (builds (kv w)) ≡ₚ valuesInMapOrder (builds (kv w)) ->
  exists l,
    listBuilds objectValues getTime projectSlug w = (Ret l, w)
    /\ StronglySorted (notOlder getTime) l
    /\ (forall b, In b l <->
          (exists id, builds (kv w) !! id = Some b) /\ slugMatches projectSlug b)
    /\ (truthy projectSlug = false -> l ≡ₚ valuesInMapOrder (builds (kv w)))
    /\ (truthy projectSlug = false ->
        StronglySorted (notOlder getTime) (objectValues (builds (kv w))) ->
        l = objectValues (builds (kv w))).
Proof.
  intros Hvals. unfold listBuilds. eexists. split; [reflexivity|].
  assert (Hstored : forall b, In b (objectValues (builds (kv w))) <->
                      exists id, builds (kv w) !! id = Some b).
  { intros b. rewrite <- list_elem_of_In, Hvals. unfold valuesInMapOrder.
    change (map snd (map_to_list (builds (kv w)))) with (snd <$> map_to_list (builds (kv w))).
    rewrite list_elem_of_fmap. split.
    - intros ([id b'] & -> & Hin). exists id. now apply elem_of_map_to_list.
    - intros [id Hid]. exists (id, b). split; [reflexivity|]. now apply elem_of_map_to_list. }
  split; [apply sortStable_sorted|]. split; [|split].
  - intros b. rewrite <- list_elem_of_In, sortStable_perm, list_elem_of_In.
    unfold slugMatches. destruct (truthy projectSlug) eqn:Htruthy.
    + rewrite filter_In, Hstored.
      destruct projectSlug as [slug|]; [|discriminate Htruthy]. simpl.
      split.
      * intros [Hin Heq]. split; [exact Hin|]. intros _.
        apply String.eqb_eq in Heq. now rewrite Heq.
      * intros [Hin Heq]. split; [exact Hin|].
        specialize (Heq eq_refl). injection Heq as ->. apply String.eqb_refl.
    + rewrite Hstored. split; [intros Hin; split; [exact Hin | discriminate]|].
      now intros [Hin _].
  - intros ->. now rewrite sortStable_perm.
  - intros -> Hsorted. now apply sortStable_of_sorted.
Qed.

Lemma listBuilds_newest_first_witness :
  exists l,
    listBuilds valuesInMapOrder digitsOf (Some "") afterSuccess = (Ret l, afterSuccess)
    /\ (forall b, In b l <->
          (exists id, builds (kv afterSuccess) !! id = Some b)
          /\ slugMatches (Some "") b).
Proof.
  destruct (listBuilds_newest_first valuesInMapOrder digitsOf (Some "") afterSuccess)
    as (l & Heq & _ & Hin & _); [reflexivity|].
  exists l. split; [exact Heq | exact Hin].
Defined.

(** ** The bundle route *)

Lemma length_append (s t : string) :
  String.length (s +:+ t) = (String.length s + String.length t)%nat.
Proof.
  induction s as [|c s IH]; [reflexivity|].
  change (String c s +:+ t) with (String c (s +:+ t)). cbn [String.length].
  now rewrite IH.
Qed.

Lemma append_nonempty_r (s : string) (c : ascii) (t : string) : s +:+ String c t <> "".
Proof.
  destruct s as [|d s]; [discriminate|].
  change (String d (s +:+ String c t) <> ""). discriminate.
Qed.

Lemma eqb_length (s t : string) :
  String.length s <> String.length t -> String.eqb s t = false.
Proof.
  intros Hne. destruct (String.eqb_spec s t) as [->|_]; [contradiction|reflexivity].
Qed.

Lemma stripSuffix_app (suffix p : string) :
  stripSuffix suffix (p +:+ suffix) = Some p.
Proof.
  induction p as [|c p IH].
  - change ("" +:+ suffix) with suffix. destruct suffix; simpl.
    + reflexivity.
    + rewrite Ascii.eqb_refl, String.eqb_refl. reflexivity.
  - change (String c p +:+ suffix) with (String c (p +:+ suffix)).
    cbn [stripSuffix]. rewrite eqb_length.
    + rewrite IH. reflexivity.
    + cbn [String.length]. rewrite length_append. lia.
Qed.

Lemma stripSuffix_js_hbc (p : string) : stripSuffix ".js" (p +:+ ".hbc") = None.
Proof.
  induction p as [|c p IH]; [reflexivity|].
  change (String c p +:+ ".hbc") with (String c (p +:+ ".hbc")).
  cbn [stripSuffix]. rewrite eqb_length.
  - rewrite IH. reflexivity.
  - cbn [String.length]. rewrite length_append. simpl. lia.
Qed.

Lemma stripBundleExtension_js (p : string) : stripBundleExtension (p +:+ ".js") = p.
Proof. unfold stripBundleExtension. now rewrite stripSuffix_app. Qed.

Lemma stripBundleExtension_hbc (p : string) : stripBundleExtension (p +:+ ".hbc") = p.
Proof.
  unfold stripBundleExtension. now rewrite stripSuffix_js_hbc, stripSuffix_app.
Qed.

Lemma assets_getBundle_platform
    (path_join : list string -> string) (basePath : string)
    (readFile : string -> option string)
    (buildId filename : string) (w : World) (build : Build) :
  filename <> "" ->
  builds (kv w) !! buildId = Some build ->
  assets_getBundle path_join basePath readFile buildId filename w
  = (Ret (bundleAnswer
            (readFile (path_join [path_join [basePath; "bundles"; buildId];
                                  stripBundleExtension filename +:+ ".js"]))
            (readFile (path_join [path_join [basePath; "bundles"; buildId];
                                  stripBundleExtension filename +:+ ".hbc"]))), w).
Proof.
  intros Hne Hb. unfold assets_getBundle, bind, getBuild.
  destruct (String.eqb_spec filename "") as [E|_]; [contradiction|].
  rewrite Hb. unfold getBundle.
  rewrite !(includes_app_r "." (stripBundleExtension filename)) by reflexivity.
  unfold bundleAnswer.
  destruct (readFile _); [reflexivity|]. destruct (readFile _); reflexivity.
Qed.

(** X18. The bundle route looks at the platform only: for a stored build,
    asking for <p>.js and asking for <p>.hbc give the same answer and leave
    the state alone. The answer is the file <p>.js of the bundles directory
    of the build when it can be read, else the file <p>.hbc, else 404
    "Bundle not found"; a served file is always labelled
    application/javascript. *)
Theorem bundle_route_ignores_extension
    (path_join : list string -> string) (basePath : string)
    (readFile : string -> option string)
    (buildId p : string) (w : World) (build : Build) :
  builds (kv w) !! buildId = Some build ->
  let dir := path_join [basePath; "bundles"; buildId] in
  let answer := bundleAnswer (readFile (path_join [dir; p +:+ ".js"]))
                             (readFile (path_join [dir; p +:+ ".hbc"])) in
  assets_getBundle path_join basePath readFile buildId (p +:+ ".js") w = (Ret answer, w)
  /\ assets_getBundle path_join basePath readFile buildId (p +:+ ".hbc") w
     = (Ret answer, w).
Proof.
  intros Hb dir answer. subst dir answer. split.
  - rewrite (assets_getBundle_platform _ _ _ _ _ _ build); [|apply append_nonempty_r|exact Hb].
    now rewrite stripBundleExtension_js.
  - rewrite (assets_getBundle_platform _ _ _ _ _ _ build); [|apply append_nonempty_r|exact Hb].
    now rewrite stripBundleExtension_hbc.
Qed.

Lemma bundle_route_ignores_extension_witness :
  assets_getBundle (join "/") "data" hermesOnly "bld_AAAAAAAAAAAA" "ios.js" afterSuccess
  = (Ret (AssetFile "HBC0" "application/javascript"
            "public, max-age=31536000, immutable"), afterSuccess).
Proof.
  destruct afterSuccess_record as (build & Hb & _).
  exact (proj1 (bundle_route_ignores_extension (join "/") "data" hermesOnly
                  "bld_AAAAAAAAAAAA" "ios" afterSuccess build Hb)).
Defined.

(** ** The builder: what it reports and what becomes of it *)

Lemma filter_sublist {A} (f : A -> bool) (l : list A) : sublist (List.filter f l) l.
Proof.
  induction l as [|x l IH]; simpl; [constructor|].
  destruct (f x); [apply sublist_skip | apply sublist_cons]; exact IH.
Qed.

Lemma bundlePaths_mem (i d : option string) (x : string) :
  existsb (String.eqb x) (omap (fun p => if truthy p then p else None) [i; d]) = false
  <-> (truthy i = true -> i <> Some x) /\ (truthy d = true -> d <> Some x).
Proof.
  destruct i as [i|], d as [d|]; simpl;
    repeat match goal with
           | |- context [negb (String.eqb ?y "")] =>
               destruct (String.eqb_spec y ""); simpl
           | |- context [String.eqb x ?y] =>
               destruct (String.eqb_spec x y); simpl
           end.
  all: split; [intros H; split; intros Ht; try discriminate; try congruence|].
  all: try (intros [H1 H2]; try reflexivity).
  all: try (exfalso; apply H1; congruence).
  all: try (exfalso; apply H2; congruence).
Qed.

Section BuilderReport.

Import BuilderBuild BuilderRun.
Variable extname : string -> string.

(** X19. The first webhook payload of a build always names the build; its
    status is [success] or [failed]; it is [success] exactly when it carries
    a manifest, which is exactly when it carries the assets, and [failed]
    exactly when it carries an error message. A carried manifest has the
    build id as its id, the runtime version and the clock reading of the
    builder. *)
Theorem firstPayload_shape (BUILD_ID RUNTIME_VERSION PLATFORM : string)
    (steps : Thrown + BuildOutput) (now : string) :
  let payload := firstPayload extname BUILD_ID RUNTIME_VERSION PLATFORM steps now in
  wp_buildId payload = BUILD_ID
  /\ (wp_status payload = StSuccess \/ wp_status payload = StFailed)
  /\ (wp_status payload = StSuccess <-> is_Some (wp_manifest payload))
  /\ (is_Some (wp_assets payload) <-> is_Some (wp_manifest payload))
  /\ (wp_status payload = StFailed <-> is_Some (wp_error payload))
  /\ (forall manifest, wp_manifest payload = Some manifest ->
        m_id manifest = BUILD_ID
        /\ m_runtimeVersion manifest = RUNTIME_VERSION
        /\ m_createdAt manifest = now).
Proof.
  cbv zeta. unfold firstPayload. split; [|split; [|split; [|split; [|split]]]].
  all: destruct steps as [[message|]|out]; simpl.
  all: try destruct (generateManifest _ _ _ _ _ _ _ _) as [e|manifest] eqn:Hgen; simpl.
  all: try reflexivity.
  all: try (left; reflexivity).
  all: try (right; reflexivity).
  all: try (split; [discriminate|intros [x Hx]; discriminate Hx]).
  all: try (split; [intros [x Hx]; discriminate Hx|intros [x Hx]; discriminate Hx]).
  all: try (split; intros _; eauto).
  all: try (intros m Hm; discriminate Hm).
  intros m [= <-]. unfold generateManifest in Hgen.
  destruct (negb _); [discriminate|]. destruct (find _ _); [|discriminate].
  injection Hgen as <-. auto.
Qed.

(** What the webhook makes of a record for the first payload of the
    builder. *)
Lemma firstPayload_recorded (BUILD_ID RUNTIME_VERSION PLATFORM : string)
    (steps : Thrown + BuildOutput) (now t1 t2 : string) (b0 : Build) :
  let payload := firstPayload extname BUILD_ID RUNTIME_VERSION PLATFORM steps now in
  let b := webhookUpdated payload t1 t2 b0 in
  b_completedAt b = Some t2
  /\ ((b_status b = StSuccess
       /\ is_Some (b_manifest b) /\ b_manifest b = wp_manifest payload
       /\ is_Some (b_assets b) /\ b_assets b = wp_assets payload
       /\ b_error b = b_error b0)
      \/ (b_status b = StFailed
          /\ is_Some (b_error b) /\ b_error b = wp_error payload
          /\ b_manifest b = b_manifest b0 /\ b_assets b = b_assets b0)).
Proof.
  cbv zeta. unfold firstPayload, webhookUpdated.
  destruct steps as [[message|]|out]; simpl.
  1, 2: split; [reflexivity|]; right; repeat split; eauto.
  destruct (generateManifest _ _ _ _ _ _ _ _) as [e|manifest]; simpl.
  - split; [reflexivity|]. right. repeat split; eauto.
  - split; [reflexivity|]. left. repeat split; eauto.
Qed.

(** X20. From the builder to the record: when the first payload of the
    builder reaches the webhook in a reachable state that stores the record
    of its build, the request is answered 200 and the record is stamped with
    the completion time. It becomes either [success] with the manifest and
    the assets of the payload, its error left as it was, or [failed] with
    the error of the payload, its manifest and assets left as they were (so
    a [failed] report that follows a [success] report keeps the manifest). *)
Theorem builder_report_recorded (BUILD_ID RUNTIME_VERSION PLATFORM : string)
    (steps : Thrown + BuildOutput) (now t1 t2 : string) (w : World) (b0 : Build) :
  reachable w ->
  builds (kv w) !! BUILD_ID = Some b0 ->
  let payload := firstPayload extname BUILD_ID RUNTIME_VERSION PLATFORM steps now in
  let w' := exec (webhook payload t1 t2) w in
  result (webhook payload t1 t2) w = Ret (json SuccessBody 200)
  /\ exists b,
       builds (kv w') !! BUILD_ID = Some b
       /\ b_completedAt b = Some t2
       /\ ((b_status b = StSuccess
            /\ is_Some (b_manifest b) /\ b_manifest b = wp_manifest payload
            /\ is_Some (b_assets b) /\ b_assets b = wp_assets payload
            /\ b_error b = b_error b0)
           \/ (b_status b = StFailed
               /\ is_Some (b_error b) /\ b_error b = wp_error payload
               /\ b_manifest b = b_manifest b0 /\ b_assets b = b_assets b0)).
Proof.
  intros Hreach Hb0. cbv zeta.
  destruct (reachable_record_id _ _ _ Hreach Hb0) as [Hkey Hid].
  assert (Hpid : wp_buildId (firstPayload extname BUILD_ID RUNTIME_VERSION PLATFORM
                               steps now) = BUILD_ID).
  { unfold firstPayload. destruct steps as [[message|]|out]; try reflexivity.
    destruct (generateManifest _ _ _ _ _ _ _ _); reflexivity. }
  unfold result, exec. rewrite (webhook_found _ _ _ _ b0); rewrite ?Hpid; auto.
  split; [reflexivity|].
  exists (webhookUpdated (firstPayload extname BUILD_ID RUNTIME_VERSION PLATFORM
                            steps now) t1 t2 b0).
  split.
  - simpl. rewrite b_id_webhookUpdated, Hkey. apply lookup_insert_eq.
  - apply firstPayload_recorded.
Qed.

(** X21. The assets of a generated manifest are the entries of a sublist of
    the collected assets, in the order collected: those that are neither a
    recorded bundle nor [metadata.json]. Each keeps its key, hash, content
    type and extension and gets its relative path as URL. In particular
    neither the launch bundle nor [metadata.json] is listed among the
    assets. *)
Theorem builder_assets_exclude_bundles
    (buildId runtimeVersion : string) (expoConfig : option ExpoClientConfig)
    (assets : list AssetMetadata) (bundles : Bundles) (platform now : string)
    (manifest : ExpoManifest) :
  generateManifest extname buildId runtimeVersion expoConfig assets bundles
    platform now = inr manifest ->
  (forall e, In e (m_assets manifest) <->
     exists a, In a assets /\ e = assetEntry a
               /\ am_path a <> "metadata.json"
               /\ (truthy (bundles_ios bundles) = true ->
                   bundles_ios bundles <> Some (am_path a))
               /\ (truthy (bundles_android bundles) = true ->
                   bundles_android bundles <> Some (am_path a)))
  /\ (forall e, In e (m_assets manifest) ->
        Some (ea_url e) <> bundlePathFor bundles platform
        /\ ea_url e <> "metadata.json")
  /\ (exists kept, sublist kept assets /\ m_assets manifest = map assetEntry kept).
Proof.
  unfold generateManifest. intros Hgen.
  destruct (negb (truthy (bundlePathFor bundles platform))) eqn:Hpath; [discriminate|].
  destruct (find _ _) as [bundleAsset|]; [|discriminate]. injection Hgen as <-. simpl.
  apply negb_false_iff in Hpath.
  assert (Hfilter : forall a,
    negb (existsb (String.eqb (am_path a))
            (omap (fun p => if truthy p then p else None)
                  [bundles_ios bundles; bundles_android bundles]))
    && negb (String.eqb (am_path a) "metadata.json") = true
    <-> am_path a <> "metadata.json"
        /\ (truthy (bundles_ios bundles) = true -> bundles_ios bundles <> Some (am_path a))
        /\ (truthy (bundles_android bundles) = true ->
            bundles_android bundles <> Some (am_path a))).
  { intros a. rewrite andb_true_iff, !negb_true_iff, bundlePaths_mem.
    destruct (String.eqb_spec (am_path a) "metadata.json") as [Emeta|Emeta].
    - split; [intros [_ H]; discriminate H | intros [H _]; contradiction].
    - tauto. }
  split; [|split].
  - intros e. rewrite in_map_iff. split.
    + intros (a & <- & Hin). apply filter_In in Hin as [Hin Hkeep].
      exists a. split; [exact Hin|]. split; [reflexivity|]. now apply Hfilter.
    + intros (a & Hin & -> & Hkeep). exists a. split; [reflexivity|].
      apply filter_In. split; [exact Hin|]. now apply Hfilter.
  - intros e Hin. apply in_map_iff in Hin as (a & <- & Hin).
    apply filter_In in Hin as [_ Hkeep]. apply Hfilter in Hkeep as (Hmeta & Hios & Hand).
    split; [|exact Hmeta]. simpl. intros Heq. rewrite <- Heq in Hpath.
    unfold bundlePathFor in Heq.
    destruct (String.eqb platform "ios").
    + apply Hios; [|now symmetry]. now rewrite <- Heq.
    + destruct (bundles_android bundles) as [d|] eqn:Hd.
      * apply Hand; [|now symmetry]. now rewrite <- Heq.
      * apply Hios; [|now symmetry]. now rewrite <- Heq.
  - eexists. split; [apply filter_sublist | reflexivity].
Qed.

(** X22. With the bundles as [collectAssets] records them from
    [metadata.json], the builder generates a manifest exactly when the bundle
    chosen for the platform is among the collected assets. The choice is the
    non-empty iOS bundle for [ios]; for any other platform the non-empty
    android bundle, else the non-empty iOS bundle. Without a choice, and
    only then, the failure is the missing-bundle-path error; with a choice
    that no collected asset has as its path it is the bundle-not-found
    error. *)
Theorem builder_manifest_needs_bundle
    (buildId runtimeVersion : string) (expoConfig : option ExpoClientConfig)
    (assets : list AssetMetadata) (iosBundle androidBundle : option string)
    (platform now : string) :
  let chosen :=
    if String.eqb platform "ios" then (if truthy iosBundle then iosBundle else None)
    else if truthy androidBundle then androidBundle
         else if truthy iosBundle then iosBundle else None in
  let generated :=
    generateManifest extname buildId runtimeVersion expoConfig assets
      (bundlesOfMetadata iosBundle androidBundle) platform now in
  ((exists manifest, generated = inr manifest) <->
   (exists p a, chosen = Some p /\ In a assets /\ am_path a = p))
  /\ (generated = inl (NoBundlePath platform) <-> chosen = None)
  /\ (forall p, chosen = Some p ->
        (forall a, In a assets -> am_path a <> p) ->
        generated = inl (BundleNotFound p platform)).
Proof.
  cbv zeta. unfold generateManifest, bundlesOfMetadata, bundlePathFor. simpl.
  assert (Hfind : forall p,
    (exists a, find (fun a => String.eqb (am_path a) p) assets = Some a)
    <-> exists a, In a assets /\ am_path a = p).
  { intros p. split.
    - intros [a Ha]. pose proof (find_some _ _ Ha) as [Hin Heq].
      apply String.eqb_eq in Heq. eauto.
    - intros (a & Hin & Heq).
      destruct (find (fun a => String.eqb (am_path a) p) assets) as [a'|] eqn:Hf; [eauto|].
      pose proof (find_none _ _ Hf a Hin) as Hno. simpl in Hno.
      rewrite Heq, String.eqb_refl in Hno. discriminate. }
  assert (Hmiss : forall p, (forall a, In a assets -> am_path a <> p) ->
                    find (fun a => String.eqb (am_path a) p) assets = None).
  { intros p Hno. destruct (find _ assets) as [a|] eqn:Hf; [|reflexivity].
    pose proof (find_some _ _ Hf) as [Hin Heq]. apply String.eqb_eq in Heq.
    exfalso. exact (Hno a Hin Heq). }
  destruct (String.eqb platform "ios");
    destruct (truthy iosBundle) eqn:Hi; destruct (truthy androidBundle) eqn:Hd;
    try (destruct (truthy_Some _ Hi) as (pi & -> & Hpi));
    try (destruct (truthy_Some _ Hd) as (pd & -> & Hpd));
    simpl; rewrite ?Hi, ?Hd; simpl.
  all: repeat match goal with
       | |- context [negb (negb (String.eqb ?x ""))] =>
           destruct (String.eqb_spec x ""); [contradiction|]; simpl
       end.
  all: split; [|split].
  all: try (split; [intros [m Hm]; discriminate Hm
                   | intros (p & a & Hp & _); discriminate Hp]).
  all: try (split; reflexivity).
  all: try (intros p Hp; discriminate Hp).
  all: try (intros p [= <-] Hno; rewrite (Hmiss _ Hno); reflexivity).
  all: try (split; [|intros H; discriminate H];
            destruct (find _ assets); intros H; discriminate H).
  all: split.
  all: try (intros [m Hm]; destruct (find _ assets) as [a|] eqn:Hf; [|discriminate Hm];
            pose proof (find_some _ _ Hf) as [Hin Heq]; apply String.eqb_eq in Heq;
            eauto).
  all: intros (p & a & [= <-] & Hin & Heq);
       destruct (proj2 (Hfind _) (ex_intro _ a (conj Hin Heq))) as [a' ->]; eauto.
Qed.

End BuilderReport.

Lemma builder_report_recorded_witness :
  result (webhook (BuilderRun.firstPayload exampleExtname "bld_AAAAAAAAAAAA"
                     "exposdk:52.0.0" "all" (inr demoOutput)
                     "2025-01-01T00:04:59.000Z")
            "2025-01-01T00:05:00.000Z" "2025-01-01T00:05:00.001Z") (inFlight Process)
  = Ret (json SuccessBody 200).
Proof.
  refine (proj1 (builder_report_recorded exampleExtname "bld_AAAAAAAAAAAA"
                   "exposdk:52.0.0" "all" (inr demoOutput) "2025-01-01T00:04:59.000Z"
                   "2025-01-01T00:05:00.000Z" "2025-01-01T00:05:00.001Z"
                   (inFlight Process) _ (reachable_inFlight Process) _)).
  vm_compute. reflexivity.
Defined.

Lemma builder_assets_exclude_bundles_witness :
  exists manifest,
    BuilderBuild.generateManifest exampleExtname "bld_AAAAAAAAAAAA" "exposdk:52.0.0"
      (Some demoConfig) iosOnlyAssets iosOnlyBundles "ios"
      "2025-01-01T00:04:59.000Z" = inr manifest
    /\ map ea_url (m_assets manifest) = ["assets/icon.png"]
    /\ (exists kept, sublist kept iosOnlyAssets
                     /\ m_assets manifest = map assetEntry kept).
Proof.
  eexists. split; [vm_compute; reflexivity|]. split; [reflexivity|].
  refine (proj2 (proj2 (builder_assets_exclude_bundles exampleExtname "bld_AAAAAAAAAAAA"
                          "exposdk:52.0.0" (Some demoConfig) iosOnlyAssets
                          iosOnlyBundles "ios" "2025-01-01T00:04:59.000Z" _ _))).
  vm_compute. reflexivity.
Defined.

(** ** From the builder to the Expo client *)

Section BuilderToClient.

Import BuilderBuild BuilderRun.
Variable extname : string -> string.
Variable sha256 : string -> list Z.
Variable JSON_stringify : JsObject -> string.

(** The launch asset of a generated manifest comes from a collected asset. *)
Lemma generateManifest_launch
    (buildId runtimeVersion : string) (expoConfig : option ExpoClientConfig)
    (assets : list AssetMetadata) (bundles : Bundles) (platform now : string)
    (manifest : ExpoManifest) :
  generateManifest extname buildId runtimeVersion expoConfig assets bundles
    platform now = inr manifest ->
  exists bundleAsset,
    In bundleAsset assets
    /\ bundlePathFor bundles platform = Some (am_path bundleAsset)
    /\ ea_hash (m_launchAsset manifest) = am_hash bundleAsset
    /\ ea_url (m_launchAsset manifest)
       = "bundles/" +:+ platform +:+ extname (am_path bundleAsset).
Proof.
  unfold generateManifest. intros Hgen.
  destruct (truthy (bundlePathFor bundles platform)) eqn:Hpath; [|discriminate].
  destruct (truthy_Some _ Hpath) as (p & Hp & Hne). rewrite Hp in Hgen. simpl in Hgen.
  destruct (find _ assets) as [a|] eqn:Hfind; [|discriminate].
  pose proof (find_some _ _ Hfind) as [Hin Heq]. apply String.eqb_eq in Heq.
  injection Hgen as <-. exists a. simpl. rewrite Hp, Heq. auto.
Qed.

(** X23. The builder and the API agree on the scope key: the key the builder
    writes into a manifest is the one the API derives from a record with the
    same app config, and the API serves a builder manifest with that key and
    that config unchanged, whatever base URL and build id it resolves the
    URLs against. *)
Theorem builder_scopeKey_served
    (buildId runtimeVersion : string) (cfg : ExpoClientConfig)
    (assets : list AssetMetadata) (bundles : Bundles) (platform now : string)
    (manifest : ExpoManifest) (build : Build) (baseUrl servedId : string) :
  generateManifest extname buildId runtimeVersion (Some cfg) assets bundles
    platform now = inr manifest ->
  b_expoConfig build = Some cfg ->
  m_extra manifest ≫= ex_scopeKey = Some (scopeKeyOf build)
  /\ m_extra (updateManifestUrls sha256 manifest baseUrl servedId) ≫= ex_scopeKey
     = Some (scopeKeyOf build)
  /\ m_extra (updateManifestUrls sha256 manifest baseUrl servedId) ≫= ex_expoClient
     = Some cfg.
Proof.
  intros Hgen Hcfg.
  assert (Hextra : m_extra manifest
                   = Some {| ex_scopeKey := Some (scopeKeyOf build);
                             ex_expoClient := Some cfg; ex_rest := [] |}).
  { unfold generateManifest in Hgen.
    destruct (negb _); [discriminate|]. destruct (find _ _); [|discriminate].
    injection Hgen as <-. unfold scopeKeyOf. rewrite Hcfg. reflexivity. }
  unfold updateManifestUrls. rewrite Hextra. simpl.
  destruct (String.eqb_spec (scopeKeyOf build) "") as [E|_];
    [exfalso; exact (scopeKeyOf_nonempty build E)|].
  simpl. auto.
Qed.

(** X24. From the builder to the Expo client: once the success payload of a
    build has reached the webhook in a reachable state, a JSON-mode manifest
    request for that build is answered 200, and the launch asset it names
    has the hash the builder computed for the collected bundle file of the
    platform ([ios] for a build for [all]), under the URL
    bundles/<platform><ext> resolved against the base URL of the request;
    the other assets keep the hashes and the order of the builder. *)
Theorem builder_bundle_hash_served
    (BUILD_ID RUNTIME_VERSION PLATFORM : string) (out : BuildOutput)
    (now t1 t2 : string) (w : World) (b0 : Build) (manifest : ExpoManifest)
    (req : ManifestRequest) :
  let platform := if String.eqb PLATFORM "all" then "ios" else PLATFORM in
  let payload := firstPayload extname BUILD_ID RUNTIME_VERSION PLATFORM (inr out) now in
  let w' := exec (webhook payload t1 t2) w in
  reachable w ->
  builds (kv w) !! BUILD_ID = Some b0 ->
  generateManifest extname BUILD_ID RUNTIME_VERSION (Some (out_expoConfig out))
    (out_assets out) (out_bundles out) platform now = inr manifest ->
  param_id req = BUILD_ID ->
  protocolRefused req = false ->
  jsonMode req ->
  exists headers served bundleAsset,
    manifest_get sha256 JSON_stringify req w'
      = (Ret {| r_status := 200; r_headers := headers;
                r_body := ManifestBody served |}, w')
    /\ In bundleAsset (out_assets out)
    /\ bundlePathFor (out_bundles out) platform = Some (am_path bundleAsset)
    /\ ea_hash (m_launchAsset served) = am_hash bundleAsset
    /\ ea_url (m_launchAsset served)
       = resolveUrl (requestBaseUrl req) BUILD_ID
           ("bundles/" +:+ platform +:+ extname (am_path bundleAsset))
    /\ map ea_hash (m_assets served) = map ea_hash (m_assets manifest).
Proof.
  intros platform payload w' Hreach Hb0 Hgen Hparam Hproto Hjson.
  destruct (reachable_record_id _ _ _ Hreach Hb0) as [Hkey Hid].
  assert (Hpayload : payload
                     = {| wp_buildId := BUILD_ID; wp_status := StSuccess;
                          wp_error := None; wp_manifest := Some manifest;
                          wp_assets := Some (out_assets out) |}).
  { subst payload platform. unfold firstPayload. rewrite Hgen. reflexivity. }
  assert (Hw' : w' = exec releaseBuildLock
                       (exec (setBuild (webhookUpdated payload t1 t2 b0)) w)).
  { subst w'. unfold exec at 1. rewrite (webhook_found _ _ _ _ b0).
    - reflexivity.
    - rewrite Hpayload. exact Hid.
    - rewrite Hpayload. exact Hb0. }
  assert (Hrecord : builds (kv w') !! param_id req
                    = Some (webhookUpdated payload t1 t2 b0)).
  { rewrite Hw', Hparam. simpl.
    assert (Hsame : b_id (webhookUpdated payload t1 t2 b0) = BUILD_ID).
    { now rewrite b_id_webhookUpdated. }
    rewrite Hsame. apply lookup_insert_eq. }
  assert (Heq := manifest_get_json_stored sha256 JSON_stringify req w'
                   (webhookUpdated payload t1 t2 b0) manifest Hrecord).
  rewrite Hpayload in Heq at 1 2. specialize (Heq eq_refl eq_refl Hproto Hjson).
  destruct (generateManifest_launch _ _ _ _ _ _ _ _ Hgen)
    as (bundleAsset & Hin & Hpath & Hhash & Hurl).
  do 2 eexists. exists bundleAsset. split; [exact Heq|].
  split; [exact Hin|]. split; [exact Hpath|].
  assert (Hbid : b_id (webhookUpdated payload t1 t2 b0) = BUILD_ID).
  { now rewrite b_id_webhookUpdated. }
  unfold updateManifestUrls, resolveUrl. simpl. rewrite Hbid, Hhash, Hurl.
  split; [reflexivity|]. split; [reflexivity|].
  rewrite map_map. reflexivity.
Qed.

End BuilderToClient.

Lemma builder_scopeKey_served_witness :
  exists manifest,
    BuilderBuild.generateManifest exampleExtname "bld_AAAAAAAAAAAA" "exposdk:52.0.0"
      (Some demoConfig) iosOnlyAssets iosOnlyBundles "ios"
      "2025-01-01T00:04:59.000Z" = inr manifest
    /\ m_extra (updateManifestUrls SHA256.digest manifest "https://kitty.ngrok.app"
                  "bld_AAAAAAAAAAAA") ≫= ex_scopeKey
       = Some (scopeKeyOf (buildWithConfig (Some demoConfig))).
Proof.
  eexists. split; [vm_compute; reflexivity|].
  refine (proj1 (proj2 (builder_scopeKey_served exampleExtname SHA256.digest
                          "bld_AAAAAAAAAAAA" "exposdk:52.0.0" demoConfig iosOnlyAssets
                          iosOnlyBundles "ios" "2025-01-01T00:04:59.000Z" _
                          (buildWithConfig (Some demoConfig))
                          "https://kitty.ngrok.app" "bld_AAAAAAAAAAAA" _ _))).
  - vm_compute. reflexivity.
  - reflexivity.
Defined.

Lemma builder_bundle_hash_served_witness :
  exists headers served,
    manifest_get SHA256.digest exampleStringify jsonRequest
      (exec (webhook (BuilderRun.firstPayload exampleExtname "bld_AAAAAAAAAAAA"
                        "exposdk:52.0.0" "all" (inr demoOutput)
                        "2025-01-01T00:04:59.000Z")
               "2025-01-01T00:05:00.000Z" "2025-01-01T00:05:00.001Z")
         (inFlight Process))
    = (Ret {| r_status := 200; r_headers := headers;
              r_body := ManifestBody served |},
       exec (webhook (BuilderRun.firstPayload exampleExtname "bld_AAAAAAAAAAAA"
                        "exposdk:52.0.0" "all" (inr demoOutput)
                        "2025-01-01T00:04:59.000Z")
               "2025-01-01T00:05:00.000Z" "2025-01-01T00:05:00.001Z")
         (inFlight Process))
    /\ ea_hash (m_launchAsset served) = "hash-ios"
    /\ ea_url (m_launchAsset served)
       = "https://kitty.ngrok.app/v1/assets/bld_AAAAAAAAAAAA/bundles/ios.hbc".
Proof.
  assert (Hb0 : exists b0, builds (kv (inFlight Process)) !! "bld_AAAAAAAAAAAA" = Some b0)
    by (eexists; vm_compute; reflexivity).
  destruct Hb0 as [b0 Hb0].
  assert (Hgen : exists m,
    BuilderBuild.generateManifest exampleExtname "bld_AAAAAAAAAAAA" "exposdk:52.0.0"
      (Some (BuilderRun.out_expoConfig demoOutput)) (BuilderRun.out_assets demoOutput)
      (BuilderRun.out_bundles demoOutput) "ios" "2025-01-01T00:04:59.000Z" = inr m)
    by (eexists; vm_compute; reflexivity).
  destruct Hgen as [m Hgen].
  destruct (builder_bundle_hash_served exampleExtname SHA256.digest exampleStringify
              "bld_AAAAAAAAAAAA" "exposdk:52.0.0" "all" demoOutput
              "2025-01-01T00:04:59.000Z" "2025-01-01T00:05:00.000Z"
              "2025-01-01T00:05:00.001Z" (inFlight Process) b0 m jsonRequest
              (reachable_inFlight Process) Hb0 Hgen eq_refl eq_refl eq_refl)
    as (headers & served & a & Heq & Hin & Hpath & Hhash & Hurl & _).
  exists headers, served. split; [exact Heq|].
  assert (Ha : am_path a = "_expo/static/js/ios/index-1a2b.hbc")
    by (injection Hpath as Hpath; now symmetry).
  assert (Hah : am_hash a = "hash-ios").
  { simpl in Hin. destruct Hin as [<-|[<-|[<-|[]]]]; try discriminate Ha. reflexivity. }
  split; [now rewrite Hhash|]. rewrite Hurl, Ha. vm_compute. reflexivity.
Defined.
